(** * Role_Rename.py: the locate / rewrite / archive engine

    A shallow embedding of [src/Python Training/Role_Rename.py] and the
    properties of its engine: file-name derivation, XML escaping, the two
    [re.sub] rewrites, the per-row processor and the batch runner.

    Python [str] values are sequences of Unicode code points, so a string
    is a list of code points ([N]).  The part of the [re] module that the
    program uses (matching of its three patterns, parsing and expansion of
    replacement templates) is embedded as well, since the program builds a
    replacement template out of user data. *)

From Stdlib Require Import NArith Ascii String.
From stdpp Require Import base option list gmap.

Local Open Scope N_scope.

(** ** Python strings *)

Abbreviation str := (list N).

(** An ASCII literal as a Python string. *)
Definition ustr (s : string) : str := map N_of_ascii (list_ascii_of_string s).

Definition QUOTE : N := 34.      (* the double quote *)
Definition BACKSLASH : N := 92.
Definition UNDERSCORE : N := 95.
Definition HYPHEN : N := 45.
Definition NEWLINE : N := 10.

Definition in_range (lo hi c : N) : bool := (lo <=? c) && (c <=? hi).

Definition is_digit (c : N) : bool := in_range 48 57 c.
Definition is_octdigit (c : N) : bool := in_range 48 55 c.
Definition is_ascii_letter (c : N) : bool := in_range 65 90 c || in_range 97 122 c.
Definition is_ascii_alnum (c : N) : bool := is_digit c || is_ascii_letter c.

(** [Py_UNICODE_ISSPACE]: the code points that [str.strip] removes and
    that [\s] matches in a [str] pattern. *)
Definition Py_UNICODE_ISSPACE (c : N) : bool :=
  in_range 9 13 c || in_range 28 32 c || (c =? 133) || (c =? 160)
  || (c =? 5760) || in_range 8192 8202 c || (c =? 8232) || (c =? 8233)
  || (c =? 8239) || (c =? 8287) || (c =? 12288).

Fixpoint lstrip (s : str) : str :=
  match s with
  | c :: s' => if Py_UNICODE_ISSPACE c then lstrip s' else s
  | [] => []
  end.

Definition rstrip (s : str) : str := rev (lstrip (rev s)).

(** [s.strip()] *)
Definition strip (s : str) : str := rstrip (lstrip s).

Fixpoint starts_with (p s : str) : bool :=
  match p, s with
  | [], _ => true
  | a :: p', b :: s' => (a =? b) && starts_with p' s'
  | _ :: _, [] => false
  end.

(** [s.replace(old, new)] for a non-empty [old]: every occurrence, found
    from the left and not overlapping, is replaced.  [skip] counts the
    characters of an occurrence that are still to be passed over. *)
Fixpoint replace_from (old new : str) (skip : nat) (s : str) : str :=
  match s with
  | [] => []
  | c :: s' =>
      match skip with
      | S k => replace_from old new k s'
      | O =>
          if starts_with old s
          then new ++ replace_from old new (pred (length old)) s'
          else c :: replace_from old new 0%nat s'
      end
  end.

Definition replace (old new s : str) : str := replace_from old new 0%nat s.

(** ** Exceptions *)

Inductive exception :=
| re_error            (* re.error: a bad replacement template *)
| group_name_error    (* re.error or IndexError: a [\g<...>] that names no group *)
| KeyError            (* a dict has no such key *)
| AttributeError      (* a method call on None *)
| OSError.            (* a failed file operation *)

Inductive result (A : Type) :=
| Ok (a : A)
| Raise (e : exception).
Arguments Ok {A} a.
Arguments Raise {A} e.

Definition result_map {A B} (f : A -> B) (r : result A) : result B :=
  match r with
  | Ok a => Ok (f a)
  | Raise e => Raise e
  end.

(** ** The fragment of [re] used by the program *)

(** Compiled patterns.  The three patterns of the program are sequences
    of literals, one-character sets, greedy repetitions of a
    one-character set, and group marks: group [g] lies between marks
    [2*(g-1)] and [2*(g-1)+1]. *)
Inductive op :=
| LITERAL (c : N)
| IN (set : N -> bool)
| MAX_REPEAT (min : nat) (set : N -> bool)
| MARK (n : nat).

Definition literals (s : str) : list op := map LITERAL s.

(** Marks set so far, the most recent first, with offsets counted from
    the start of the match. *)
Abbreviation marks := (list (nat * nat)).

Fixpoint get_mark (n : nat) (ms : marks) : option nat :=
  match ms with
  | [] => None
  | (m, p) :: ms' => if Nat.eqb m n then Some p else get_mark n ms'
  end.

(** The maximal run of characters of [set] at the head of [s], and what
    follows it. *)
Fixpoint span (set : N -> bool) (s : str) : str * str :=
  match s with
  | c :: s' => if set c then (c :: fst (span set s'), snd (span set s')) else ([], s)
  | [] => ([], [])
  end.

(** A greedy repetition of a one-character set, followed by the rest of
    the pattern [k]: it takes as many characters as it can and gives
    them back one at a time while [k] fails; [taken] counts the
    characters taken so far. *)
Fixpoint max_repeat (min : nat) (set : N -> bool) (k : nat -> str -> option (nat * marks))
    (taken pos : nat) (s : str) : option (nat * marks) :=
  let stop := if (min <=? taken)%nat then k pos s else None in
  match s with
  | d :: s' =>
      if set d
      then match max_repeat min set k (S taken) (S pos) s' with
           | Some r => Some r
           | None => stop
           end
      else stop
  | [] => stop
  end.

(** Backtracking match of [pat] at the head of [s], which lies [pos]
    characters after the start of the match.  The result is the offset
    where the match ends, and the marks. *)
Fixpoint sre_match (pat : list op) : marks -> nat -> str -> option (nat * marks) :=
  match pat with
  | [] => fun ms pos _ => Some (pos, ms)
  | LITERAL c :: rest => fun ms pos s =>
      match s with
      | d :: s' => if c =? d then sre_match rest ms (S pos) s' else None
      | [] => None
      end
  | IN set :: rest => fun ms pos s =>
      match s with
      | d :: s' => if set d then sre_match rest ms (S pos) s' else None
      | [] => None
      end
  | MARK n :: rest => fun ms pos s => sre_match rest ((n, pos) :: ms) pos s
  | MAX_REPEAT min set :: rest => fun ms => max_repeat min set (sre_match rest ms) 0%nat
  end.

(** Number of groups of a pattern. *)
Fixpoint count_marks (pat : list op) : nat :=
  match pat with
  | [] => 0
  | MARK _ :: rest => S (count_marks rest)
  | _ :: rest => count_marks rest
  end.

Definition pattern_groups (pat : list op) : nat := Nat.div2 (count_marks pat).

(** Replacement templates, as [parse_template] produces them. *)
Inductive template_item :=
| TLiteral (s : str)
| TGroup (g : nat).

(** Value of a string of ASCII decimal (or octal) digits in base [base]. *)
Definition digits_value (base : N) (ds : str) : N :=
  fold_left (fun acc d => acc * base + (d - 48)) ds 0.

(** [ESCAPES] of the template parser. *)
Definition ESCAPES (c : N) : option N :=
  if c =? 97 then Some 7          (* \a *)
  else if c =? 98 then Some 8     (* \b *)
  else if c =? 102 then Some 12   (* \f *)
  else if c =? 110 then Some 10   (* \n *)
  else if c =? 114 then Some 13   (* \r *)
  else if c =? 116 then Some 9    (* \t *)
  else if c =? 118 then Some 11   (* \v *)
  else if c =? 92 then Some 92    (* \\ *)
  else None.

(** [getuntil(">")]: the text before the first [>]. *)
Fixpoint getuntil_gt (s : str) : option str :=
  match s with
  | [] => None
  | c :: s' => if c =? 62 then Some [] else option_map (cons c) (getuntil_gt s')
  end.

Definition addgroup (groups : nat) (index : N) (used : nat) : result (template_item * nat) :=
  if (groups <? N.to_nat index)%nat then Raise re_error else Ok (TGroup (N.to_nat index), used).

(** One escape of a template, as [parse_template] of CPython 3.12 reads
    it: [s] is the text after the backslash.  The result is the item the
    escape stands for and the number of characters of [s] it uses.  An
    octal escape of three digits takes precedence over a group reference
    of two; a reference to a group the pattern does not have, and an
    unknown escape of an ASCII letter, are errors. *)
Definition template_escape (groups : nat) (s : str) : result (template_item * nat) :=
  match s with
  | [] => Raise re_error                                   (* bad escape (end of pattern) *)
  | c :: s1 =>
      if c =? 103 then                                     (* \g<...> *)
        match s1 with
        | lt :: s2 =>
            if lt =? 60 then
              match getuntil_gt s2 with
              | None => Raise re_error                     (* missing >, unterminated name *)
              | Some [] => Raise re_error                  (* missing group name *)
              | Some name =>
                  if forallb is_digit name
                  then addgroup groups (digits_value 10 name) (3 + length name)
                  else Raise group_name_error
              end
            else Raise re_error                            (* missing < *)
        | [] => Raise re_error
        end
      else if c =? 48 then                                 (* \0, \0o, \0oo *)
        match s1 with
        | o1 :: s2 =>
            if is_octdigit o1 then
              match s2 with
              | o2 :: _ =>
                  if is_octdigit o2
                  then Ok (TLiteral [N.land (digits_value 8 [c; o1; o2]) 255], 3%nat)
                  else Ok (TLiteral [N.land (digits_value 8 [c; o1]) 255], 2%nat)
              | [] => Ok (TLiteral [N.land (digits_value 8 [c; o1]) 255], 2%nat)
              end
            else Ok (TLiteral [0], 1%nat)
        | [] => Ok (TLiteral [0], 1%nat)
        end
      else if is_digit c then
        match s1 with
        | d2 :: s2 =>
            if is_digit d2 then
              match s2 with
              | d3 :: _ =>
                  if is_octdigit c && is_octdigit d2 && is_octdigit d3 then
                    let v := digits_value 8 [c; d2; d3] in
                    if 255 <? v then Raise re_error        (* octal escape out of range *)
                    else Ok (TLiteral [v], 3%nat)
                  else addgroup groups (digits_value 10 [c; d2]) 2
              | [] => addgroup groups (digits_value 10 [c; d2]) 2
              end
            else addgroup groups (digits_value 10 [c]) 1
        | [] => addgroup groups (digits_value 10 [c]) 1
        end
      else
        match ESCAPES c with
        | Some e => Ok (TLiteral [e], 1%nat)
        | None =>
            if is_ascii_letter c then Raise re_error       (* bad escape *)
            else Ok (TLiteral [BACKSLASH; c], 1%nat)
        end
  end.

(** [parse_template]: [skip] counts the characters of the current escape
    that are still to be passed over. *)
Fixpoint parse_template (groups : nat) (skip : nat) (s : str) : result (list template_item) :=
  match s with
  | [] => Ok []
  | c :: s' =>
      match skip with
      | S k => parse_template groups k s'
      | O =>
          if c =? BACKSLASH then
            match template_escape groups s' with
            | Ok (item, used) => result_map (cons item) (parse_template groups used s')
            | Raise e => Raise e
            end
          else result_map (cons (TLiteral [c])) (parse_template groups 0%nat s')
      end
  end.

(** Text of a group of a match that starts at the head of [s] and ends
    [e] characters later.  Group 0 is the whole match; a group that took
    no part in the match is empty. *)
Definition group_text (s : str) (e : nat) (ms : marks) (g : nat) : str :=
  match g with
  | O => take e s
  | S g' =>
      match get_mark (2 * g') ms, get_mark (2 * g' + 1) ms with
      | Some b, Some f => take (f - b) (drop b s)
      | _, _ => []
      end
  end.

Definition expand_template (t : list template_item) (s : str) (e : nat) (ms : marks) : str :=
  flat_map (fun item => match item with
                        | TLiteral l => l
                        | TGroup g => group_text s e ms g
                        end) t.

(** The scan of [re.sub]: a match is looked for at each position from
    the left; a match is replaced by the expanded template and the scan
    goes on after it.  None of the program's patterns matches the empty
    string, so the rules of [re.sub] for empty matches play no part;
    [skip] counts the characters of the current match still to be
    passed over. *)
Fixpoint sub_scan (pat : list op) (t : list template_item) (skip : nat) (s : str) : str :=
  match s with
  | [] => []
  | c :: s' =>
      match skip with
      | S k => sub_scan pat t k s'
      | O =>
          match sre_match pat [] 0%nat s with
          | Some (e, ms) => expand_template t s e ms ++ sub_scan pat t (pred e) s'
          | None => c :: sub_scan pat t 0%nat s'
          end
      end
  end.

(** [re.sub(pattern, repl, string)].  The template is compiled first,
    whether or not the pattern matches anywhere, so a bad template
    raises for every [string]. *)
Definition re_sub (pat : list op) (repl : str) (s : str) : result str :=
  match parse_template (pattern_groups pat) 0%nat repl with
  | Ok t => Ok (sub_scan pat t 0%nat s)
  | Raise e => Raise e
  end.

(** ** The environment: files, directories and the log *)

(** A directory is its list of path components.  A file path is a
    directory and a base name: [os.path.join root name] is the pair and
    [os.path.dirname] its first component.  The base names the program
    joins never hold a path separator (see [format_file_name]). *)
Abbreviation dir := (list str).
Abbreviation path := (list str * str)%type.

Definition os_path_join (root : dir) (name : str) : path := (root, name).
Definition os_path_dirname (p : path) : dir := fst p.

Inductive level := INFO | WARNING | ERROR.

(** The messages the program logs, by the line that logs them. *)
Inductive message :=
| Searching_for_file (name : str)
| Found_file_at (p : path)
| File_not_found (name : str)
| New_file_created (p : path)
| Original_file_disabled_and_moved_to (p : path)
| Original_file_removed (p : path)
| Unexpected_error_processing (name : str) (e : exception)
| CSV_file_not_found
| CSV_Headers (headers : option (list str))
| CSV_format_error_Missing_required_headers
| Roles_not_found_file_created (p : path)
| Process_completed_successfully
| Unexpected_error (e : exception).

(** The state the program runs in.  [dirs] lists the directories in the
    order [os.walk] reports them; [files] maps the path of each regular
    file to its text, with the line ends as they are stored.  A file
    operation fails on the paths the environment refuses ([read_fails],
    [write_fails], [remove_fails]: permissions, locks, a missing
    directory, a full disk, bytes or characters that cannot be decoded
    or encoded).  A refused write leaves what [write_leaves] says:
    nothing new when the file could not be opened (None); when it was
    opened, and so created or truncated, the characters of the text
    written before the failure (Some of their number). *)
Record world := World {
  dirs : list dir;
  files : gmap path str;
  read_fails : path -> bool;
  write_fails : path -> bool;
  write_leaves : path -> option nat;
  remove_fails : path -> bool;
  log : list (level * message)
}.

Definition set_files (f : gmap path str) (w : world) : world :=
  World (dirs w) f (read_fails w) (write_fails w) (write_leaves w)
    (remove_fails w) (log w).

Definition add_log (r : level * message) (w : world) : world :=
  World (dirs w) (files w) (read_fails w) (write_fails w) (write_leaves w)
    (remove_fails w) (log w ++ [r]).

(** Computations that read and change the world and may raise. *)
Definition M (A : Type) : Type := world -> result A * world.

Definition ret {A} (a : A) : M A := fun w => (Ok a, w).

Definition bind {A B} (m : M A) (k : A -> M B) : M B :=
  fun w => match m w with
           | (Ok a, w') => k a w'
           | (Raise e, w') => (Raise e, w')
           end.

Definition raise {A} (e : exception) : M A := fun w => (Raise e, w).

(** A value or an exception of a pure computation. *)
Definition lift {A} (r : result A) : M A := fun w => (r, w).

(** [try: body except Exception as e: handler(e)] *)
Definition try_except {A} (body : M A) (handler : exception -> M A) : M A :=
  fun w => match body w with
           | (Ok a, w') => (Ok a, w')
           | (Raise e, w') => handler e w'
           end.

Notation "'let*' x ':=' m 'in' k" := (bind m (fun x => k))
  (at level 10, x name, m at level 100, k at level 200, only parsing).
Notation "m '>>' k" := (bind m (fun _ => k))
  (at level 100, k at level 200, right associativity, only parsing).

Definition logging_info (m : message) : M unit := fun w => (Ok tt, add_log (INFO, m) w).
Definition logging_warning (m : message) : M unit := fun w => (Ok tt, add_log (WARNING, m) w).
Definition logging_error (m : message) : M unit := fun w => (Ok tt, add_log (ERROR, m) w).

Fixpoint is_prefix (p d : dir) : bool :=
  match p, d with
  | [], _ => true
  | a :: p', b :: d' => bool_decide (a = b) && is_prefix p' d'
  | _ :: _, [] => false
  end.

(** The directories [os.walk(folder)] visits: [folder] and what lies below. *)
Definition os_walk (folder : dir) : M (list dir) :=
  fun w => (Ok (filter (fun d => is_prefix folder d = true) (dirs w)), w).

(** [file_name in files], for the [files] that [os.walk] lists in [root]. *)
Definition listed (root : dir) (file_name : str) : M bool :=
  fun w => (Ok (bool_decide (is_Some (files w !! os_path_join root file_name))), w).

Definition os_path_exists (p : path) : M bool :=
  fun w => (Ok (bool_decide (is_Some (files w !! p))), w).

(** What a file opened for reading in text mode with [newline=None]
    makes of the line ends: CR LF and a lone CR are read as LF. *)
Fixpoint universal_newlines (s : str) : str :=
  match s with
  | [] => []
  | c :: s' =>
      if c =? 13 then
        10 :: match s' with
              | c' :: s'' => if c' =? 10 then universal_newlines s'' else universal_newlines s'
              | [] => []
              end
      else c :: universal_newlines s'
  end.

(** [open(p, 'r', encoding='utf-8').read()] *)
Definition read_text (p : path) : M str :=
  fun w => match files w !! p with
           | Some content =>
               if read_fails w p then (Raise OSError, w)
               else (Ok (universal_newlines content), w)
           | None => (Raise OSError, w)
           end.

(** [open(p, 'w', ...).write(content)]: the file is opened, which
    creates or truncates it, and then written.  On writing [newline=None]
    turns LF into [os.linesep], which is LF here, as on POSIX. *)
Definition failed_write (p : path) (content : str) (w : world) : world :=
  match write_leaves w p with
  | None => w
  | Some written => set_files (<[p := take written content]> (files w)) w
  end.

Definition write_text (p : path) (content : str) : M unit :=
  fun w => if write_fails w p then (Raise OSError, failed_write p content w)
           else (Ok tt, set_files (<[p := content]> (files w)) w).

(** [os.remove(p)] *)
Definition os_remove (p : path) : M unit :=
  fun w => match files w !! p with
           | Some _ => if remove_fails w p then (Raise OSError, w)
                       else (Ok tt, set_files (delete p (files w)) w)
           | None => (Raise OSError, w)
           end.

(** ** The program *)

Section Program.

(** [Py_UNICODE_ISALNUM] on the code points above ASCII comes from the
    Unicode database of the interpreter and is a parameter here. *)
Variable isalnum_nonascii : N -> bool.

Definition Py_UNICODE_ISALNUM (c : N) : bool :=
  if c <? 128 then is_ascii_alnum c else isalnum_nonascii c.

(** [\w] *)
Definition is_word (c : N) : bool := Py_UNICODE_ISALNUM c || (c =? UNDERSCORE).

(** [[^\w\-]] *)
Definition not_word_or_hyphen (c : N) : bool := negb (is_word c || (c =? HYPHEN)).

Fixpoint find_in (file_name : str) (walk : list dir) : M (option path) :=
  match walk with
  | [] => ret None
  | root :: walk' =>
      let* found := listed root file_name in
      if found then ret (Some (os_path_join root file_name))
      else find_in file_name walk'
  end.

Definition find_file_recursive (folder : dir) (file_name : str) : M (option path) :=
  let* walk := os_walk folder in
  find_in file_name walk.

Definition format_file_name (role_name : str) : result str :=
  match re_sub [IN not_word_or_hyphen] [UNDERSCORE] role_name with
  | Ok formatted_name => Ok (ustr "NAB_Bundle_" ++ formatted_name ++ ustr ".xml")
  | Raise e => Raise e
  end.

(** The [replacements] dict; a dict is iterated in insertion order. *)
Definition replacements : list (str * str) :=
  [ (ustr "&", ustr "&amp;");
    (ustr "<", ustr "&lt;");
    (ustr ">", ustr "&gt;");
    ([QUOTE], ustr "&quot;");
    (ustr "'", ustr "&apos;") ].

Definition escape_special_characters (role_name : str) : str :=
  fold_left (fun role_name kv => replace (fst kv) (snd kv) role_name) replacements role_name.

(** The set of every character but the double quote. *)
Definition not_quote (c : N) : bool := negb (c =? QUOTE).

(** The pattern of line 89: group 1 is [displayName=] and the opening
    quote, then any run without a quote, group 2 the closing quote, then
    [\s+], group 3 [name=] and the opening quote, any run without a
    quote, and group 4 the closing quote. *)
Definition identity_pattern : list op :=
  [MARK 0] ++ literals (ustr "displayName=" ++ [QUOTE]) ++ [MARK 1]
  ++ [MAX_REPEAT 0 not_quote]
  ++ [MARK 2; LITERAL QUOTE; MARK 3]
  ++ [MAX_REPEAT 1 Py_UNICODE_ISSPACE]
  ++ [MARK 4] ++ literals (ustr "name=" ++ [QUOTE]) ++ [MARK 5]
  ++ [MAX_REPEAT 0 not_quote]
  ++ [MARK 6; LITERAL QUOTE; MARK 7].

(** [r'\1' + new_role_escaped + r'\2 \3' + new_role_escaped + r'\4'] *)
Definition identity_template (new_role_escaped : str) : str :=
  ustr "\1" ++ new_role_escaped ++ ustr "\2 \3" ++ new_role_escaped ++ ustr "\4".

(** Line 89: the rewrite of the [displayName]/[name] pair. *)
Definition rewrite_identity (content new_role_escaped : str) : result str :=
  re_sub identity_pattern (identity_template new_role_escaped) content.

(** [(<Bundle\s+)] *)
Definition disabled_pattern : list op :=
  [MARK 0] ++ literals (ustr "<Bundle") ++ [MAX_REPEAT 1 Py_UNICODE_ISSPACE] ++ [MARK 1].

(** The template of line 97: group 1, then the attribute [disabled] set
    to true, then a space. *)
Definition disabled_template : str :=
  ustr "\1disabled=" ++ [QUOTE] ++ ustr "true" ++ [QUOTE] ++ ustr " ".

(** Line 97: the insertion of the [disabled] attribute. *)
Definition mark_disabled (content : str) : result str :=
  re_sub disabled_pattern disabled_template content.

Definition Original_Role_Name : str := ustr "Original Role Name".
Definition New_Role_Name : str := ustr "New Role Name".

(** [row[key].strip()]: a row of [csv.DictReader] maps a field name to a
    string, or to None where the record was too short. *)
Definition row_strip (row : gmap str (option str)) (key : str) : M str :=
  match row !! key with
  | None => raise KeyError
  | Some None => raise AttributeError
  | Some (Some v) => ret (strip v)
  end.

Definition process_role (row : gmap str (option str)) (bundle_folder disabled_folder : dir)
  : M (option str) :=
  let* original_role := row_strip row Original_Role_Name in
  let* new_role := row_strip row New_Role_Name in
  let new_role_escaped := escape_special_characters new_role in
  let* old_file_name := lift (format_file_name original_role) in
  let* new_file_name := lift (format_file_name new_role) in
  logging_info (Searching_for_file old_file_name) >>
  let* old_file_path := find_file_recursive bundle_folder old_file_name in
  match old_file_path with
  | None =>
      logging_warning (File_not_found old_file_name) >>
      ret (Some original_role)
  | Some old_file_path =>
      logging_info (Found_file_at old_file_path) >>
      let new_file_path := os_path_join (os_path_dirname old_file_path) new_file_name in
      try_except
        (let* content := read_text old_file_path in
         let* content_new := lift (rewrite_identity content new_role_escaped) in
         write_text new_file_path content_new >>
         logging_info (New_file_created new_file_path) >>
         let* content_disabled := lift (mark_disabled content) in
         let disabled_file_path := os_path_join disabled_folder old_file_name in
         write_text disabled_file_path content_disabled >>
         logging_info (Original_file_disabled_and_moved_to disabled_file_path) >>
         let* still_there := os_path_exists old_file_path in
         (if still_there : bool
          then os_remove old_file_path >> logging_info (Original_file_removed old_file_path)
          else ret tt) >>
         ret None)
        (fun e =>
           logging_error (Unexpected_error_processing old_file_name e) >>
           ret (Some original_role))
  end.

(** The row [csv.DictReader] builds from a record: the field names are
    paired with the values in order, a later duplicate name overwrites
    an earlier one, and the names beyond a short record map to None.
    (The surplus values of a long record go under the key None, which no
    lookup of the program asks for.) *)
Definition dict_row (fieldnames record : list str) : gmap str (option str) :=
  fold_left (fun d kv => <[fst kv := snd kv]> d)
    (zip fieldnames (map Some record ++ replicate (length fieldnames - length record) None))
    ∅.

Definition has_key (key : str) (row : gmap str (option str)) : bool :=
  bool_decide (is_Some (row !! key)).

(** How the [for] loop of [process_files] ends: by the [return] of line
    134, or by running out of rows with the list of roles not found. *)
Inductive loop_exit :=
| Returned
| Exhausted (not_found_roles : list str).

(** The truth value of what [process_role] returns. *)
Definition truthy (r : option str) : bool :=
  match r with
  | Some (_ :: _) => true
  | _ => false
  end.

Fixpoint for_rows (fieldnames : list str) (records : list (list str))
    (bundle_folder disabled_folder : dir) (not_found_roles : list str) : M loop_exit :=
  match records with
  | [] => ret (Exhausted not_found_roles)
  | record :: records' =>
      let row := dict_row fieldnames record in
      if negb (has_key Original_Role_Name row) || negb (has_key New_Role_Name row)
      then logging_error CSV_format_error_Missing_required_headers >> ret Returned
      else
        let* not_found_role := process_role row bundle_folder disabled_folder in
        for_rows fieldnames records' bundle_folder disabled_folder
          (match not_found_role with
           | Some role => if truthy not_found_role then not_found_roles ++ [role] else not_found_roles
           | None => not_found_roles
           end)
  end.

Definition not_found_roles_txt : str := ustr "not_found_roles.txt".

(** The text written to the report: one role per line. *)
Definition report_text (not_found_roles : list str) : str :=
  flat_map (fun role => role ++ [NEWLINE]) not_found_roles.

(** [csv_file] is what [csv.reader] yields for the mapping file, record
    by record, or None when the file does not exist.  The first record
    is the header; [DictReader] passes over empty records. *)
Definition process_files (csv_file : option (list (list str)))
    (bundle_folder disabled_folder : dir) : M unit :=
  match csv_file with
  | None => logging_error CSV_file_not_found
  | Some records =>
      try_except
        (let headers := head records in
         logging_info (CSV_Headers headers) >>
         let* exit := for_rows (default [] headers)
                        (filter (fun record => record <> []) (tail records))
                        bundle_folder disabled_folder [] in
         match exit with
         | Returned => ret tt
         | Exhausted not_found_roles =>
             (match not_found_roles with
              | [] => ret tt
              | _ :: _ =>
                  let not_found_file := os_path_join bundle_folder not_found_roles_txt in
                  write_text not_found_file (report_text not_found_roles) >>
                  logging_info (Roles_not_found_file_created not_found_file)
              end) >>
             logging_info Process_completed_successfully
         end)
        (fun e => logging_error (Unexpected_error e))
  end.

End Program.

(** ** What the claims speak of *)

(** A run of characters of a set, and a text that does not go on with a
    character of the set. *)
Definition all_of (set : N -> bool) (s : str) : Prop := forallb set s = true.

Definition head_not (set : N -> bool) (s : str) : Prop :=
  match s with
  | c :: _ => set c = false
  | [] => True
  end.

(** *** File names *)

(** What [format_file_name] makes of one character. *)
Definition sanitize_char (isalnum_nonascii : N -> bool) (c : N) : N :=
  if is_word isalnum_nonascii c || (c =? HYPHEN) then c else UNDERSCORE.

Definition canonical (isalnum_nonascii : N -> bool) (role_name : str) : str :=
  ustr "NAB_Bundle_" ++ map (sanitize_char isalnum_nonascii) role_name ++ ustr ".xml".

(** The set [[A-Za-z0-9_-]]. *)
Definition ascii_name_char (c : N) : bool :=
  is_ascii_alnum c || (c =? UNDERSCORE) || (c =? HYPHEN).

(** A full match of [NAB_Bundle_[A-Za-z0-9_-]+\.xml]. *)
Definition matches_NAB_Bundle_pattern (name : str) : Prop :=
  exists body,
    body <> [] /\ all_of ascii_name_char body
    /\ name = ustr "NAB_Bundle_" ++ body ++ ustr ".xml".

(** *** Escaping *)

(** The entity of one character. *)
Definition escape_char (c : N) : str :=
  if c =? 38 then ustr "&amp;"
  else if c =? 60 then ustr "&lt;"
  else if c =? 62 then ustr "&gt;"
  else if c =? QUOTE then ustr "&quot;"
  else if c =? 39 then ustr "&apos;"
  else [c].

(** *** The [disabled] marker *)

Definition BUNDLE : str := ustr "<Bundle".

Definition DISABLED : str := ustr "disabled=" ++ [QUOTE] ++ ustr "true" ++ [QUOTE] ++ ustr " ".

(** The text starts with the root token followed by whitespace. *)
Definition starts_with_root_token (s : str) : Prop :=
  exists c rest, s = BUNDLE ++ c :: rest /\ Py_UNICODE_ISSPACE c = true.

(** [disabled_inserted content out]: reading [content] from the left,
    [out] repeats it and has the marker after each root token and the
    whitespace that follows it. *)
Inductive disabled_inserted : str -> str -> Prop :=
| inserted_end : disabled_inserted [] []
| inserted_token ws rest out :
    ws <> [] -> all_of Py_UNICODE_ISSPACE ws -> head_not Py_UNICODE_ISSPACE rest ->
    disabled_inserted rest out ->
    disabled_inserted (BUNDLE ++ ws ++ rest) (BUNDLE ++ ws ++ DISABLED ++ out)
| inserted_char c s out :
    ~ starts_with_root_token (c :: s) ->
    disabled_inserted s out ->
    disabled_inserted (c :: s) (c :: out).

(** *** The identity pair *)

Definition DISPLAYNAME : str := ustr "displayName=" ++ [QUOTE].
Definition NAME : str := ustr "name=" ++ [QUOTE].

(** The two attributes with values [v1] and [v2], [ws] between them. *)
Definition identity_pair (v1 ws v2 : str) : str :=
  DISPLAYNAME ++ v1 ++ [QUOTE] ++ ws ++ NAME ++ v2 ++ [QUOTE].

Definition starts_with_pair (s : str) : Prop :=
  exists v1 ws v2 rest,
    s = identity_pair v1 ws v2 ++ rest
    /\ all_of not_quote v1 /\ all_of not_quote v2
    /\ ws <> [] /\ all_of Py_UNICODE_ISSPACE ws.

(** [renamed new content out]: reading [content] from the left, [out]
    repeats it, with each identity pair replaced by the pair whose two
    values are [new], one space between the attributes. *)
Inductive renamed (new : str) : str -> str -> Prop :=
| renamed_end : renamed new [] []
| renamed_pair v1 ws v2 rest out :
    all_of not_quote v1 -> all_of not_quote v2 ->
    ws <> [] -> all_of Py_UNICODE_ISSPACE ws ->
    renamed new rest out ->
    renamed new (identity_pair v1 ws v2 ++ rest) (identity_pair new [32] new ++ out)
| renamed_char c s out :
    ~ starts_with_pair (c :: s) ->
    renamed new s out ->
    renamed new (c :: s) (c :: out).

(** No identity pair starts anywhere in the text. *)
Definition without_pair (content : str) : Prop :=
  forall before after, content = before ++ after -> ~ starts_with_pair after.

Definition not_backslash (c : N) : bool := negb (c =? BACKSLASH).

(** A name that the replacement template of line 89 takes literally: it
    holds no backslash and does not start with a digit. *)
Definition plain_name (new : str) : Prop :=
  all_of not_backslash new /\ head_not is_digit new.

(** *** Devices of the proofs *)

(** What a greedy repetition amounts to when nothing is given back. *)
Definition after_run (min : nat) (set : N -> bool) (k : nat -> str -> option (nat * marks))
    (taken pos : nat) (s : str) : option (nat * marks) :=
  if (min <=? taken + length (fst (span set s)))%nat
  then k (pos + length (fst (span set s)))%nat (snd (span set s))
  else None.

(** The whitespace after a root token at the head of [s], and the rest. *)
Definition root_token_at (s : str) : option (str * str) :=
  if starts_with BUNDLE s then
    let r := span Py_UNICODE_ISSPACE (drop 7 s) in
    match fst r with
    | [] => None
    | _ :: _ => Some r
    end
  else None.

(** The parts of an identity pair at the head of [s], and the rest. *)
Definition pair_at (s : str) : option (str * str * str * str) :=
  if starts_with DISPLAYNAME s then
    let r1 := span not_quote (drop 13 s) in
    match snd r1 with
    | _ :: s3 =>
        let r2 := span Py_UNICODE_ISSPACE s3 in
        match fst r2 with
        | [] => None
        | _ :: _ =>
            if starts_with NAME (snd r2) then
              let r3 := span not_quote (drop 6 (snd r2)) in
              match snd r3 with
              | _ :: rest => Some (fst r1, fst r2, fst r3, rest)
              | [] => None
              end
            else None
        end
    | [] => None
    end
  else None.

(** The marks of a match of the identity pattern whose values and
    whitespace have lengths [a], [c] and [b]. *)
Definition pair_marks (a b c : nat) : marks :=
  [(7, 13 + a + 1 + b + 6 + c + 1); (6, 13 + a + 1 + b + 6 + c); (5, 13 + a + 1 + b + 6);
   (4, 13 + a + 1 + b); (3, 13 + a + 1); (2, 13 + a); (1, 13); (0, 0)]%nat.

Definition literal_items (l : str) : list template_item := map (fun c => TLiteral [c]) l.

(** The template of line 89 for a plain name. *)
Definition identity_items (new : str) : list template_item :=
  [TGroup 1] ++ literal_items new ++ [TGroup 2; TLiteral [32]; TGroup 3]
  ++ literal_items new ++ [TGroup 4].

(** No identity pair starts at the head of [s] or further on. *)
Fixpoint no_pair_from (s : str) : bool :=
  match pair_at s with
  | Some _ => false
  | None =>
      match s with
      | [] => true
      | _ :: s' => no_pair_from s'
      end
  end.

(** The world with more log records, and with another log. *)
Definition logged (w : world) (l : list (level * message)) : world :=
  World (dirs w) (files w) (read_fails w) (write_fails w) (write_leaves w)
    (remove_fails w) (log w ++ l).

Definition relog (L : list (level * message)) (w : world) : world :=
  World (dirs w) (files w) (read_fails w) (write_fails w) (write_leaves w)
    (remove_fails w) L.

(** The first directory of a walk that lists the file. *)
Fixpoint locate (fs : gmap path str) (file_name : str) (walk : list dir) : option path :=
  match walk with
  | [] => None
  | root :: walk' =>
      if bool_decide (is_Some (fs !! os_path_join root file_name))
      then Some (os_path_join root file_name)
      else locate fs file_name walk'
  end.

Definition below (folder : dir) (ds : list dir) : list dir :=
  filter (fun d => is_prefix folder d = true) ds.

(** The body of the [try] of [process_role] and its handler. *)
Definition try_body (old_file_name new_file_name new_role_escaped : str)
    (disabled_folder : dir) (old_file_path : path) : M (option str) :=
  let new_file_path := os_path_join (os_path_dirname old_file_path) new_file_name in
  let* content := read_text old_file_path in
  let* content_new := lift (rewrite_identity content new_role_escaped) in
  write_text new_file_path content_new >>
  logging_info (New_file_created new_file_path) >>
  let* content_disabled := lift (mark_disabled content) in
  let disabled_file_path := os_path_join disabled_folder old_file_name in
  write_text disabled_file_path content_disabled >>
  logging_info (Original_file_disabled_and_moved_to disabled_file_path) >>
  let* still_there := os_path_exists old_file_path in
  (if still_there : bool
   then os_remove old_file_path >> logging_info (Original_file_removed old_file_path)
   else ret tt) >>
  ret None.

Definition on_exception (old_file_name original_role : str) (e : exception) : M (option str) :=
  logging_error (Unexpected_error_processing old_file_name e) >>
  ret (Some original_role).

(** A computation that changes nothing of the world but the files and
    the log, appends to the log and never reads it. *)
Definition log_blind {A} (m : M A) : Prop :=
  forall w, exists r f l, forall L, m (relog L w) = (r, relog (L ++ l) (set_files f w)).

(** ** A bundle folder for the examples *)

(** [Py_UNICODE_ISALNUM] on the Latin-1 block (code points 128 to 255),
    for the examples, which use no code point beyond it. *)
Definition latin1_isalnum (c : N) : bool :=
  (c =? 170) || (c =? 178) || (c =? 179) || (c =? 181) || (c =? 185) || (c =? 186)
  || in_range 188 190 c || in_range 192 214 c || in_range 216 246 c || in_range 248 255 c.

Definition quoted (s : string) : str := [QUOTE] ++ ustr s ++ [QUOTE].

Definition bundle_root : dir := [ustr "bundles"].
Definition roles_dir : dir := [ustr "bundles"; ustr "roles"].
Definition archive_dir : dir := [ustr "bundles"; ustr "00_Disabled"].

Definition NAB_Bundle_Admin_xml : str := ustr "NAB_Bundle_Admin.xml".
Definition NAB_Bundle_SuperAdmin_xml : str := ustr "NAB_Bundle_SuperAdmin.xml".

Definition Admin_xml : str :=
  ustr "<Bundle displayName=" ++ quoted "Admin" ++ ustr " name=" ++ quoted "Admin" ++ ustr ">".

Definition SuperAdmin_xml : str :=
  ustr "<Bundle displayName=" ++ quoted "SuperAdmin" ++ ustr " name=" ++ quoted "SuperAdmin"
  ++ ustr ">".

Definition Admin_disabled_xml : str :=
  ustr "<Bundle disabled=" ++ quoted "true" ++ ustr " displayName=" ++ quoted "Admin"
  ++ ustr " name=" ++ quoted "Admin" ++ ustr ">".

(** A role file without the identity pair. *)
Definition Admin_name_only_xml : str := ustr "<Bundle name=" ++ quoted "Admin" ++ ustr ">".

Definition no_fault : path -> bool := fun _ => false.
Definition fault_at (p : path) : path -> bool := fun p' => bool_decide (p' = p).

(** The role file of Admin in [in_dir], and nothing else. *)
Definition admin_world (in_dir : dir) (content : str) (write_fails remove_fails : path -> bool)
  : world :=
  World [bundle_root; roles_dir; archive_dir]
        {[ os_path_join in_dir NAB_Bundle_Admin_xml := content ]}
        no_fault write_fails (fun _ => None) remove_fails [].

(** The file that a blank original role names, in the roles directory,
    and nothing else. *)
Definition NAB_Bundle__xml : str := ustr "NAB_Bundle_.xml".

Definition blank_role_world (content : str) (write_fails remove_fails : path -> bool)
  : world :=
  World [bundle_root; roles_dir; archive_dir]
        {[ os_path_join roles_dir NAB_Bundle__xml := content ]}
        no_fault write_fails (fun _ => None) remove_fails [].

(** The role file of Admin in a folder where a refused write has opened
    the file and fails after [written] characters. *)
Definition admin_world_torn (in_dir : dir) (content : str) (write_fails : path -> bool)
    (written : nat) : world :=
  World [bundle_root; roles_dir; archive_dir]
        {[ os_path_join in_dir NAB_Bundle_Admin_xml := content ]}
        no_fault write_fails (fun _ => Some written) no_fault [].

Definition header : list str := [Original_Role_Name; New_Role_Name].

(** The world once [process_files] has logged the header. *)
Definition header_logged (w : world) : world :=
  add_log (INFO, CSV_Headers (Some header)) w.

Definition Admin_to_SuperAdmin : list str := [ustr "Admin"; ustr "SuperAdmin"].

Definition report_path (bundle_folder : dir) : path :=
  os_path_join bundle_folder not_found_roles_txt.

(** ** Further notions *)

(** The characters [format_file_name] keeps. *)
Definition is_kept (isalnum_nonascii : N -> bool) (c : N) : bool :=
  is_word isalnum_nonascii c || (c =? HYPHEN).

(** The characters of a file name: those kept, and the dot of the
    extension. *)
Definition is_name_char (isalnum_nonascii : N -> bool) (c : N) : bool :=
  is_kept isalnum_nonascii c || (c =? 46).

(** The slash and the backslash. *)
Definition is_separator (c : N) : bool := (c =? 47) || (c =? BACKSLASH).

(** The characters that end or open a tag or an attribute value. *)
Definition is_markup (c : N) : bool := (c =? 60) || (c =? 62) || (c =? QUOTE) || (c =? 39).

(** No root token followed by whitespace starts anywhere in the text. *)
Definition without_root_token (content : str) : Prop :=
  forall before after, content = before ++ after -> ~ starts_with_root_token after.

(** The same, by a scan. *)
Fixpoint no_root_token_from (s : str) : bool :=
  match root_token_at s with
  | Some _ => false
  | None =>
      match s with
      | [] => true
      | _ :: s' => no_root_token_from s'
      end
  end.

(** The trimmed original role of a record, empty when the record has
    none. *)
Definition original_role_of (fieldnames record : list str) : str :=
  match dict_row fieldnames record !! Original_Role_Name with
  | Some (Some o) => strip o
  | _ => []
  end.

(** The record gives both fields a value. *)
Definition full_record (fieldnames record : list str) : Prop :=
  exists o n,
    dict_row fieldnames record !! Original_Role_Name = Some (Some o)
    /\ dict_row fieldnames record !! New_Role_Name = Some (Some n).

(** The file of the record's original role is nowhere below the folder. *)
Definition nowhere_below (isalnum_nonascii : N -> bool) (bundle_folder : dir) (w : world)
    (fieldnames record : list str) : Prop :=
  Forall (fun d => files w !! os_path_join d
                     (canonical isalnum_nonascii (original_role_of fieldnames record)) = None)
    (below bundle_folder (dirs w)).

(** From [w] to [w'] the directories and the faults stay as they are
    and the log only grows. *)
Definition only_files_and_log (w w' : world) : Prop :=
  dirs w' = dirs w /\ read_fails w' = read_fails w
  /\ write_fails w' = write_fails w /\ remove_fails w' = remove_fails w
  /\ exists l, log w' = log w ++ l.

(** No record of [records] names [file_name] as the file of its original
    or of its new role. *)
Definition not_named_by (isalnum_nonascii : N -> bool) (fieldnames : list str)
    (records : list (list str)) (file_name : str) : Prop :=
  forall record key v,
    record ∈ records ->
    key = Original_Role_Name \/ key = New_Role_Name ->
    dict_row fieldnames record !! key = Some (Some v) ->
    canonical isalnum_nonascii (strip v) <> file_name.

(** The ways the row of a file found in directory [d] can end: what
    [process_role] returns, and the files it leaves, given the files
    [fs] it found; [cn] and [cd] are the contents written. *)
Inductive row_outcome (original_role old_file_name new_file_name : str)
    (disabled_folder d : dir) (fs : gmap path str) : option str -> gmap path str -> Prop :=
| row_untouched :
    row_outcome original_role old_file_name new_file_name disabled_folder d fs
      (Some original_role) fs
| row_new_file_only cn :
    row_outcome original_role old_file_name new_file_name disabled_folder d fs
      (Some original_role) (<[os_path_join d new_file_name := cn]> fs)
| row_not_removed cn cd :
    row_outcome original_role old_file_name new_file_name disabled_folder d fs
      (Some original_role)
      (<[os_path_join disabled_folder old_file_name := cd]>
         (<[os_path_join d new_file_name := cn]> fs))
| row_renamed cn cd :
    row_outcome original_role old_file_name new_file_name disabled_folder d fs
      None
      (delete (os_path_join d old_file_name)
         (<[os_path_join disabled_folder old_file_name := cd]>
            (<[os_path_join d new_file_name := cn]> fs))).

(** * Properties *)

(** ** Strings *)

Lemma Ok_inj {A} (a b : A) : Ok a = Ok b -> a = b.
Proof. congruence. Qed.

Lemma starts_with_spec (p s : str) :
  starts_with p s = true <-> exists r, s = p ++ r.
Proof.
  revert s. induction p as [|a p IH]; intros s; cbn [starts_with].
  - split; [eauto|reflexivity].
  - destruct s as [|b s].
    + split; [discriminate|]. intros [r Hr]. discriminate.
    + rewrite andb_true_iff, N.eqb_eq, IH. split.
      * intros [-> [r ->]]. eauto.
      * intros [r Hr]. injection Hr as -> ->. eauto.
Qed.

Lemma starts_with_app (p r : str) : starts_with p (p ++ r) = true.
Proof. apply starts_with_spec. eauto. Qed.

Lemma head_not_app (set : N -> bool) (a b : str) :
  head_not set a -> head_not set b -> head_not set (a ++ b).
Proof. destruct a; intros Ha Hb; [exact Hb|exact Ha]. Qed.

Lemma span_app (set : N -> bool) (s : str) : fst (span set s) ++ snd (span set s) = s.
Proof.
  induction s as [|c s IH]; [reflexivity|]. cbn [span].
  destruct (set c); cbn [fst snd app]; [rewrite IH|]; reflexivity.
Qed.

Lemma span_all (set : N -> bool) (s : str) : all_of set (fst (span set s)).
Proof.
  unfold all_of. induction s as [|c s IH]; [reflexivity|]. cbn [span].
  destruct (set c) eqn:E; cbn [fst forallb]; [rewrite E, IH|]; reflexivity.
Qed.

Lemma span_head (set : N -> bool) (s : str) : head_not set (snd (span set s)).
Proof.
  induction s as [|c s IH]; [exact I|]. cbn [span].
  destruct (set c) eqn:E; cbn [snd]; [exact IH|exact E].
Qed.

Lemma span_run (set : N -> bool) (a b : str) :
  all_of set a -> head_not set b -> span set (a ++ b) = (a, b).
Proof.
  unfold all_of. intros Ha Hb. induction a as [|c a IH]; cbn [app].
  - destruct b as [|c b]; [reflexivity|]. cbn [span]. cbn in Hb. rewrite Hb. reflexivity.
  - cbn [forallb] in Ha. apply andb_true_iff in Ha as [Hc Ha].
    cbn [span]. rewrite Hc, (IH Ha). reflexivity.
Qed.

Lemma span_snd_not_quote (s : str) c r :
  snd (span not_quote s) = c :: r -> c = QUOTE.
Proof.
  intros H. pose proof (span_head not_quote s) as Hh. rewrite H in Hh. cbn in Hh.
  unfold not_quote in Hh. apply negb_false_iff, N.eqb_eq in Hh. exact Hh.
Qed.

Lemma group_slice (a b c : str) (i j : nat) :
  i = length a -> j = (length a + length b)%nat ->
  take (j - i) (drop i (a ++ b ++ c)) = b.
Proof.
  intros -> ->. rewrite drop_app_length.
  replace (length a + length b - length a)%nat with (length b) by lia.
  apply take_app_length.
Qed.

(** ** [escape_special_characters] *)

Lemma replace_from_single (k : N) (new s : str) :
  replace_from [k] new 0 s = flat_map (fun c => if k =? c then new else [c]) s.
Proof.
  induction s as [|c s IH]; [reflexivity|].
  cbn [replace_from starts_with flat_map length pred].
  rewrite IH. destruct (k =? c); reflexivity.
Qed.

Lemma flat_map_flat_map {A B C} (f : B -> list C) (g : A -> list B) (l : list A) :
  flat_map f (flat_map g l) = flat_map (fun a => flat_map f (g a)) l.
Proof.
  induction l as [|a l IH]; [reflexivity|].
  cbn [flat_map]. rewrite flat_map_app, IH. reflexivity.
Qed.

Lemma escape_special_characters_flat_map (role_name : str) :
  escape_special_characters role_name = flat_map escape_char role_name.
Proof.
  unfold escape_special_characters, replacements, replace.
  cbn [fold_left fst snd].
  change (ustr "&") with [38]. change (ustr "<") with [60].
  change (ustr ">") with [62]. change [QUOTE] with [34]. change (ustr "'") with [39].
  rewrite !replace_from_single, !flat_map_flat_map.
  apply flat_map_ext. intros c.
  unfold escape_char. change QUOTE with 34.
  destruct (N.eqb_spec 38 c) as [<-|H38]; [reflexivity|].
  destruct (N.eqb_spec 60 c) as [<-|H60]; [reflexivity|].
  destruct (N.eqb_spec 62 c) as [<-|H62]; [reflexivity|].
  destruct (N.eqb_spec 34 c) as [<-|H34]; [reflexivity|].
  destruct (N.eqb_spec 39 c) as [<-|H39]; [reflexivity|].
  cbn [flat_map app].
  repeat match goal with
  | |- context [?a =? c] => destruct (N.eqb_spec a c); [congruence|]; cbn [flat_map app]
  end.
  destruct (N.eqb_spec c 38); [congruence|].
  destruct (N.eqb_spec c 60); [congruence|].
  destruct (N.eqb_spec c 62); [congruence|].
  destruct (N.eqb_spec c 34); [congruence|].
  destruct (N.eqb_spec c 39); [congruence|]. reflexivity.
Qed.

(** C4. [escape_special_characters] applies the five replacements in
    the order of the dict, the ampersand first; so it turns each
    character of the name into its own entity, and an ampersand brought
    in by an entity is never escaped again.  On the name of the spec it
    gives the text of the spec. *)
Theorem escape_special_characters_in_order :
  (forall role_name,
      escape_special_characters role_name
      = replace (ustr "'") (ustr "&apos;")
          (replace [QUOTE] (ustr "&quot;")
             (replace (ustr ">") (ustr "&gt;")
                (replace (ustr "<") (ustr "&lt;")
                   (replace (ustr "&") (ustr "&amp;") role_name)))))
  /\ (forall role_name,
        escape_special_characters role_name = flat_map escape_char role_name)
  /\ escape_special_characters (ustr "A&B<C>" ++ [QUOTE] ++ ustr "D'E")
     = ustr "A&amp;B&lt;C&gt;&quot;D&apos;E".
Proof.
  split; [reflexivity|]. split; [exact escape_special_characters_flat_map|].
  vm_compute. reflexivity.
Qed.

(** ** [format_file_name] *)

Section FileNames.

Variable isalnum_nonascii : N -> bool.

Lemma sub_scan_class (s : str) :
  sub_scan [IN (not_word_or_hyphen isalnum_nonascii)] [TLiteral [UNDERSCORE]] 0 s
  = map (sanitize_char isalnum_nonascii) s.
Proof.
  induction s as [|c s IH]; [reflexivity|].
  cbn [sub_scan sre_match map]. unfold sanitize_char at 1, not_word_or_hyphen at 1.
  destruct (is_word isalnum_nonascii c || (c =? HYPHEN)); cbn [negb].
  - rewrite IH. reflexivity.
  - cbn. rewrite IH. reflexivity.
Qed.

Lemma format_file_name_eq (role_name : str) :
  format_file_name isalnum_nonascii role_name = Ok (canonical isalnum_nonascii role_name).
Proof.
  unfold format_file_name, re_sub.
  change (parse_template _ _ [UNDERSCORE]) with (Ok [TLiteral [UNDERSCORE]]).
  cbv beta iota. rewrite sub_scan_class. reflexivity.
Qed.

Lemma sanitize_char_ascii (c : N) :
  ascii_name_char (sanitize_char isalnum_nonascii c)
  = negb ((128 <=? c) && isalnum_nonascii c).
Proof.
  unfold sanitize_char, is_word, Py_UNICODE_ISALNUM, ascii_name_char.
  destruct (N.ltb_spec c 128) as [Hlt|Hge].
  - assert ((128 <=? c) = false) as -> by (apply N.leb_gt; lia). cbn [andb negb].
    destruct (is_ascii_alnum c || (c =? UNDERSCORE) || (c =? HYPHEN)) eqn:E;
      [exact E|reflexivity].
  - assert ((128 <=? c) = true) as -> by (apply N.leb_le; lia). cbn [andb].
    assert (is_ascii_alnum c = false) as Hal.
    { unfold is_ascii_alnum, is_digit, is_ascii_letter, in_range.
      repeat match goal with
             | |- context [?a <=? ?b] => destruct (N.leb_spec a b)
             end; try reflexivity; lia. }
    assert ((c =? UNDERSCORE) = false) as Hu by (apply N.eqb_neq; unfold UNDERSCORE; lia).
    assert ((c =? HYPHEN) = false) as Hh by (apply N.eqb_neq; unfold HYPHEN; lia).
    rewrite Hu, Hh, !orb_false_r. destruct (isalnum_nonascii c); cbn [negb].
    + rewrite Hal, Hu, Hh. reflexivity.
    + reflexivity.
Qed.

(** C3, as amended.  [format_file_name] returns for every name: it keeps
    the characters that Python counts as alphanumeric, the underscore
    and the hyphen, puts an underscore for every other character, and
    wraps the result.  The file name matches
    [NAB_Bundle_[A-Za-z0-9_-]+\.xml] exactly when the role name is not
    empty and holds no alphanumeric character beyond ASCII. *)
Theorem format_file_name_sanitizes (role_name : str) :
  format_file_name isalnum_nonascii role_name
    = Ok (ustr "NAB_Bundle_" ++ map (sanitize_char isalnum_nonascii) role_name ++ ustr ".xml")
  /\ (matches_NAB_Bundle_pattern
        (ustr "NAB_Bundle_" ++ map (sanitize_char isalnum_nonascii) role_name ++ ustr ".xml")
      <-> role_name <> []
          /\ all_of (fun c => negb ((128 <=? c) && isalnum_nonascii c)) role_name).
Proof.
  split; [apply format_file_name_eq|]. unfold all_of.
  assert (forallb ascii_name_char (map (sanitize_char isalnum_nonascii) role_name)
          = forallb (fun c => negb ((128 <=? c) && isalnum_nonascii c)) role_name) as Hall.
  { induction role_name as [|c s IH]; [reflexivity|].
    cbn [map forallb]. rewrite sanitize_char_ascii, IH. reflexivity. }
  split.
  - intros (body & Hne & Hbody & Heq).
    apply app_inv_head in Heq. apply app_inv_tail in Heq. subst body.
    split; [|rewrite <- Hall; exact Hbody].
    intros ->. apply Hne. reflexivity.
  - intros [Hne Hok]. exists (map (sanitize_char isalnum_nonascii) role_name).
    split; [|split; [unfold all_of; rewrite Hall; exact Hok|reflexivity]].
    destruct role_name; [congruence|discriminate].
Qed.

End FileNames.

(** C3, as stated, fails: the empty role name gives [NAB_Bundle_.xml],
    which the pattern does not match. *)
Lemma format_file_name_empty_name :
  format_file_name latin1_isalnum [] = Ok (ustr "NAB_Bundle_.xml")
  /\ ~ matches_NAB_Bundle_pattern (ustr "NAB_Bundle_.xml").
Proof.
  split; [reflexivity|].
  intros (body & Hne & _ & Heq).
  apply (f_equal (@length N)) in Heq. rewrite !length_app in Heq.
  destruct body; [congruence|]. cbn in Heq. lia.
Qed.

(** ** Matching and substitution *)

Lemma sre_match_literals (l : str) (rest : list op) (ms : marks) (pos : nat) (s : str) :
  sre_match (literals l ++ rest) ms pos s
  = if starts_with l s then sre_match rest ms (pos + length l) (drop (length l) s) else None.
Proof.
  revert pos s. induction l as [|a l IH]; intros pos s.
  - cbn. rewrite Nat.add_0_r. reflexivity.
  - cbn [literals map app sre_match starts_with length].
    destruct s as [|b s]; [reflexivity|].
    destruct (a =? b); cbn [andb]; [|reflexivity].
    fold (literals l). rewrite IH. cbn [drop].
    replace (S pos + length l)%nat with (pos + S (length l))%nat by lia. reflexivity.
Qed.

(** A repetition gives nothing back when the rest of the pattern cannot
    start with a character of the set. *)
Lemma max_repeat_no_give_back (min : nat) (set : N -> bool) k :
  (forall pos c s, set c = true -> k pos (c :: s) = None) ->
  forall s taken pos, max_repeat min set k taken pos s = after_run min set k taken pos s.
Proof.
  intros Hk s. unfold after_run.
  induction s as [|c s IH]; intros taken pos; cbn [max_repeat span].
  - cbn [fst snd length]. rewrite !Nat.add_0_r. reflexivity.
  - destruct (set c) eqn:E; cbn [fst snd length].
    + rewrite IH. rewrite (Hk pos c s E).
      replace (S taken + length (fst (span set s)))%nat
        with (taken + S (length (fst (span set s))))%nat by lia.
      replace (S pos + length (fst (span set s)))%nat
        with (pos + S (length (fst (span set s))))%nat by lia.
      destruct (min <=? taken + S (length (fst (span set s))))%nat;
        [|destruct (min <=? taken)%nat; reflexivity].
      destruct (k _ _); [reflexivity|destruct (min <=? taken)%nat; reflexivity].
    + rewrite !Nat.add_0_r. reflexivity.
Qed.

(** Nor when the rest of the pattern always matches. *)
Lemma max_repeat_always (min : nat) (set : N -> bool) k :
  (forall pos s, k pos s <> None) ->
  forall s taken pos, max_repeat min set k taken pos s = after_run min set k taken pos s.
Proof.
  intros Hk s. unfold after_run.
  induction s as [|c s IH]; intros taken pos; cbn [max_repeat span].
  - cbn [fst snd length]. rewrite !Nat.add_0_r. reflexivity.
  - destruct (set c) eqn:E; cbn [fst snd length].
    + rewrite IH.
      replace (S taken + length (fst (span set s)))%nat
        with (taken + S (length (fst (span set s))))%nat by lia.
      replace (S pos + length (fst (span set s)))%nat
        with (pos + S (length (fst (span set s))))%nat by lia.
      destruct (Nat.leb_spec min (taken + S (length (fst (span set s))))) as [Hle|Hgt].
      * destruct (k _ _) eqn:Ek; [reflexivity|]. exfalso. exact (Hk _ _ Ek).
      * destruct (Nat.leb_spec min taken); [lia|reflexivity].
    + rewrite !Nat.add_0_r. reflexivity.
Qed.

Lemma sub_scan_skip (pat : list op) t (a rest : str) :
  sub_scan pat t (length a) (a ++ rest) = sub_scan pat t 0 rest.
Proof. induction a as [|c a IH]; [reflexivity|]. cbn [length app sub_scan]. exact IH. Qed.

Lemma expand_template_app t1 t2 (s : str) e (ms : marks) :
  expand_template (t1 ++ t2) s e ms = expand_template t1 s e ms ++ expand_template t2 s e ms.
Proof. unfold expand_template. apply flat_map_app. Qed.

Lemma expand_template_literals (l s : str) e (ms : marks) :
  expand_template (literal_items l) s e ms = l.
Proof.
  unfold expand_template, literal_items. induction l as [|c l IH]; [reflexivity|].
  cbn [map flat_map app]. rewrite IH. reflexivity.
Qed.

Lemma expand_template_group g (s : str) e (ms : marks) :
  expand_template [TGroup g] s e ms = group_text s e ms g.
Proof. unfold expand_template. cbn [flat_map]. apply app_nil_r. Qed.

(** ** [mark_disabled] *)

Lemma sre_match_disabled (s : str) :
  sre_match disabled_pattern [] 0 s
  = match root_token_at s with
    | Some (ws, _) => Some ((7 + length ws)%nat, [(1, 7 + length ws); (0, 0)]%nat)
    | None => None
    end.
Proof.
  unfold disabled_pattern, root_token_at. cbn [app sre_match].
  rewrite (sre_match_literals (ustr "<Bundle")). fold BUNDLE.
  destruct (starts_with BUNDLE s); [|reflexivity].
  cbn [sre_match]. rewrite max_repeat_always by (intros; discriminate).
  unfold after_run. change (length BUNDLE) with 7%nat. cbn [Nat.add].
  destruct (span Py_UNICODE_ISSPACE (drop 7 s)) as [ws r]. cbn [fst snd].
  destruct ws; reflexivity.
Qed.

Lemma root_token_at_Some (s ws r : str) :
  root_token_at s = Some (ws, r) ->
  s = BUNDLE ++ ws ++ r /\ ws <> [] /\ all_of Py_UNICODE_ISSPACE ws
  /\ head_not Py_UNICODE_ISSPACE r.
Proof.
  unfold root_token_at. destruct (starts_with BUNDLE s) eqn:E; [|discriminate].
  apply starts_with_spec in E as [t ->].
  change 7%nat with (length BUNDLE). rewrite drop_app_length.
  pose proof (span_app Py_UNICODE_ISSPACE t) as Happ.
  pose proof (span_all Py_UNICODE_ISSPACE t) as Hall.
  pose proof (span_head Py_UNICODE_ISSPACE t) as Hhead.
  destruct (span Py_UNICODE_ISSPACE t) as [a b]. cbn [fst snd] in *.
  destruct a as [|c a]; [discriminate|]. intros [= <- <-].
  rewrite Happ. repeat split; try assumption. discriminate.
Qed.

Lemma root_token_at_None (s : str) :
  root_token_at s = None -> ~ starts_with_root_token s.
Proof.
  unfold root_token_at. intros H (c & rest & -> & Hc).
  rewrite starts_with_app in H.
  change 7%nat with (length BUNDLE) in H. rewrite drop_app_length in H.
  cbn [span] in H. rewrite Hc in H. cbn [fst] in H. discriminate.
Qed.

Lemma parse_disabled_template :
  parse_template (pattern_groups disabled_pattern) 0 disabled_template
  = Ok ([TGroup 1] ++ literal_items DISABLED).
Proof. reflexivity. Qed.

Lemma mark_disabled_Ok (content : str) :
  mark_disabled content
  = Ok (sub_scan disabled_pattern ([TGroup 1] ++ literal_items DISABLED) 0 content).
Proof. unfold mark_disabled, re_sub. rewrite parse_disabled_template. reflexivity. Qed.

Lemma expand_disabled (ws r : str) :
  expand_template ([TGroup 1] ++ literal_items DISABLED) (BUNDLE ++ ws ++ r)
    (7 + length ws) [(1, 7 + length ws); (0, 0)]%nat
  = BUNDLE ++ ws ++ DISABLED.
Proof.
  rewrite expand_template_app, expand_template_literals, expand_template_group.
  change (group_text ?s ?e ?ms 1) with (take (7 + length ws - 0) (drop 0 s)).
  replace (BUNDLE ++ ws ++ r) with ([] ++ (BUNDLE ++ ws) ++ r)
    by (rewrite <- app_assoc; reflexivity).
  rewrite (group_slice [] (BUNDLE ++ ws) r 0 (7 + length ws)).
  - rewrite <- app_assoc. reflexivity.
  - reflexivity.
  - rewrite length_app. reflexivity.
Qed.

Lemma mark_disabled_returns (content : str) : exists out, mark_disabled content = Ok out.
Proof. rewrite mark_disabled_Ok. eauto. Qed.

(** C9. [mark_disabled] returns for every content, and what it returns
    is the content with the marker, a space after it, put in after each
    root token and the whitespace that follows it; every other character
    is repeated as it is. *)
Theorem mark_disabled_inserts (content : str) :
  exists out, mark_disabled content = Ok out /\ disabled_inserted content out.
Proof.
  rewrite mark_disabled_Ok. eexists. split; [reflexivity|].
  remember (length content) as n eqn:Hn.
  revert content Hn. induction n as [n IH] using lt_wf_ind. intros content Hn.
  destruct content as [|c s]; [constructor|].
  cbn [sub_scan]. rewrite sre_match_disabled.
  destruct (root_token_at (c :: s)) as [[ws r]|] eqn:E.
  - apply root_token_at_Some in E as (Heq & Hne & Hall & Hhead).
    rewrite (eq_trans (f_equal (fun x => expand_template _ x _ _) Heq) (expand_disabled ws r)).
    assert (s = tail (BUNDLE ++ ws) ++ r) as Hs.
    { change (c :: s = BUNDLE ++ ws ++ r) in Heq. cbn in Heq. injection Heq as _ ->.
      reflexivity. }
    assert (pred (7 + length ws) = length (tail (BUNDLE ++ ws))) as Hlen by reflexivity.
    rewrite Hlen. rewrite Hs at 2. rewrite sub_scan_skip, Heq, <- !app_assoc.
    constructor; try assumption.
    apply (IH (length r)); [|reflexivity].
    subst n. rewrite Heq, !length_app. cbn. lia.
  - constructor; [apply root_token_at_None; exact E|].
    apply (IH (length s)); [subst n; cbn; lia|reflexivity].
Qed.

(** ** [rewrite_identity] *)

Lemma sre_match_identity (s : str) :
  sre_match identity_pattern [] 0 s
  = match pair_at s with
    | Some (v1, ws, v2, _) =>
        Some ((13 + length v1 + 1 + length ws + 6 + length v2 + 1)%nat,
              pair_marks (length v1) (length ws) (length v2))
    | None => None
    end.
Proof.
  unfold identity_pattern, pair_at. cbn [app sre_match].
  rewrite (sre_match_literals (ustr "displayName=" ++ [QUOTE])). fold DISPLAYNAME.
  destruct (starts_with DISPLAYNAME s); [|reflexivity].
  change (length DISPLAYNAME) with 13%nat. cbn [Nat.add].
  cbn [app sre_match].
  rewrite max_repeat_no_give_back.
  2:{ intros pos c t Hc. cbn [sre_match]. unfold not_quote in Hc.
      destruct (N.eqb_spec QUOTE c) as [<-|]; [discriminate|reflexivity]. }
  unfold after_run. cbn [Nat.leb Nat.add].
  pose proof (span_snd_not_quote (drop 13 s)) as Hq.
  destruct (span not_quote (drop 13 s)) as [v1 s2]. cbn [fst snd] in *.
  destruct s2 as [|q s3]; [reflexivity|].
  rewrite (Hq _ _ eq_refl). cbn [sre_match]. rewrite N.eqb_refl.
  rewrite max_repeat_no_give_back.
  2:{ intros pos c t Hc. cbn [sre_match].
      rewrite (sre_match_literals (ustr "name=" ++ [QUOTE])).
      change (ustr "name=" ++ [QUOTE]) with (110 :: ustr "ame=" ++ [QUOTE]).
      cbn [starts_with].
      destruct (N.eqb_spec 110 c) as [<-|]; [discriminate|reflexivity]. }
  unfold after_run.
  destruct (span Py_UNICODE_ISSPACE s3) as [ws s4]. cbn [fst snd].
  destruct ws as [|w ws]; [reflexivity|].
  replace (1 <=? 0 + length (w :: ws))%nat with true by reflexivity.
  cbn [sre_match].
  rewrite (sre_match_literals (ustr "name=" ++ [QUOTE])). fold NAME.
  destruct (starts_with NAME s4); [|reflexivity].
  change (length NAME) with 6%nat.
  cbn [sre_match].
  rewrite max_repeat_no_give_back.
  2:{ intros pos c t Hc. cbn [sre_match]. unfold not_quote in Hc.
      destruct (N.eqb_spec QUOTE c) as [<-|]; [discriminate|reflexivity]. }
  unfold after_run. cbn [Nat.leb].
  pose proof (span_snd_not_quote (drop 6 s4)) as Hq'.
  destruct (span not_quote (drop 6 s4)) as [v2 s6]. cbn [fst snd] in *.
  destruct s6 as [|q' rest]; [reflexivity|].
  rewrite (Hq' _ _ eq_refl). cbn [sre_match]. rewrite N.eqb_refl.
  unfold pair_marks. f_equal. f_equal; [lia|].
  repeat (f_equal; try lia).
Qed.

Lemma pair_at_Some (s v1 ws v2 rest : str) :
  pair_at s = Some (v1, ws, v2, rest) ->
  s = identity_pair v1 ws v2 ++ rest
  /\ all_of not_quote v1 /\ all_of not_quote v2
  /\ ws <> [] /\ all_of Py_UNICODE_ISSPACE ws.
Proof.
  unfold pair_at. destruct (starts_with DISPLAYNAME s) eqn:E; [|discriminate].
  apply starts_with_spec in E as [t ->].
  change 13%nat with (length DISPLAYNAME). rewrite drop_app_length.
  pose proof (span_app not_quote t) as A1. pose proof (span_all not_quote t) as B1.
  pose proof (span_snd_not_quote t) as C1.
  destruct (span not_quote t) as [a s2]. cbn [fst snd] in *.
  destruct s2 as [|q s3]; [discriminate|]. rewrite (C1 _ _ eq_refl) in A1. clear C1.
  pose proof (span_app Py_UNICODE_ISSPACE s3) as A2.
  pose proof (span_all Py_UNICODE_ISSPACE s3) as B2.
  destruct (span Py_UNICODE_ISSPACE s3) as [b s4]. cbn [fst snd] in *.
  destruct b as [|w b]; [discriminate|].
  destruct (starts_with NAME s4) eqn:E; [|discriminate].
  apply starts_with_spec in E as [t' ->].
  change 6%nat with (length NAME). rewrite drop_app_length.
  pose proof (span_app not_quote t') as A3. pose proof (span_all not_quote t') as B3.
  pose proof (span_snd_not_quote t') as C3.
  destruct (span not_quote t') as [c s6]. cbn [fst snd] in *.
  destruct s6 as [|q' r]; [discriminate|]. rewrite (C3 _ _ eq_refl) in A3. clear C3.
  intros [= <- <- <- <-].
  split; [|repeat split; try assumption; discriminate].
  unfold identity_pair. rewrite <- A1, <- A2, <- A3, <- !app_assoc. reflexivity.
Qed.

Lemma pair_at_pair (v1 ws v2 rest : str) :
  all_of not_quote v1 -> all_of not_quote v2 -> ws <> [] -> all_of Py_UNICODE_ISSPACE ws ->
  pair_at (identity_pair v1 ws v2 ++ rest) = Some (v1, ws, v2, rest).
Proof.
  intros H1 H2 Hne Hws. unfold pair_at, identity_pair.
  rewrite <- !app_assoc, starts_with_app.
  change 13%nat with (length DISPLAYNAME). rewrite drop_app_length.
  rewrite (span_run not_quote v1) by (assumption || reflexivity). cbn [fst snd app].
  rewrite (span_run Py_UNICODE_ISSPACE ws) by (assumption || reflexivity). cbn [fst snd].
  destruct ws as [|w ws]; [congruence|].
  rewrite starts_with_app.
  change 6%nat with (length NAME). rewrite drop_app_length.
  rewrite (span_run not_quote v2) by (assumption || reflexivity). reflexivity.
Qed.

Lemma pair_at_None (s : str) : pair_at s = None -> ~ starts_with_pair s.
Proof.
  intros H (v1 & ws & v2 & rest & -> & H1 & H2 & Hne & Hws).
  rewrite pair_at_pair in H by assumption. discriminate.
Qed.

Lemma parse_template_literals (groups : nat) (l rest : str) :
  all_of not_backslash l ->
  parse_template groups 0 (l ++ rest)
  = result_map (app (literal_items l)) (parse_template groups 0 rest).
Proof.
  unfold all_of. induction l as [|c l IH]; intros Hl.
  - cbn [app literal_items map]. destruct (parse_template groups 0 rest); reflexivity.
  - cbn [forallb] in Hl. apply andb_true_iff in Hl as [Hc Hl].
    cbn [app parse_template]. unfold not_backslash in Hc. apply negb_true_iff in Hc.
    rewrite Hc, (IH Hl). destruct (parse_template groups 0 rest); reflexivity.
Qed.

(** A reference to one of the four groups, when no digit follows it. *)
Lemma parse_template_group (g : N) (rest : str) :
  in_range 49 52 g = true -> head_not is_digit rest ->
  parse_template 4 0 (BACKSLASH :: g :: rest)
  = result_map (cons (TGroup (N.to_nat (g - 48)))) (parse_template 4 0 rest).
Proof.
  intros Hg Hrest. cbn [parse_template]. rewrite N.eqb_refl.
  assert (template_escape 4 (g :: rest) = Ok (TGroup (N.to_nat (g - 48)), 1%nat)) as ->.
  { unfold in_range in Hg. apply andb_true_iff in Hg as [Hlo Hhi].
    apply N.leb_le in Hlo, Hhi.
    assert (g = 49 \/ g = 50 \/ g = 51 \/ g = 52) as Hcases by lia.
    destruct rest as [|d rest]; [destruct Hcases as [->|[->|[->| ->]]]; reflexivity|].
    cbn in Hrest.
    destruct Hcases as [->|[->|[->| ->]]]; cbn; rewrite Hrest; reflexivity. }
  reflexivity.
Qed.

Lemma parse_identity_template (new : str) :
  plain_name new ->
  parse_template (pattern_groups identity_pattern) 0 (identity_template new)
  = Ok (identity_items new).
Proof.
  intros [Hbs Hdigit]. change (pattern_groups identity_pattern) with 4%nat.
  unfold identity_template.
  change (ustr "\1" ++ ?x) with (BACKSLASH :: 49 :: x).
  rewrite parse_template_group; [|reflexivity|apply head_not_app; [assumption|reflexivity]].
  rewrite parse_template_literals by assumption.
  change (ustr "\2 \3" ++ ?x) with (BACKSLASH :: 50 :: ([32] ++ BACKSLASH :: 51 :: x)).
  rewrite parse_template_group; [|reflexivity|reflexivity].
  rewrite (parse_template_literals _ [32]) by reflexivity.
  rewrite parse_template_group; [|reflexivity|apply head_not_app; [assumption|reflexivity]].
  rewrite parse_template_literals by assumption.
  reflexivity.
Qed.

Lemma expand_identity (new v1 ws v2 rest : str) :
  expand_template (identity_items new) (identity_pair v1 ws v2 ++ rest)
    (13 + length v1 + 1 + length ws + 6 + length v2 + 1)
    (pair_marks (length v1) (length ws) (length v2))
  = identity_pair new [32] new.
Proof.
  unfold identity_items.
  rewrite !expand_template_app.
  change [TGroup 2; TLiteral [32]; TGroup 3] with ([TGroup 2] ++ literal_items [32] ++ [TGroup 3]).
  rewrite !expand_template_app.
  rewrite !expand_template_literals, !expand_template_group.
  set (s := identity_pair v1 ws v2 ++ rest).
  set (e := (13 + length v1 + 1 + length ws + 6 + length v2 + 1)%nat).
  change (group_text s e (pair_marks (length v1) (length ws) (length v2)) 1)
    with (take (13 - 0) (drop 0 s)).
  change (group_text s e (pair_marks (length v1) (length ws) (length v2)) 2)
    with (take (13 + length v1 + 1 - (13 + length v1)) (drop (13 + length v1) s)).
  change (group_text s e (pair_marks (length v1) (length ws) (length v2)) 3)
    with (take (13 + length v1 + 1 + length ws + 6 - (13 + length v1 + 1 + length ws))
            (drop (13 + length v1 + 1 + length ws) s)).
  change (group_text s e (pair_marks (length v1) (length ws) (length v2)) 4)
    with (take (13 + length v1 + 1 + length ws + 6 + length v2 + 1
                - (13 + length v1 + 1 + length ws + 6 + length v2))
            (drop (13 + length v1 + 1 + length ws + 6 + length v2) s)).
  assert (take (13 - 0) (drop 0 s) = DISPLAYNAME) as ->.
  { subst s. unfold identity_pair. rewrite <- !app_assoc.
    apply (group_slice [] DISPLAYNAME); reflexivity. }
  assert (take (13 + length v1 + 1 - (13 + length v1)) (drop (13 + length v1) s) = [QUOTE])
    as ->.
  { replace s with ((DISPLAYNAME ++ v1) ++ [QUOTE] ++ (ws ++ NAME ++ v2 ++ [QUOTE]) ++ rest)
      by (subst s; unfold identity_pair; rewrite <- !app_assoc; reflexivity).
    apply group_slice; rewrite ?length_app; reflexivity. }
  assert (take (13 + length v1 + 1 + length ws + 6 - (13 + length v1 + 1 + length ws))
            (drop (13 + length v1 + 1 + length ws) s) = NAME) as ->.
  { replace s with ((DISPLAYNAME ++ v1 ++ [QUOTE] ++ ws) ++ NAME ++ (v2 ++ [QUOTE]) ++ rest)
      by (subst s; unfold identity_pair; rewrite <- !app_assoc; reflexivity).
    apply group_slice; rewrite ?length_app; cbn [length];
      change (length DISPLAYNAME) with 13%nat; change (length NAME) with 6%nat; lia. }
  assert (take (13 + length v1 + 1 + length ws + 6 + length v2 + 1
                - (13 + length v1 + 1 + length ws + 6 + length v2))
            (drop (13 + length v1 + 1 + length ws + 6 + length v2) s) = [QUOTE]) as ->.
  { replace s with ((DISPLAYNAME ++ v1 ++ [QUOTE] ++ ws ++ NAME ++ v2) ++ [QUOTE] ++ rest)
      by (subst s; unfold identity_pair; rewrite <- !app_assoc; reflexivity).
    apply group_slice; rewrite ?length_app; cbn [length];
      change (length DISPLAYNAME) with 13%nat; change (length NAME) with 6%nat; lia. }
  unfold identity_pair. rewrite <- !app_assoc. reflexivity.
Qed.

(** What line 89 does for a plain name: every identity pair, from the
    left, becomes the pair with the new name in both values and one
    space between the attributes, and the text around the pairs is
    repeated as it is. *)
Lemma rewrite_identity_plain (content new : str) :
  plain_name new ->
  exists out, rewrite_identity content new = Ok out /\ renamed new content out.
Proof.
  intros Hnew. unfold rewrite_identity, re_sub.
  rewrite (parse_identity_template new Hnew).
  eexists. split; [reflexivity|].
  remember (length content) as n eqn:Hn.
  revert content Hn. induction n as [n IH] using lt_wf_ind. intros content Hn.
  destruct content as [|c s]; [constructor|].
  cbn [sub_scan]. rewrite sre_match_identity.
  destruct (pair_at (c :: s)) as [[[[v1 ws] v2] r]|] eqn:E.
  - apply pair_at_Some in E as (Heq & H1 & H2 & Hne & Hws).
    rewrite (eq_trans (f_equal (fun x => expand_template _ x _ _) Heq)
               (expand_identity new v1 ws v2 r)).
    assert (s = tail (identity_pair v1 ws v2) ++ r) as Hs.
    { unfold identity_pair in *. cbn in Heq. injection Heq as _ ->. reflexivity. }
    assert (pred (13 + length v1 + 1 + length ws + 6 + length v2 + 1)
            = length (tail (identity_pair v1 ws v2))) as Hlen.
    { unfold identity_pair.
      change (tail (DISPLAYNAME ++ ?x)) with (tail DISPLAYNAME ++ x).
      rewrite !length_app. change (length (tail DISPLAYNAME)) with 12%nat.
      change (length NAME) with 6%nat. cbn [length]. lia. }
    rewrite Hlen. rewrite Hs at 2. rewrite sub_scan_skip, Heq.
    constructor; try assumption.
    apply (IH (length r)); [|reflexivity].
    subst n. rewrite Heq. unfold identity_pair. rewrite !length_app.
    change (length DISPLAYNAME) with 13%nat. lia.
  - constructor; [apply pair_at_None; exact E|].
    apply (IH (length s)); [subst n; cbn; lia|reflexivity].
Qed.

Lemma renamed_without_pair (new content out : str) :
  renamed new content out -> without_pair content -> out = content.
Proof.
  induction 1 as [|v1 ws v2 rest out H1 H2 Hne Hws _ _|c s out Hno _ IH]; intros Hw.
  - reflexivity.
  - exfalso. apply (Hw [] _ eq_refl). exists v1, ws, v2, rest. auto.
  - f_equal. apply IH. intros before after ->. apply (Hw (c :: before) after). reflexivity.
Qed.

Lemma no_pair_from_without_pair (s : str) : no_pair_from s = true -> without_pair s.
Proof.
  induction s as [|c s IH]; intros H before after Heq.
  - destruct before; [|discriminate]. cbn in Heq. subst after.
    cbn [no_pair_from] in H. destruct (pair_at []) eqn:E; [discriminate|].
    apply pair_at_None. exact E.
  - cbn [no_pair_from] in H. destruct (pair_at (c :: s)) eqn:E; [discriminate|].
    destruct before as [|b before].
    + cbn in Heq. subst after. apply pair_at_None. exact E.
    + injection Heq as _ ->. apply (IH H before after). reflexivity.
Qed.

(** A content without the pair passes line 89 unchanged when the name
    is plain. *)
Lemma rewrite_identity_without_pair (content new : str) :
  plain_name new -> without_pair content -> rewrite_identity content new = Ok content.
Proof.
  intros Hnew Hw. destruct (rewrite_identity_plain content new Hnew) as (out & -> & Hout).
  rewrite (renamed_without_pair _ _ _ Hout Hw). reflexivity.
Qed.

(** C2: where the code departs from the claim.  The new name is pasted
    into the replacement template, so [re] reads a leading digit as part
    of the group reference before it and a backslash as an escape.  For
    the name 2024Admin both group references turn into the octal escapes
    of P and of the letter 208, and neither value is the new name; for
    2FA and for a name with a backslash before a letter the template is
    refused. *)
Theorem rewrite_identity_template_slip :
  rewrite_identity Admin_xml (escape_special_characters (ustr "2024Admin"))
    = Ok (ustr "<Bundle P24Admin" ++ [QUOTE] ++ [32; 208] ++ ustr "24Admin" ++ [QUOTE]
          ++ ustr ">")
  /\ rewrite_identity Admin_xml (escape_special_characters (ustr "2FA")) = Raise re_error
  /\ rewrite_identity Admin_xml (escape_special_characters (ustr "Sales\Admins"))
     = Raise re_error.
Proof. repeat split; vm_compute; reflexivity. Qed.

(** ** The world *)

Lemma files_add_log r w : files (add_log r w) = files w.
Proof. reflexivity. Qed.
Lemma files_set_files f w : files (set_files f w) = f.
Proof. reflexivity. Qed.
Lemma write_fails_add_log r w : write_fails (add_log r w) = write_fails w.
Proof. reflexivity. Qed.
Lemma write_fails_set_files f w : write_fails (set_files f w) = write_fails w.
Proof. reflexivity. Qed.
Lemma remove_fails_add_log r w : remove_fails (add_log r w) = remove_fails w.
Proof. reflexivity. Qed.
Lemma remove_fails_set_files f w : remove_fails (set_files f w) = remove_fails w.
Proof. reflexivity. Qed.

Ltac world_simpl :=
  repeat first
    [ rewrite files_add_log | rewrite files_set_files
    | rewrite write_fails_add_log | rewrite write_fails_set_files
    | rewrite remove_fails_add_log | rewrite remove_fails_set_files ].

Ltac world_eq :=
  unfold logging_info, logging_warning, logging_error, logged, set_files, add_log, ret;
  cbn [dirs files read_fails write_fails write_leaves remove_fails log];
  rewrite <- ?app_assoc; reflexivity.

Lemma relog_log w : relog (log w) w = w.
Proof. destruct w; reflexivity. Qed.

Lemma find_in_locate (file_name : str) (walk : list dir) (w : world) :
  find_in file_name walk w = (Ok (locate (files w) file_name walk), w).
Proof.
  induction walk as [|root walk IH]; [reflexivity|].
  cbn [find_in locate]. unfold bind, listed.
  destruct (bool_decide _); [reflexivity|exact IH].
Qed.

Lemma find_file_recursive_locate (folder : dir) (file_name : str) (w : world) :
  find_file_recursive folder file_name w
  = (Ok (locate (files w) file_name (below folder (dirs w))), w).
Proof. unfold find_file_recursive, bind, os_walk. apply find_in_locate. Qed.

Lemma locate_None fs name walk :
  Forall (fun d => fs !! os_path_join d name = None) walk -> locate fs name walk = None.
Proof.
  induction 1 as [|d walk Hd _ IH]; [reflexivity|].
  cbn [locate]. rewrite Hd. rewrite bool_decide_eq_false_2 by (intros [? ?]; discriminate).
  exact IH.
Qed.

Lemma locate_Some fs name walk p :
  locate fs name walk = Some p -> is_Some (fs !! p) /\ snd p = name.
Proof.
  induction walk as [|d walk IH]; [discriminate|]. cbn [locate].
  destruct (bool_decide (is_Some (fs !! os_path_join d name))) eqn:E; [|exact IH].
  intros [= <-]. apply bool_decide_eq_true in E. split; [exact E|reflexivity].
Qed.

(** ** One row *)

Section Rows.

Variable isalnum_nonascii : N -> bool.
Variables bundle_folder disabled_folder : dir.

Section Body.

Variables old_file_name new_file_name new_role_escaped : str.
Variable w : world.
Variable old_file_path : path.
Variable content : str.
Hypothesis Hfile : files w !! old_file_path = Some content.

Local Abbreviation new_file_path :=
  (os_path_join (os_path_dirname old_file_path) new_file_name).
Local Abbreviation disabled_file_path := (os_path_join disabled_folder old_file_name).
Local Abbreviation body :=
  (try_body old_file_name new_file_name new_role_escaped disabled_folder old_file_path).

Lemma try_body_template_raises e :
  read_fails w old_file_path = false ->
  rewrite_identity (universal_newlines content) new_role_escaped = Raise e ->
  body w = (Raise e, w).
Proof.
  intros H Hsub. unfold try_body, bind at 1, read_text. rewrite Hfile, H.
  unfold bind at 1, lift at 1. rewrite Hsub. reflexivity.
Qed.

Variables content_new content_disabled : str.
Hypothesis Hread : read_fails w old_file_path = false.
Hypothesis Hnew :
  rewrite_identity (universal_newlines content) new_role_escaped = Ok content_new.
Hypothesis Hdisabled : mark_disabled (universal_newlines content) = Ok content_disabled.
Hypothesis Hwrite_new : write_fails w new_file_path = false.

Lemma try_body_disabled_write_fails :
  write_fails w disabled_file_path = true ->
  body w
  = (Raise OSError,
     failed_write disabled_file_path content_disabled
       (logged (set_files (<[new_file_path := content_new]> (files w)) w)
          [(INFO, New_file_created new_file_path)])).
Proof.
  intros H. unfold try_body, bind at 1, read_text. rewrite Hfile, Hread.
  unfold bind at 1, lift at 1. rewrite Hnew.
  unfold bind at 1, write_text at 1. rewrite Hwrite_new.
  unfold bind at 1, logging_info at 1.
  unfold bind at 1, lift at 1. rewrite Hdisabled.
  unfold bind at 1, write_text at 1.
  world_simpl. rewrite H. reflexivity.
Qed.

Hypothesis Hwrite_disabled : write_fails w disabled_file_path = false.

Local Abbreviation files_written :=
  (<[disabled_file_path := content_disabled]> (<[new_file_path := content_new]> (files w))).

Lemma old_file_still_there : is_Some (files_written !! old_file_path).
Proof.
  rewrite !lookup_insert_is_Some'. right. right. eauto.
Qed.

Lemma try_body_to_removal :
  body w
  = bind (os_remove old_file_path)
      (fun _ => bind (logging_info (Original_file_removed old_file_path)) (fun _ => ret None))
      (logged (set_files files_written w)
         [(INFO, New_file_created new_file_path);
          (INFO, Original_file_disabled_and_moved_to disabled_file_path)]).
Proof.
  unfold try_body, bind at 1, read_text. rewrite Hfile, Hread.
  unfold bind at 1, lift at 1. rewrite Hnew.
  unfold bind at 1, write_text at 1. rewrite Hwrite_new.
  unfold bind at 1, logging_info at 1.
  unfold bind at 1, lift at 1. rewrite Hdisabled.
  unfold bind at 1, write_text at 1.
  world_simpl. rewrite Hwrite_disabled.
  unfold bind at 1, logging_info at 1.
  unfold bind at 1, os_path_exists at 1.
  world_simpl.
  rewrite (bool_decide_eq_true_2 _ old_file_still_there).
  match goal with
  | |- bind _ _ ?W = bind _ _ ?W' => replace W with W' by world_eq
  end.
  unfold bind. destruct (os_remove old_file_path _) as [[u|e] w']; reflexivity.
Qed.

Lemma try_body_remove_fails :
  remove_fails w old_file_path = true ->
  body w
  = (Raise OSError,
     logged (set_files files_written w)
       [(INFO, New_file_created new_file_path);
        (INFO, Original_file_disabled_and_moved_to disabled_file_path)]).
Proof.
  intros H. rewrite try_body_to_removal. unfold bind at 1, os_remove.
  cbn [files logged set_files remove_fails].
  destruct old_file_still_there as [c Hc]. rewrite Hc, H. reflexivity.
Qed.

Lemma try_body_succeeds :
  remove_fails w old_file_path = false ->
  body w
  = (Ok None,
     logged (set_files (delete old_file_path files_written) w)
       [(INFO, New_file_created new_file_path);
        (INFO, Original_file_disabled_and_moved_to disabled_file_path);
        (INFO, Original_file_removed old_file_path)]).
Proof.
  intros H. rewrite try_body_to_removal. unfold bind at 1, os_remove.
  cbn [files logged set_files remove_fails].
  destruct old_file_still_there as [c Hc]. rewrite Hc, H.
  unfold bind. world_eq.
Qed.

End Body.

Section Row.

Variable row : gmap str (option str).
Variables o n : str.
Hypothesis Ho : row !! Original_Role_Name = Some (Some o).
Hypothesis Hn : row !! New_Role_Name = Some (Some n).

Local Abbreviation old_file_name := (canonical isalnum_nonascii (strip o)).
Local Abbreviation new_file_name := (canonical isalnum_nonascii (strip n)).

Lemma process_role_unfold (w : world) :
  process_role isalnum_nonascii row bundle_folder disabled_folder w
  = match locate (files w) old_file_name (below bundle_folder (dirs w)) with
    | None =>
        (Ok (Some (strip o)),
         logged w [(INFO, Searching_for_file old_file_name);
                   (WARNING, File_not_found old_file_name)])
    | Some old_file_path =>
        try_except
          (try_body old_file_name new_file_name (escape_special_characters (strip n))
             disabled_folder old_file_path)
          (on_exception old_file_name (strip o))
          (logged w [(INFO, Searching_for_file old_file_name);
                     (INFO, Found_file_at old_file_path)])
    end.
Proof.
  unfold process_role, row_strip. rewrite Ho, Hn.
  unfold bind at 1. unfold ret at 1. unfold bind at 1. unfold ret at 1.
  unfold bind at 1, lift at 1. rewrite format_file_name_eq.
  unfold bind at 1, lift at 1. rewrite format_file_name_eq.
  unfold bind at 1, logging_info at 1.
  unfold bind at 1. rewrite find_file_recursive_locate.
  world_simpl. cbn [dirs add_log].
  destruct (locate _ _ _) as [p|].
  - unfold bind at 1, logging_info at 1. f_equal. world_eq.
  - unfold bind at 1, logging_warning at 1. world_eq.
Qed.

(** The row whose file is not there: nothing but the log changes. *)
Lemma process_role_not_found (w : world) :
  Forall (fun d => files w !! os_path_join d old_file_name = None)
    (below bundle_folder (dirs w)) ->
  process_role isalnum_nonascii row bundle_folder disabled_folder w
  = (Ok (Some (strip o)),
     logged w [(INFO, Searching_for_file old_file_name);
               (WARNING, File_not_found old_file_name)]).
Proof. intros H. rewrite process_role_unfold, (locate_None _ _ _ H). reflexivity. Qed.

Lemma process_role_found (w : world) (old_file_path : path) :
  fst (find_file_recursive bundle_folder old_file_name w) = Ok (Some old_file_path) ->
  process_role isalnum_nonascii row bundle_folder disabled_folder w
  = try_except
      (try_body old_file_name new_file_name (escape_special_characters (strip n))
         disabled_folder old_file_path)
      (on_exception old_file_name (strip o))
      (logged w [(INFO, Searching_for_file old_file_name);
                 (INFO, Found_file_at old_file_path)]).
Proof.
  intros H. rewrite find_file_recursive_locate in H. cbn [fst] in H. apply Ok_inj in H.
  rewrite process_role_unfold, H. reflexivity.
Qed.

End Row.

End Rows.

(** ** Rows and the log *)

Lemma log_blind_pure {A} (f : world -> result A * world) :
  (forall w, exists r fs, forall L, f (relog L w) = (r, relog L (set_files fs w))) ->
  log_blind f.
Proof.
  intros H w. destruct (H w) as (r & fs & Hf). exists r, fs, []. intros L.
  rewrite Hf, app_nil_r. reflexivity.
Qed.

Lemma log_blind_ret {A} (a : A) : log_blind (ret a).
Proof. apply log_blind_pure. intros w. exists (Ok a), (files w). reflexivity. Qed.

Lemma log_blind_raise {A} e : log_blind (@raise A e).
Proof. apply log_blind_pure. intros w. exists (Raise e), (files w). reflexivity. Qed.

Lemma log_blind_lift {A} (r : result A) : log_blind (lift r).
Proof. apply log_blind_pure. intros w. exists r, (files w). reflexivity. Qed.

Lemma log_blind_bind {A B} (m : M A) (k : A -> M B) :
  log_blind m -> (forall a, log_blind (k a)) -> log_blind (bind m k).
Proof.
  intros Hm Hk w. destruct (Hm w) as (r & f1 & l1 & H1).
  destruct r as [a|e].
  - destruct (Hk a (set_files f1 w)) as (r2 & f2 & l2 & H2).
    exists r2, f2, (l1 ++ l2). intros L. unfold bind. rewrite H1, H2, app_assoc.
    reflexivity.
  - exists (Raise e), f1, l1. intros L. unfold bind. rewrite H1. reflexivity.
Qed.

Lemma log_blind_try_except {A} (m : M A) (h : exception -> M A) :
  log_blind m -> (forall e, log_blind (h e)) -> log_blind (try_except m h).
Proof.
  intros Hm Hh w. destruct (Hm w) as (r & f1 & l1 & H1).
  destruct r as [a|e].
  - exists (Ok a), f1, l1. intros L. unfold try_except. rewrite H1. reflexivity.
  - destruct (Hh e (set_files f1 w)) as (r2 & f2 & l2 & H2).
    exists r2, f2, (l1 ++ l2). intros L. unfold try_except. rewrite H1, H2, app_assoc.
    reflexivity.
Qed.

Lemma log_blind_logging_info m : log_blind (logging_info m).
Proof. intros w. exists (Ok tt), (files w), [(INFO, m)]. reflexivity. Qed.

Lemma log_blind_logging_warning m : log_blind (logging_warning m).
Proof. intros w. exists (Ok tt), (files w), [(WARNING, m)]. reflexivity. Qed.

Lemma log_blind_logging_error m : log_blind (logging_error m).
Proof. intros w. exists (Ok tt), (files w), [(ERROR, m)]. reflexivity. Qed.

Lemma log_blind_os_walk folder : log_blind (os_walk folder).
Proof.
  apply log_blind_pure. intros w. unfold os_walk. cbn [dirs relog].
  eexists _, (files w). reflexivity.
Qed.

Lemma log_blind_listed root name : log_blind (listed root name).
Proof.
  apply log_blind_pure. intros w. unfold listed. cbn [files relog].
  eexists _, (files w). reflexivity.
Qed.

Lemma log_blind_os_path_exists p : log_blind (os_path_exists p).
Proof.
  apply log_blind_pure. intros w. unfold os_path_exists. cbn [files relog].
  eexists _, (files w). reflexivity.
Qed.

Lemma log_blind_read_text p : log_blind (read_text p).
Proof.
  apply log_blind_pure. intros w. unfold read_text. cbn [files relog read_fails].
  destruct (files w !! p); [destruct (read_fails w p)|]; eexists _, (files w); reflexivity.
Qed.

Lemma log_blind_write_text p c : log_blind (write_text p c).
Proof.
  apply log_blind_pure. intros w. unfold write_text, failed_write.
  cbn [files relog write_fails write_leaves].
  destruct (write_fails w p);
    [destruct (write_leaves w p); [eexists _, _|eexists _, (files w)]|eexists _, _];
    reflexivity.
Qed.

Lemma log_blind_os_remove p : log_blind (os_remove p).
Proof.
  apply log_blind_pure. intros w. unfold os_remove. cbn [files relog remove_fails].
  destruct (files w !! p);
    [destruct (remove_fails w p); [eexists _, (files w)|eexists _, _]|eexists _, (files w)];
    reflexivity.
Qed.

Create HintDb log_blind.
#[local] Hint Resolve log_blind_ret log_blind_raise log_blind_lift log_blind_logging_info
  log_blind_logging_warning log_blind_logging_error log_blind_os_walk log_blind_listed
  log_blind_os_path_exists log_blind_read_text log_blind_write_text log_blind_os_remove
  : log_blind.

Ltac log_blind_steps :=
  repeat first
    [ apply log_blind_bind; [|intros ?]
    | apply log_blind_try_except; [|intros ?]
    | solve [auto with log_blind]
    | match goal with
      | |- log_blind (match ?x with _ => _ end) => destruct x
      | |- log_blind (if ?x then _ else _) => destruct x
      end ].

Lemma log_blind_find_in name walk : log_blind (find_in name walk).
Proof. induction walk; cbn [find_in]; log_blind_steps. Qed.

#[local] Hint Resolve log_blind_find_in : log_blind.

Lemma log_blind_process_role tbl row bf df : log_blind (process_role tbl row bf df).
Proof. unfold process_role, row_strip, find_file_recursive. log_blind_steps. Qed.

(** What a row does to the files does not depend on what was logged
    before it, and no row changes what the environment refuses. *)
Lemma process_role_relog tbl row bf df w r w' L :
  process_role tbl row bf df w = (r, w') ->
  write_fails w' = write_fails w
  /\ exists L', process_role tbl row bf df (relog L w) = (r, relog L' w').
Proof.
  intros H. destruct (log_blind_process_role tbl row bf df w) as (r0 & f0 & l0 & H0).
  pose proof (H0 (log w)) as H1. rewrite relog_log, H in H1. injection H1 as -> ->.
  split; [reflexivity|].
  exists (L ++ l0). rewrite H0. reflexivity.
Qed.

(** ** The rows of [csv.DictReader] *)

Lemma fold_insert_lookup (l : list (str * option str)) (m : gmap str (option str)) k v :
  fold_left (fun d kv => <[fst kv := snd kv]> d) l m !! k = Some v ->
  (k, v) ∈ l \/ m !! k = Some v.
Proof.
  revert m. induction l as [|[k' v'] l IH]; intros m H; cbn [fold_left fst snd] in H.
  - right. exact H.
  - destruct (IH _ H) as [Hin|Hm].
    + left. apply elem_of_cons. right. exact Hin.
    + destruct (decide (k' = k)) as [->|Hne].
      * rewrite lookup_insert_eq in Hm. injection Hm as ->.
        left. apply elem_of_cons. left. reflexivity.
      * rewrite lookup_insert_ne in Hm by exact Hne. right. exact Hm.
Qed.

Lemma dict_row_lookup_Some (fieldnames record : list str) k v :
  dict_row fieldnames record !! k = Some v -> k ∈ fieldnames.
Proof.
  unfold dict_row. intros H. apply fold_insert_lookup in H as [Hin|H].
  - apply elem_of_zip_l in Hin. exact Hin.
  - rewrite lookup_empty in H. discriminate.
Qed.

Lemma has_key_missing (fieldnames record : list str) k :
  k ∉ fieldnames -> has_key k (dict_row fieldnames record) = false.
Proof.
  intros Hk. unfold has_key. apply bool_decide_eq_false. intros [v Hv].
  apply Hk. eapply dict_row_lookup_Some. exact Hv.
Qed.

Lemma has_key_Some (row : gmap str (option str)) k v :
  row !! k = Some v -> has_key k row = true.
Proof. intros H. unfold has_key. apply bool_decide_eq_true. eauto. Qed.

(** An empty record gives no field a value. *)
Lemma dict_row_empty_record (fieldnames : list str) k v :
  dict_row fieldnames [] !! k <> Some (Some v).
Proof.
  unfold dict_row. intros H. apply fold_insert_lookup in H as [Hin|H].
  - apply elem_of_zip_r in Hin. cbn [map app] in Hin.
    apply elem_of_replicate in Hin as [Hin _]. discriminate.
  - rewrite lookup_empty in H. discriminate.
Qed.

(** ** The loop over the rows *)

Section Loop.

Variable isalnum_nonascii : N -> bool.
Variables bundle_folder disabled_folder : dir.

Lemma for_rows_missing_header fieldnames record records acc w :
  Original_Role_Name ∉ fieldnames \/ New_Role_Name ∉ fieldnames ->
  for_rows isalnum_nonascii fieldnames (record :: records) bundle_folder disabled_folder acc w
  = (Ok Returned, logged w [(ERROR, CSV_format_error_Missing_required_headers)]).
Proof.
  intros H. cbn [for_rows].
  assert (negb (has_key Original_Role_Name (dict_row fieldnames record))
          || negb (has_key New_Role_Name (dict_row fieldnames record)) = true) as ->.
  { destruct H as [H|H]; rewrite (has_key_missing _ _ _ H); cbn [negb orb];
      [reflexivity|apply orb_true_r]. }
  unfold bind, logging_error. world_eq.
Qed.

Lemma process_role_Ok_row row w (r : option str) w' :
  process_role isalnum_nonascii row bundle_folder disabled_folder w = (Ok r, w') ->
  exists o n, row !! Original_Role_Name = Some (Some o)
              /\ row !! New_Role_Name = Some (Some n).
Proof.
  unfold process_role, row_strip. unfold bind at 1.
  destruct (row !! Original_Role_Name) as [[o|]|]; try discriminate.
  unfold ret at 1. unfold bind at 1.
  destruct (row !! New_Role_Name) as [[n|]|]; try discriminate.
  eauto.
Qed.

Lemma for_rows_step fieldnames record records acc w r w' :
  process_role isalnum_nonascii (dict_row fieldnames record) bundle_folder disabled_folder w
    = (Ok r, w') ->
  for_rows isalnum_nonascii fieldnames (record :: records) bundle_folder disabled_folder acc w
  = for_rows isalnum_nonascii fieldnames records bundle_folder disabled_folder
      (match r with
       | Some role => if truthy r then acc ++ [role] else acc
       | None => acc
       end) w'.
Proof.
  intros H. cbn [for_rows].
  destruct (process_role_Ok_row _ _ _ _ H) as (o & n & Ho & Hn).
  rewrite (has_key_Some _ _ _ Ho), (has_key_Some _ _ _ Hn). cbn [negb orb].
  unfold bind at 1. rewrite H. reflexivity.
Qed.

Lemma for_rows_app (fieldnames : list str) (before after : list (list str)) :
  forall (acc : list str) (w : world),
    for_rows isalnum_nonascii fieldnames (before ++ after) bundle_folder disabled_folder acc w
    = match for_rows isalnum_nonascii fieldnames before bundle_folder disabled_folder acc w with
      | (Ok (Exhausted acc'), w1) =>
          for_rows isalnum_nonascii fieldnames after bundle_folder disabled_folder acc' w1
      | other => other
      end.
Proof.
  induction before as [|record before IH]; intros acc w; [reflexivity|].
  cbn [app for_rows].
  destruct (negb _ || negb _); [reflexivity|].
  unfold bind.
  destruct (process_role _ _ _ _ w) as [[r|e] w1]; [apply IH|reflexivity].
Qed.

(** The loop only adds to the roles it has collected. *)
Lemma for_rows_collects (fieldnames : list str) (records : list (list str)) :
  forall (acc : list str) (w : world) (roles : list str) (w' : world),
    for_rows isalnum_nonascii fieldnames records bundle_folder disabled_folder acc w
      = (Ok (Exhausted roles), w') ->
    exists more, roles = acc ++ more.
Proof.
  induction records as [|record records IH]; intros acc w roles w' H.
  - cbn [for_rows] in H. unfold ret in H. injection H as <- _.
    exists []. symmetry. apply app_nil_r.
  - cbn [for_rows] in H.
    destruct (negb _ || negb _); [unfold bind, logging_error, ret in H; discriminate H|].
    unfold bind in H.
    destruct (process_role _ _ _ _ w) as [[r|e] w1]; [|discriminate H].
    apply IH in H as [more ->].
    destruct r as [role|]; [destruct (truthy (Some role))|]; eauto.
    exists (role :: more). rewrite <- app_assoc. reflexivity.
Qed.

(** No row changes what the environment refuses. *)
Lemma for_rows_write_fails (fieldnames : list str) (records : list (list str)) :
  forall (acc : list str) (w : world) res (w' : world),
    for_rows isalnum_nonascii fieldnames records bundle_folder disabled_folder acc w
      = (res, w') ->
    write_fails w' = write_fails w.
Proof.
  induction records as [|record records IH]; intros acc w res w' H.
  - cbn [for_rows] in H. unfold ret in H. injection H as _ <-. reflexivity.
  - cbn [for_rows] in H.
    destruct (negb _ || negb _).
    { unfold bind, logging_error, ret in H. injection H as _ <-. reflexivity. }
    unfold bind in H.
    destruct (process_role _ _ _ _ w) as [[r|e] w1] eqn:E;
      destruct (process_role_relog _ _ _ _ _ _ _ [] E) as [Hw _].
    + rewrite (IH _ _ _ _ H). exact Hw.
    + injection H as _ <-. exact Hw.
Qed.

Lemma filter_nonempty (records : list (list str)) :
  Forall (fun record => record <> []) records ->
  filter (fun record => record <> []) records = records.
Proof.
  induction 1 as [|record records Hr _ IH]; [reflexivity|].
  rewrite filter_cons_True by exact Hr. f_equal. exact IH.
Qed.

(** When a batch runs to its end, a row that returns a role that is not
    empty has it in the report, after the roles collected before it. *)
Lemma process_files_reports fieldnames before record after w0 w role w1 acc roles w2 :
  Forall (fun r => r <> []) before ->
  Forall (fun r => r <> []) after ->
  for_rows isalnum_nonascii fieldnames before bundle_folder disabled_folder []
    (logged w0 [(INFO, CSV_Headers (Some fieldnames))]) = (Ok (Exhausted acc), w) ->
  process_role isalnum_nonascii (dict_row fieldnames record) bundle_folder disabled_folder w
    = (Ok (Some role), w1) ->
  role <> [] ->
  for_rows isalnum_nonascii fieldnames after bundle_folder disabled_folder (acc ++ [role]) w1
    = (Ok (Exhausted roles), w2) ->
  write_fails w0 (report_path bundle_folder) = false ->
  exists w',
    process_files isalnum_nonascii (Some (fieldnames :: before ++ record :: after))
      bundle_folder disabled_folder w0 = (Ok tt, w')
    /\ files w' = <[report_path bundle_folder := report_text roles]> (files w2)
    /\ exists later, roles = acc ++ role :: later.
Proof.
  intros Hbefore Hafter Hrows Hrun Hrole Hrest Hwrite.
  assert (write_fails w2 = write_fails w0) as Hfaults.
  { rewrite (for_rows_write_fails _ _ _ _ _ _ Hrest).
    destruct (process_role_relog _ _ _ _ _ _ _ [] Hrun) as [-> _].
    exact (for_rows_write_fails _ _ _ _ _ _ Hrows). }
  rewrite <- Hfaults in Hwrite.
  assert (record <> []) as Hrecord.
  { intros ->. destruct (process_role_Ok_row _ _ _ _ Hrun) as (o & n & Ho & _).
    exact (dict_row_empty_record _ _ _ Ho). }
  destruct (for_rows_collects _ _ _ _ _ _ Hrest) as [later Hroles].
  rewrite <- app_assoc in Hroles. cbn [app] in Hroles.
  unfold process_files, try_except. unfold bind at 1, logging_info at 1. unfold bind at 1.
  cbn [head tail default]. unfold id.
  rewrite filter_app, filter_cons_True by exact Hrecord.
  rewrite (filter_nonempty _ Hbefore), (filter_nonempty _ Hafter).
  rewrite for_rows_app.
  change (add_log (INFO, CSV_Headers (Some fieldnames)) w0)
    with (logged w0 [(INFO, CSV_Headers (Some fieldnames))]).
  rewrite Hrows, (for_rows_step _ _ _ _ _ _ _ Hrun).
  assert (truthy (Some role) = true) as -> by (destruct role; [congruence|reflexivity]).
  rewrite Hrest.
  destruct roles as [|r1 roles1] eqn:E.
  { exfalso. destruct acc; discriminate Hroles. }
  unfold bind at 1. unfold bind at 1. unfold write_text at 1.
  fold (report_path bundle_folder). rewrite Hwrite.
  eexists. split; [unfold bind, logging_info; reflexivity|].
  split; [reflexivity|]. exists later. exact Hroles.
Qed.

(** A file of one row: the row is processed as it would be alone, and
    the report is written when the row returns a role that is not
    empty. *)
Lemma process_files_one_row fieldnames record w r w1 :
  process_role isalnum_nonascii (dict_row fieldnames record) bundle_folder disabled_folder w
    = (Ok r, w1) ->
  write_fails w (report_path bundle_folder) = false ->
  exists w',
    process_files isalnum_nonascii (Some [fieldnames; record]) bundle_folder disabled_folder w
      = (Ok tt, w')
    /\ files w'
       = match r with
         | Some (c :: role) =>
             <[report_path bundle_folder := (c :: role) ++ [NEWLINE]]> (files w1)
         | _ => files w1
         end.
Proof.
  intros H Hwrite.
  assert (record <> []) as Hr.
  { intros ->. destruct (process_role_Ok_row _ _ _ _ H) as (o & n & Ho & _).
    exact (dict_row_empty_record _ _ _ Ho). }
  unfold process_files, try_except.
  unfold bind at 1, logging_info at 1. unfold bind at 1.
  cbn [head tail default].
  rewrite filter_cons_True by exact Hr. rewrite filter_nil.
  set (w0 := add_log _ w).
  destruct (process_role_relog isalnum_nonascii _ bundle_folder disabled_folder
              w _ _ (log w0) H) as [Hfaults [L1 E1]].
  change (relog (log w0) w) with w0 in E1.
  rewrite (for_rows_step _ _ _ _ _ _ _ E1).
  cbn [for_rows app]. unfold ret at 1.
  destruct r as [[|c role]|]; cbn [truthy].
  - unfold bind, ret, logging_info. eexists. split; reflexivity.
  - unfold bind at 1. unfold bind at 1. unfold write_text at 1.
    fold (report_path bundle_folder).
    change (write_fails (relog L1 w1)) with (write_fails w1).
    rewrite Hfaults, Hwrite.
    eexists. split; [unfold bind, logging_info; reflexivity|].
    cbn [report_text flat_map]. rewrite app_nil_r. reflexivity.
  - unfold bind, ret, logging_info. eexists. split; reflexivity.
Qed.

(** The same for a role that is not empty. *)
Lemma process_files_one_row_reported fieldnames record w role w1 :
  process_role isalnum_nonascii (dict_row fieldnames record) bundle_folder disabled_folder w
    = (Ok (Some role), w1) ->
  role <> [] ->
  write_fails w (report_path bundle_folder) = false ->
  exists w',
    process_files isalnum_nonascii (Some [fieldnames; record]) bundle_folder disabled_folder w
      = (Ok tt, w')
    /\ files w' !! report_path bundle_folder = Some (role ++ [NEWLINE]).
Proof.
  intros H Hne Hwrite.
  destruct (process_files_one_row _ _ _ _ _ H Hwrite) as (w' & Hrun & Hfiles).
  exists w'. split; [exact Hrun|].
  destruct role as [|c role]; [congruence|].
  rewrite Hfiles. apply lookup_insert_eq.
Qed.

End Loop.

(** ** The claims about one row *)

Section RowClaims.

Variable isalnum_nonascii : N -> bool.
Variables bundle_folder disabled_folder : dir.
Variable row : gmap str (option str).
Variable w : world.

(** C1. The row (Admin, SuperAdmin), the file [NAB_Bundle_Admin.xml]
    with the content of the spec found in a directory [d] below the
    bundle folder: when no file operation fails and [d] is not the
    archive directory itself (the claim tells the original path from
    the archived one), the row succeeds; [NAB_Bundle_SuperAdmin.xml] is
    in [d] with both values SuperAdmin, the original is gone from [d],
    and the archive holds the original content with the marker after
    the root token and the old name in both values. *)
Theorem end_to_end_Admin_SuperAdmin (d : dir) :
  row !! Original_Role_Name = Some (Some (ustr "Admin")) ->
  row !! New_Role_Name = Some (Some (ustr "SuperAdmin")) ->
  fst (find_file_recursive bundle_folder NAB_Bundle_Admin_xml w)
    = Ok (Some (os_path_join d NAB_Bundle_Admin_xml)) ->
  files w !! os_path_join d NAB_Bundle_Admin_xml = Some Admin_xml ->
  d <> disabled_folder ->
  read_fails w (os_path_join d NAB_Bundle_Admin_xml) = false ->
  write_fails w (os_path_join d NAB_Bundle_SuperAdmin_xml) = false ->
  write_fails w (os_path_join disabled_folder NAB_Bundle_Admin_xml) = false ->
  remove_fails w (os_path_join d NAB_Bundle_Admin_xml) = false ->
  exists w',
    process_role isalnum_nonascii row bundle_folder disabled_folder w = (Ok None, w')
    /\ files w' !! os_path_join d NAB_Bundle_SuperAdmin_xml = Some SuperAdmin_xml
    /\ files w' !! os_path_join d NAB_Bundle_Admin_xml = None
    /\ files w' !! os_path_join disabled_folder NAB_Bundle_Admin_xml = Some Admin_disabled_xml
    /\ files w'
       = delete (os_path_join d NAB_Bundle_Admin_xml)
           (<[os_path_join disabled_folder NAB_Bundle_Admin_xml := Admin_disabled_xml]>
              (<[os_path_join d NAB_Bundle_SuperAdmin_xml := SuperAdmin_xml]> (files w))).
Proof.
  intros Ho Hn Hfind Hfile Hd Hread Hw1 Hw2 Hrm.
  rewrite (process_role_found isalnum_nonascii bundle_folder disabled_folder row _ _ Ho Hn w
             (os_path_join d NAB_Bundle_Admin_xml)) by exact Hfind.
  unfold try_except. set (w1 := logged w _).
  rewrite (try_body_succeeds disabled_folder _ _ _ w1 _ Admin_xml Hfile
             SuperAdmin_xml Admin_disabled_xml)
    by (assumption || (vm_compute; reflexivity)).
  eexists. split; [reflexivity|]. cbn [files logged set_files os_path_dirname fst].
  change (canonical isalnum_nonascii (strip (ustr "Admin"))) with NAB_Bundle_Admin_xml.
  change (canonical isalnum_nonascii (strip (ustr "SuperAdmin"))) with NAB_Bundle_SuperAdmin_xml.
  unfold os_path_join in *.
  repeat split.
  - rewrite lookup_delete_ne by (intros [= _ H]; vm_compute in H; discriminate).
    rewrite lookup_insert_ne by (intros [= H _]; congruence).
    apply lookup_insert_eq.
  - apply lookup_delete_eq.
  - rewrite lookup_delete_ne by (intros [= H]; congruence).
    apply lookup_insert_eq.
Qed.

Section AnyRow.

Variables o n old_file_name new_file_name : str.
Variable old_file_path : path.
Variables content content_new : str.

Hypothesis Ho : row !! Original_Role_Name = Some (Some o).
Hypothesis Hn : row !! New_Role_Name = Some (Some n).
Hypothesis Hold : format_file_name isalnum_nonascii (strip o) = Ok old_file_name.
Hypothesis Hnew : format_file_name isalnum_nonascii (strip n) = Ok new_file_name.
Hypothesis Hfind :
  fst (find_file_recursive bundle_folder old_file_name w) = Ok (Some old_file_path).
Hypothesis Hfile : files w !! old_file_path = Some content.
Hypothesis Hread : read_fails w old_file_path = false.
Hypothesis Hrewrite :
  rewrite_identity (universal_newlines content) (escape_special_characters (strip n))
  = Ok content_new.
Hypothesis Hwrite_new :
  write_fails w (os_path_join (os_path_dirname old_file_path) new_file_name) = false.

Lemma names_canonical :
  old_file_name = canonical isalnum_nonascii (strip o)
  /\ new_file_name = canonical isalnum_nonascii (strip n).
Proof.
  rewrite format_file_name_eq in Hold, Hnew.
  apply Ok_inj in Hold, Hnew. split; congruence.
Qed.

(** C7, as amended.  When the write of the disabled copy fails,
    [process_role] returns the original role, which is how it reports a
    row that did not succeed, and nothing is rolled back: the new file,
    written the step before, is there, and the original has not been
    removed.  The archive path is as it was when the file could not be
    opened, and else holds what was written of the disabled copy before
    the failure.  The batch runner lists the role in the report when
    the role is not empty, the rows after it run to the end and the
    report can be written. *)
Theorem archive_write_failure_keeps_new_file :
  write_fails w (os_path_join disabled_folder old_file_name) = true ->
  exists w' content_disabled,
    mark_disabled (universal_newlines content) = Ok content_disabled
    /\ process_role isalnum_nonascii row bundle_folder disabled_folder w
       = (Ok (Some (strip o)), w')
    /\ files w'
       = match write_leaves w (os_path_join disabled_folder old_file_name) with
         | None =>
             <[os_path_join (os_path_dirname old_file_path) new_file_name := content_new]>
               (files w)
         | Some written =>
             <[os_path_join disabled_folder old_file_name := take written content_disabled]>
               (<[os_path_join (os_path_dirname old_file_path) new_file_name := content_new]>
                  (files w))
         end
    /\ (os_path_join (os_path_dirname old_file_path) new_file_name
          <> os_path_join disabled_folder old_file_name ->
        files w' !! os_path_join (os_path_dirname old_file_path) new_file_name
        = Some content_new)
    /\ is_Some (files w' !! old_file_path)
    /\ last (log w') = Some (ERROR, Unexpected_error_processing old_file_name OSError)
    /\ (forall fieldnames before record after w0 acc roles w2,
          dict_row fieldnames record = row ->
          strip o <> [] ->
          Forall (fun r => r <> []) before ->
          Forall (fun r => r <> []) after ->
          for_rows isalnum_nonascii fieldnames before bundle_folder disabled_folder []
            (logged w0 [(INFO, CSV_Headers (Some fieldnames))]) = (Ok (Exhausted acc), w) ->
          for_rows isalnum_nonascii fieldnames after bundle_folder disabled_folder
            (acc ++ [strip o]) w' = (Ok (Exhausted roles), w2) ->
          write_fails w0 (report_path bundle_folder) = false ->
          exists w'',
            process_files isalnum_nonascii (Some (fieldnames :: before ++ record :: after))
              bundle_folder disabled_folder w0 = (Ok tt, w'')
            /\ files w'' = <[report_path bundle_folder := report_text roles]> (files w2)
            /\ exists later, roles = acc ++ strip o :: later).
Proof.
  intros Hfail.
  destruct (mark_disabled_returns (universal_newlines content)) as [content_disabled Hdis].
  assert (exists w',
             process_role isalnum_nonascii row bundle_folder disabled_folder w
               = (Ok (Some (strip o)), w')
             /\ files w'
                = match write_leaves w (os_path_join disabled_folder old_file_name) with
                  | None =>
                      <[os_path_join (os_path_dirname old_file_path) new_file_name
                        := content_new]> (files w)
                  | Some written =>
                      <[os_path_join disabled_folder old_file_name
                        := take written content_disabled]>
                        (<[os_path_join (os_path_dirname old_file_path) new_file_name
                           := content_new]> (files w))
                  end
             /\ last (log w')
                = Some (ERROR, Unexpected_error_processing old_file_name OSError))
    as (w' & Hrun & Hfiles & Hlog).
  { destruct names_canonical as [-> ->].
    rewrite (process_role_found isalnum_nonascii bundle_folder disabled_folder row _ _ Ho Hn w
               old_file_path) by exact Hfind.
    unfold try_except. set (w1 := logged w _).
    rewrite (try_body_disabled_write_fails disabled_folder _ _ _ w1 _ content Hfile
               content_new content_disabled) by assumption.
    unfold on_exception, bind, logging_error, ret, failed_write. subst w1.
    cbn [write_leaves logged set_files].
    destruct (write_leaves w _); eexists; (split; [reflexivity|]);
      (split; [reflexivity|apply last_snoc]). }
  exists w', content_disabled. split; [exact Hdis|]. split; [exact Hrun|].
  split; [exact Hfiles|].
  split.
  { intros Hne. rewrite Hfiles. destruct (write_leaves w _).
    - rewrite lookup_insert_ne by congruence. apply lookup_insert_eq.
    - apply lookup_insert_eq. }
  split.
  { rewrite Hfiles. destruct (write_leaves w _);
      rewrite !lookup_insert_is_Some'; eauto. }
  split; [exact Hlog|].
  intros fieldnames before record after w0 acc roles w2 <- Hne Hbefore Hafter Hrows Hrest Hreport.
  exact (process_files_reports _ _ _ _ _ _ _ _ _ _ _ _ _ _ Hbefore Hafter Hrows Hrun Hne
           Hrest Hreport).
Qed.

Variable content_disabled : str.
Hypothesis Hdisabled :
  mark_disabled (universal_newlines content) = Ok content_disabled.
Hypothesis Hwrite_disabled :
  write_fails w (os_path_join disabled_folder old_file_name) = false.

(** C8, as amended.  When the row has written the new file and the
    disabled copy and the removal of the original fails, the failure is
    logged and [process_role] returns the original role, as for any
    other error; both files written stay where they are and the
    original is still there.  The batch runner lists the role in the
    report when the role is not empty, the rows after it run to the end
    and the report can be written. *)
Theorem removal_failure_is_an_error :
  remove_fails w old_file_path = true ->
  exists w',
    process_role isalnum_nonascii row bundle_folder disabled_folder w
      = (Ok (Some (strip o)), w')
    /\ files w'
       = <[os_path_join disabled_folder old_file_name := content_disabled]>
           (<[os_path_join (os_path_dirname old_file_path) new_file_name := content_new]>
              (files w))
    /\ is_Some (files w' !! old_file_path)
    /\ last (log w') = Some (ERROR, Unexpected_error_processing old_file_name OSError)
    /\ (forall fieldnames before record after w0 acc roles w2,
          dict_row fieldnames record = row ->
          strip o <> [] ->
          Forall (fun r => r <> []) before ->
          Forall (fun r => r <> []) after ->
          for_rows isalnum_nonascii fieldnames before bundle_folder disabled_folder []
            (logged w0 [(INFO, CSV_Headers (Some fieldnames))]) = (Ok (Exhausted acc), w) ->
          for_rows isalnum_nonascii fieldnames after bundle_folder disabled_folder
            (acc ++ [strip o]) w' = (Ok (Exhausted roles), w2) ->
          write_fails w0 (report_path bundle_folder) = false ->
          exists w'',
            process_files isalnum_nonascii (Some (fieldnames :: before ++ record :: after))
              bundle_folder disabled_folder w0 = (Ok tt, w'')
            /\ files w'' = <[report_path bundle_folder := report_text roles]> (files w2)
            /\ exists later, roles = acc ++ strip o :: later).
Proof.
  intros Hfail.
  assert (exists w',
             process_role isalnum_nonascii row bundle_folder disabled_folder w
               = (Ok (Some (strip o)), w')
             /\ files w'
                = <[os_path_join disabled_folder old_file_name := content_disabled]>
                    (<[os_path_join (os_path_dirname old_file_path) new_file_name
                       := content_new]> (files w))
             /\ is_Some (files w' !! old_file_path)
             /\ last (log w')
                = Some (ERROR, Unexpected_error_processing old_file_name OSError))
    as (w' & Hrun & H1 & H2 & H3);
    [|exists w'; repeat (split; [assumption|]);
      intros fieldnames before record after w0 acc roles w2 <- Hne Hbefore Hafter Hrows
        Hrest Hreport;
      exact (process_files_reports _ _ _ _ _ _ _ _ _ _ _ _ _ _ Hbefore Hafter Hrows Hrun Hne
               Hrest Hreport)].
  destruct names_canonical as [-> ->].
  rewrite (process_role_found isalnum_nonascii bundle_folder disabled_folder row _ _ Ho Hn w
             old_file_path) by exact Hfind.
  unfold try_except. set (w1 := logged w _).
  rewrite (try_body_remove_fails disabled_folder _ _ _ w1 _ content Hfile
             content_new content_disabled) by assumption.
  unfold on_exception, bind, logging_error, ret.
  eexists. split; [reflexivity|]. cbn [files add_log logged set_files log].
  split; [reflexivity|]. split; [|apply last_snoc].
  rewrite !lookup_insert_is_Some'. right. right. eauto.
Qed.

(** The row that goes all the way. *)
Lemma process_role_succeeds :
  remove_fails w old_file_path = false ->
  exists w',
    process_role isalnum_nonascii row bundle_folder disabled_folder w = (Ok None, w')
    /\ files w'
       = delete old_file_path
           (<[os_path_join disabled_folder old_file_name := content_disabled]>
              (<[os_path_join (os_path_dirname old_file_path) new_file_name := content_new]>
                 (files w))).
Proof.
  intros Hrm. destruct names_canonical as [-> ->].
  rewrite (process_role_found isalnum_nonascii bundle_folder disabled_folder row _ _ Ho Hn w
             old_file_path) by exact Hfind.
  unfold try_except. set (w1 := logged w _).
  rewrite (try_body_succeeds disabled_folder _ _ _ w1 _ content Hfile
             content_new content_disabled) by assumption.
  eexists. split; reflexivity.
Qed.

End AnyRow.

(** What the code does by design where C10 holds: a content without
    the identity pair and a plain new name.  The row succeeds and the
    new file is the original content as it was read. *)
Lemma process_role_without_pair (o n old_file_name new_file_name : str)
    (old_file_path : path) (content content_disabled : str) :
  row !! Original_Role_Name = Some (Some o) ->
  row !! New_Role_Name = Some (Some n) ->
  format_file_name isalnum_nonascii (strip o) = Ok old_file_name ->
  format_file_name isalnum_nonascii (strip n) = Ok new_file_name ->
  fst (find_file_recursive bundle_folder old_file_name w) = Ok (Some old_file_path) ->
  files w !! old_file_path = Some content ->
  without_pair (universal_newlines content) ->
  plain_name (escape_special_characters (strip n)) ->
  mark_disabled (universal_newlines content) = Ok content_disabled ->
  read_fails w old_file_path = false ->
  write_fails w (os_path_join (os_path_dirname old_file_path) new_file_name) = false ->
  write_fails w (os_path_join disabled_folder old_file_name) = false ->
  remove_fails w old_file_path = false ->
  exists w',
    process_role isalnum_nonascii row bundle_folder disabled_folder w = (Ok None, w')
    /\ files w'
       = delete old_file_path
           (<[os_path_join disabled_folder old_file_name := content_disabled]>
              (<[os_path_join (os_path_dirname old_file_path) new_file_name
                 := universal_newlines content]> (files w))).
Proof.
  intros Ho Hn Hold Hnew Hfind Hfile Hw Hplain Hdis Hread Hw1 Hw2 Hrm.
  apply (process_role_succeeds o n old_file_name new_file_name old_file_path content
           (universal_newlines content) Ho Hn Hold Hnew Hfind Hfile Hread
           (rewrite_identity_without_pair _ _ Hplain Hw) Hw1 content_disabled Hdis Hw2 Hrm).
Qed.

End RowClaims.

(** ** The claims about the batch *)

Section BatchClaims.

Variable isalnum_nonascii : N -> bool.
Variables bundle_folder disabled_folder : dir.

(** C5, as amended.  When the header lacks one of the two columns, no
    row is processed and no file is created, the report no more than
    the others: the world is as before but for two log records.  With a
    data record in the file the run stops at the first one and the
    second log record is the error about the missing headers; with none,
    it is the record of a completed run. *)
Theorem process_files_missing_header (records : list (list str)) (w : world) :
  Original_Role_Name ∉ default [] (head records)
  \/ New_Role_Name ∉ default [] (head records) ->
  exists w',
    process_files isalnum_nonascii (Some records) bundle_folder disabled_folder w = (Ok tt, w')
    /\ files w' = files w
    /\ log w'
       = log w ++ [(INFO, CSV_Headers (head records));
                   match filter (fun record => record <> []) (tail records) with
                   | [] => (INFO, Process_completed_successfully)
                   | _ :: _ => (ERROR, CSV_format_error_Missing_required_headers)
                   end].
Proof.
  intros H. unfold process_files, try_except.
  unfold bind at 1, logging_info at 1. unfold bind at 1.
  destruct (filter _ (tail records)) as [|record rest].
  - cbn [for_rows]. unfold ret at 1. unfold bind at 1. unfold ret at 1.
    unfold logging_info. eexists. split; [reflexivity|]. split; [reflexivity|].
    cbn [log add_log]. rewrite <- app_assoc. reflexivity.
  - rewrite for_rows_missing_header by exact H.
    eexists. split; [reflexivity|]. split; [reflexivity|].
    cbn [log logged add_log ret]. rewrite <- app_assoc. reflexivity.
Qed.

(** C6, as amended.  A row with both values whose file is nowhere
    below the bundle folder changes no file, and [process_role] returns
    its trimmed original role, empty or not; nothing of the world
    changes but the log.  The rows after it run as they would without
    it, from the same files, and the role, when it is not empty, has
    joined the roles not found.  When the role is not empty, the rows
    after it run to the end and the report can be written, the report
    lists the role.  When the row comes first in a file of two and the
    second row succeeds alone, it succeeds here, with the same files, and
    the report holds the first role and nothing else. *)
Theorem unresolved_row_and_batch row1 o1 n1 old_file_name w :
  row1 !! Original_Role_Name = Some (Some o1) ->
  row1 !! New_Role_Name = Some (Some n1) ->
  format_file_name isalnum_nonascii (strip o1) = Ok old_file_name ->
  Forall (fun d => files w !! os_path_join d old_file_name = None)
    (below bundle_folder (dirs w)) ->
  exists w1,
    w1 = logged w [(INFO, Searching_for_file old_file_name);
                   (WARNING, File_not_found old_file_name)]
    /\ process_role isalnum_nonascii row1 bundle_folder disabled_folder w
       = (Ok (Some (strip o1)), w1)
    /\ files w1 = files w
    /\ (forall fieldnames record after acc,
          dict_row fieldnames record = row1 ->
          for_rows isalnum_nonascii fieldnames (record :: after) bundle_folder disabled_folder
            acc w
          = for_rows isalnum_nonascii fieldnames after bundle_folder disabled_folder
              (match strip o1 with
               | [] => acc
               | _ :: _ => acc ++ [strip o1]
               end) w1)
    /\ (strip o1 <> [] ->
        (forall fieldnames before record after w0 acc roles w2,
            dict_row fieldnames record = row1 ->
            Forall (fun r => r <> []) before ->
            Forall (fun r => r <> []) after ->
            for_rows isalnum_nonascii fieldnames before bundle_folder disabled_folder []
              (logged w0 [(INFO, CSV_Headers (Some fieldnames))]) = (Ok (Exhausted acc), w) ->
            for_rows isalnum_nonascii fieldnames after bundle_folder disabled_folder
              (acc ++ [strip o1]) w1 = (Ok (Exhausted roles), w2) ->
            write_fails w0 (report_path bundle_folder) = false ->
            exists w',
              process_files isalnum_nonascii (Some (fieldnames :: before ++ record :: after))
                bundle_folder disabled_folder w0 = (Ok tt, w')
              /\ files w' = <[report_path bundle_folder := report_text roles]> (files w2)
              /\ exists later, roles = acc ++ strip o1 :: later)
        /\ (forall fieldnames record1 record2 w2,
              dict_row fieldnames record1 = row1 ->
              process_role isalnum_nonascii (dict_row fieldnames record2)
                bundle_folder disabled_folder w = (Ok None, w2) ->
              write_fails w (report_path bundle_folder) = false ->
              exists w',
                process_files isalnum_nonascii (Some [fieldnames; record1; record2])
                  bundle_folder disabled_folder w = (Ok tt, w')
                /\ files w'
                   = <[report_path bundle_folder := strip o1 ++ [NEWLINE]]> (files w2))).
Proof.
  intros Ho Hn Hname Hnone.
  rewrite format_file_name_eq in Hname. apply Ok_inj in Hname. subst old_file_name.
  pose proof (process_role_not_found isalnum_nonascii bundle_folder disabled_folder
                row1 o1 n1 Ho Hn w Hnone) as H1.
  eexists. split; [reflexivity|]. split; [exact H1|]. split; [reflexivity|].
  split.
  { intros fieldnames record after acc Hrow. rewrite <- Hrow in H1.
    rewrite (for_rows_step _ _ _ _ _ _ _ _ _ _ H1).
    destruct (strip o1); reflexivity. }
  intros Hne. split.
  { intros fieldnames before record after w0 acc roles w2 Hrow Hbefore Hafter Hrows Hrest
      Hreport.
    rewrite <- Hrow in H1.
    exact (process_files_reports _ _ _ _ _ _ _ _ _ _ _ _ _ _ Hbefore Hafter Hrows H1 Hne
             Hrest Hreport). }
  intros fieldnames record1 record2 w2 Hrow1 H2 Hwrite.
  assert (record1 <> []) as Hr1.
  { intros ->. rewrite <- Hrow1 in Ho. exact (dict_row_empty_record _ _ _ Ho). }
  assert (record2 <> []) as Hr2.
  { intros ->. destruct (process_role_Ok_row _ _ _ _ _ _ _ H2) as (o & n & Ho2 & _).
    exact (dict_row_empty_record _ _ _ Ho2). }
  unfold process_files, try_except.
  unfold bind at 1, logging_info at 1. unfold bind at 1.
  cbn [head tail default].
  rewrite filter_cons_True by exact Hr1. rewrite filter_cons_True by exact Hr2.
  rewrite filter_nil.
  set (w0 := add_log _ w).
  assert (exists L1, process_role isalnum_nonascii (dict_row fieldnames record1)
                       bundle_folder disabled_folder w0
                     = (Ok (Some (strip o1)), relog L1 w)) as [L1 E1].
  { rewrite Hrow1.
    destruct (process_role_relog isalnum_nonascii row1 bundle_folder disabled_folder
                w _ _ (log w0) H1) as [_ [L' HL']].
    exists L'. exact HL'. }
  rewrite (for_rows_step _ _ _ _ _ _ _ _ _ _ E1).
  assert (truthy (Some (strip o1)) = true) as ->.
  { destruct (strip o1); [congruence|reflexivity]. }
  destruct (process_role_relog isalnum_nonascii _ bundle_folder disabled_folder
              w _ _ L1 H2) as [Hfaults [L2 E2]].
  rewrite (for_rows_step _ _ _ _ _ _ _ _ _ _ E2).
  cbn [for_rows app]. unfold ret at 1.
  unfold bind at 1. unfold bind at 1. unfold write_text at 1.
  fold (report_path bundle_folder).
  change (write_fails (relog L2 w2)) with (write_fails w2).
  rewrite Hfaults, Hwrite.
  eexists. split; [unfold bind, logging_info; reflexivity|].
  cbn [report_text flat_map]. rewrite app_nil_r. reflexivity.
Qed.

End BatchClaims.

(** ** The claims on the example folder *)

(** C10: where the code departs from the claim.  The file of Admin is
    found and holds no identity pair, and the new name is 2FA.  The
    template of line 89 then starts with a reference to group 12, [re]
    refuses it before any matching, and the row ends in the handler:
    [process_role] returns the original role and no file is created or
    removed. *)
Theorem process_role_without_pair_digit_name :
  without_pair Admin_name_only_xml
  /\ fst (process_role latin1_isalnum (dict_row header [ustr "Admin"; ustr "2FA"])
            bundle_root archive_dir
            (admin_world roles_dir Admin_name_only_xml no_fault no_fault))
     = Ok (Some (ustr "Admin"))
  /\ files (snd (process_role latin1_isalnum (dict_row header [ustr "Admin"; ustr "2FA"])
                   bundle_root archive_dir
                   (admin_world roles_dir Admin_name_only_xml no_fault no_fault)))
     = files (admin_world roles_dir Admin_name_only_xml no_fault no_fault)
  /\ last (log (snd (process_role latin1_isalnum
                       (dict_row header [ustr "Admin"; ustr "2FA"])
                       bundle_root archive_dir
                       (admin_world roles_dir Admin_name_only_xml no_fault no_fault))))
     = Some (ERROR, Unexpected_error_processing NAB_Bundle_Admin_xml re_error).
Proof.
  split; [apply no_pair_from_without_pair; vm_compute; reflexivity|].
  repeat split; vm_compute; reflexivity.
Qed.

Lemma end_to_end_Admin_SuperAdmin_witness :
  exists w',
    process_role latin1_isalnum (dict_row header Admin_to_SuperAdmin) bundle_root archive_dir
      (admin_world roles_dir Admin_xml no_fault no_fault) = (Ok None, w')
    /\ files w' !! os_path_join roles_dir NAB_Bundle_SuperAdmin_xml = Some SuperAdmin_xml
    /\ files w' !! os_path_join roles_dir NAB_Bundle_Admin_xml = None
    /\ files w' !! os_path_join archive_dir NAB_Bundle_Admin_xml = Some Admin_disabled_xml
    /\ files w'
       = delete (os_path_join roles_dir NAB_Bundle_Admin_xml)
           (<[os_path_join archive_dir NAB_Bundle_Admin_xml := Admin_disabled_xml]>
              (<[os_path_join roles_dir NAB_Bundle_SuperAdmin_xml := SuperAdmin_xml]>
                 (files (admin_world roles_dir Admin_xml no_fault no_fault)))).
Proof.
  apply (end_to_end_Admin_SuperAdmin latin1_isalnum bundle_root archive_dir
           (dict_row header Admin_to_SuperAdmin)
           (admin_world roles_dir Admin_xml no_fault no_fault) roles_dir);
    try (vm_compute; reflexivity).
  intros H. vm_compute in H. discriminate H.
Defined.

Lemma archive_write_failure_keeps_new_file_witness :
  exists w',
    process_role latin1_isalnum (dict_row header Admin_to_SuperAdmin) bundle_root archive_dir
      (header_logged
         (admin_world roles_dir Admin_xml
            (fault_at (os_path_join archive_dir NAB_Bundle_Admin_xml)) no_fault))
      = (Ok (Some (strip (ustr "Admin"))), w')
    /\ files w' !! os_path_join roles_dir NAB_Bundle_SuperAdmin_xml = Some SuperAdmin_xml
    /\ files w' !! os_path_join archive_dir NAB_Bundle_Admin_xml = None
    /\ is_Some (files w' !! os_path_join roles_dir NAB_Bundle_Admin_xml)
    /\ exists w'',
         process_files latin1_isalnum (Some [header; Admin_to_SuperAdmin])
           bundle_root archive_dir
           (admin_world roles_dir Admin_xml
              (fault_at (os_path_join archive_dir NAB_Bundle_Admin_xml)) no_fault)
           = (Ok tt, w'')
         /\ files w'' !! report_path bundle_root = Some (strip (ustr "Admin") ++ [NEWLINE]).
Proof.
  destruct (archive_write_failure_keeps_new_file latin1_isalnum bundle_root archive_dir
              (dict_row header Admin_to_SuperAdmin)
              (header_logged
                 (admin_world roles_dir Admin_xml
                    (fault_at (os_path_join archive_dir NAB_Bundle_Admin_xml)) no_fault))
              (ustr "Admin") (ustr "SuperAdmin") NAB_Bundle_Admin_xml
              NAB_Bundle_SuperAdmin_xml
              (os_path_join roles_dir NAB_Bundle_Admin_xml) Admin_xml SuperAdmin_xml)
    as (w' & content_disabled & _ & Hrun & Hfiles & Hnew & Hold & _ & Hbatch);
    try (vm_compute; reflexivity).
  exists w'. split; [exact Hrun|].
  split; [apply Hnew; intros H; vm_compute in H; discriminate H|].
  split; [rewrite Hfiles; vm_compute; reflexivity|].
  split; [exact Hold|].
  destruct (Hbatch header [] Admin_to_SuperAdmin []
              (admin_world roles_dir Admin_xml
                 (fault_at (os_path_join archive_dir NAB_Bundle_Admin_xml)) no_fault)
              [] [strip (ustr "Admin")] w')
    as (w'' & Hfiles'' & Hreport & _);
    try reflexivity; try constructor.
  - intros H. vm_compute in H. discriminate H.
  - exists w''. split; [exact Hfiles''|]. rewrite Hreport. apply lookup_insert_eq.
Defined.

(** C7, as stated, fails: the original role is blank, the file that a
    blank role names is there, and the write of the disabled copy fails.
    [process_role] returns the empty role, the new file stays, and the
    batch, which drops an empty role, writes no report and logs a
    completed run: the row is recorded nowhere. *)
Lemma archive_write_failure_of_blank_role_unrecorded :
  fst (process_role latin1_isalnum (dict_row header [ustr "  "; ustr "SuperAdmin"])
         bundle_root archive_dir
         (blank_role_world Admin_xml
            (fault_at (os_path_join archive_dir NAB_Bundle__xml)) no_fault))
  = Ok (Some [])
  /\ files (snd (process_files latin1_isalnum
                   (Some [header; [ustr "  "; ustr "SuperAdmin"]])
                   bundle_root archive_dir
                   (blank_role_world Admin_xml
                      (fault_at (os_path_join archive_dir NAB_Bundle__xml)) no_fault)))
     !! os_path_join roles_dir NAB_Bundle_SuperAdmin_xml = Some SuperAdmin_xml
  /\ files (snd (process_files latin1_isalnum
                   (Some [header; [ustr "  "; ustr "SuperAdmin"]])
                   bundle_root archive_dir
                   (blank_role_world Admin_xml
                      (fault_at (os_path_join archive_dir NAB_Bundle__xml)) no_fault)))
     !! report_path bundle_root = None
  /\ last (log (snd (process_files latin1_isalnum
                       (Some [header; [ustr "  "; ustr "SuperAdmin"]])
                       bundle_root archive_dir
                       (blank_role_world Admin_xml
                          (fault_at (os_path_join archive_dir NAB_Bundle__xml)) no_fault))))
     = Some (INFO, Process_completed_successfully).
Proof. repeat split; vm_compute; reflexivity. Qed.

(** C8, as stated, fails: the original cannot be removed, the new file
    and the disabled copy are written, and yet [process_role] returns
    the original role, and the batch lists it in the report. *)
Lemma removal_failure_reported_unresolved :
  fst (process_role latin1_isalnum (dict_row header Admin_to_SuperAdmin)
         bundle_root archive_dir
         (admin_world roles_dir Admin_xml no_fault
            (fault_at (os_path_join roles_dir NAB_Bundle_Admin_xml))))
  = Ok (Some (ustr "Admin"))
  /\ files (snd (process_files latin1_isalnum (Some [header; Admin_to_SuperAdmin])
                   bundle_root archive_dir
                   (admin_world roles_dir Admin_xml no_fault
                      (fault_at (os_path_join roles_dir NAB_Bundle_Admin_xml)))))
     !! os_path_join roles_dir NAB_Bundle_SuperAdmin_xml = Some SuperAdmin_xml
  /\ files (snd (process_files latin1_isalnum (Some [header; Admin_to_SuperAdmin])
                   bundle_root archive_dir
                   (admin_world roles_dir Admin_xml no_fault
                      (fault_at (os_path_join roles_dir NAB_Bundle_Admin_xml)))))
     !! os_path_join archive_dir NAB_Bundle_Admin_xml = Some Admin_disabled_xml
  /\ files (snd (process_files latin1_isalnum (Some [header; Admin_to_SuperAdmin])
                   bundle_root archive_dir
                   (admin_world roles_dir Admin_xml no_fault
                      (fault_at (os_path_join roles_dir NAB_Bundle_Admin_xml)))))
     !! report_path bundle_root = Some (ustr "Admin" ++ [NEWLINE]).
Proof. repeat split; vm_compute; reflexivity. Qed.

Lemma removal_failure_is_an_error_witness :
  exists w',
    process_role latin1_isalnum (dict_row header Admin_to_SuperAdmin) bundle_root archive_dir
      (header_logged
         (admin_world roles_dir Admin_xml no_fault
            (fault_at (os_path_join roles_dir NAB_Bundle_Admin_xml))))
      = (Ok (Some (strip (ustr "Admin"))), w')
    /\ is_Some (files w' !! os_path_join roles_dir NAB_Bundle_Admin_xml)
    /\ exists w'',
         process_files latin1_isalnum (Some [header; Admin_to_SuperAdmin])
           bundle_root archive_dir
           (admin_world roles_dir Admin_xml no_fault
              (fault_at (os_path_join roles_dir NAB_Bundle_Admin_xml)))
           = (Ok tt, w'')
         /\ files w'' !! report_path bundle_root = Some (strip (ustr "Admin") ++ [NEWLINE]).
Proof.
  destruct (removal_failure_is_an_error latin1_isalnum bundle_root archive_dir
              (dict_row header Admin_to_SuperAdmin)
              (header_logged
                 (admin_world roles_dir Admin_xml no_fault
                    (fault_at (os_path_join roles_dir NAB_Bundle_Admin_xml))))
              (ustr "Admin") (ustr "SuperAdmin") NAB_Bundle_Admin_xml
              NAB_Bundle_SuperAdmin_xml
              (os_path_join roles_dir NAB_Bundle_Admin_xml) Admin_xml SuperAdmin_xml)
    with (content_disabled := Admin_disabled_xml)
    as (w' & Hrun & _ & Hold & _ & Hbatch);
    try (vm_compute; reflexivity).
  exists w'. split; [exact Hrun|]. split; [exact Hold|].
  destruct (Hbatch header [] Admin_to_SuperAdmin []
              (admin_world roles_dir Admin_xml no_fault
                 (fault_at (os_path_join roles_dir NAB_Bundle_Admin_xml)))
              [] [strip (ustr "Admin")] w')
    as (w'' & Hfiles'' & Hreport & _);
    try reflexivity; try constructor.
  - intros H. vm_compute in H. discriminate H.
  - exists w''. split; [exact Hfiles''|]. rewrite Hreport. apply lookup_insert_eq.
Defined.

(** C5, as stated, fails: a mapping file that is its header alone, the
    New Role Name column missing from it, runs to the end and the only
    records in the log are the headers and the completed run; no error
    is reported. *)
Lemma header_only_file_reports_nothing :
  (Original_Role_Name ∈ [Original_Role_Name])
  /\ (New_Role_Name ∉ [Original_Role_Name])
  /\ log (snd (process_files latin1_isalnum (Some [[Original_Role_Name]])
                 bundle_root archive_dir
                 (admin_world roles_dir Admin_xml no_fault no_fault)))
     = [(INFO, CSV_Headers (Some [Original_Role_Name]));
        (INFO, Process_completed_successfully)].
Proof.
  split; [apply list_elem_of_singleton; reflexivity|].
  split; [|vm_compute; reflexivity].
  intros H. apply list_elem_of_singleton in H. vm_compute in H. discriminate H.
Qed.

Lemma process_files_missing_header_witness :
  exists w',
    process_files latin1_isalnum (Some [[Original_Role_Name]; [ustr "Admin"]])
      bundle_root archive_dir (admin_world roles_dir Admin_xml no_fault no_fault)
      = (Ok tt, w')
    /\ files w' = files (admin_world roles_dir Admin_xml no_fault no_fault)
    /\ log w'
       = log (admin_world roles_dir Admin_xml no_fault no_fault)
         ++ [(INFO, CSV_Headers (head [[Original_Role_Name]; [ustr "Admin"]]));
             match filter (fun record => record <> [])
                     (tail [[Original_Role_Name]; [ustr "Admin"]]) with
             | [] => (INFO, Process_completed_successfully)
             | _ :: _ => (ERROR, CSV_format_error_Missing_required_headers)
             end].
Proof.
  apply (process_files_missing_header latin1_isalnum bundle_root archive_dir
           [[Original_Role_Name]; [ustr "Admin"]]
           (admin_world roles_dir Admin_xml no_fault no_fault)).
  right. cbn [head default]. intros H. apply list_elem_of_singleton in H.
  vm_compute in H. discriminate H.
Defined.

(** C6, as stated, fails: the first row has a blank original name, no
    file bears its name, the second row succeeds, and no report is
    written: the first role is recorded nowhere. *)
Lemma blank_role_is_not_reported :
  fst (process_role latin1_isalnum (dict_row header [ustr " "; ustr "Ghost"])
         bundle_root archive_dir (admin_world roles_dir Admin_xml no_fault no_fault))
  = Ok (Some [])
  /\ fst (process_files latin1_isalnum
            (Some [header; [ustr " "; ustr "Ghost"]; Admin_to_SuperAdmin])
            bundle_root archive_dir (admin_world roles_dir Admin_xml no_fault no_fault))
     = Ok tt
  /\ files (snd (process_files latin1_isalnum
                   (Some [header; [ustr " "; ustr "Ghost"]; Admin_to_SuperAdmin])
                   bundle_root archive_dir
                   (admin_world roles_dir Admin_xml no_fault no_fault)))
     !! os_path_join roles_dir NAB_Bundle_SuperAdmin_xml = Some SuperAdmin_xml
  /\ files (snd (process_files latin1_isalnum
                   (Some [header; [ustr " "; ustr "Ghost"]; Admin_to_SuperAdmin])
                   bundle_root archive_dir
                   (admin_world roles_dir Admin_xml no_fault no_fault)))
     !! report_path bundle_root = None.
Proof. repeat split; vm_compute; reflexivity. Qed.

Lemma unresolved_row_and_batch_witness :
  exists w1,
    process_role latin1_isalnum (dict_row header [ustr "Ghost"; ustr "Phantom"])
      bundle_root archive_dir
      (header_logged (admin_world roles_dir Admin_xml no_fault no_fault))
      = (Ok (Some (strip (ustr "Ghost"))), w1)
    /\ files w1 = files (header_logged (admin_world roles_dir Admin_xml no_fault no_fault))
    /\ (exists w',
          process_files latin1_isalnum
            (Some [header; [ustr "Ghost"; ustr "Phantom"]; Admin_to_SuperAdmin])
            bundle_root archive_dir (admin_world roles_dir Admin_xml no_fault no_fault)
            = (Ok tt, w')
          /\ files w' !! report_path bundle_root = Some (strip (ustr "Ghost") ++ [NEWLINE])
          /\ files w' !! os_path_join roles_dir NAB_Bundle_SuperAdmin_xml
             = Some SuperAdmin_xml)
    /\ (exists w',
          process_files latin1_isalnum
            (Some [header; [ustr "Ghost"; ustr "Phantom"]; Admin_to_SuperAdmin])
            bundle_root archive_dir
            (header_logged (admin_world roles_dir Admin_xml no_fault no_fault))
            = (Ok tt, w')
          /\ files w'
             = <[report_path bundle_root := strip (ustr "Ghost") ++ [NEWLINE]]>
                 (files (snd (process_role latin1_isalnum
                                (dict_row header Admin_to_SuperAdmin)
                                bundle_root archive_dir
                                (header_logged
                                   (admin_world roles_dir Admin_xml no_fault no_fault)))))).
Proof.
  destruct (unresolved_row_and_batch latin1_isalnum bundle_root archive_dir
              (dict_row header [ustr "Ghost"; ustr "Phantom"])
              (ustr "Ghost") (ustr "Phantom") (ustr "NAB_Bundle_Ghost.xml")
              (header_logged (admin_world roles_dir Admin_xml no_fault no_fault)))
    as (w1 & Hw1 & Hrun & Hfiles & _ & Hrest);
    try (vm_compute; reflexivity).
  { apply (bool_decide_unpack _). vm_compute. exact I. }
  exists w1. split; [exact Hrun|]. split; [exact Hfiles|].
  destruct Hrest as [Hreported Htwo].
  { intros H. vm_compute in H. discriminate H. }
  split.
  - destruct (for_rows latin1_isalnum header [Admin_to_SuperAdmin] bundle_root archive_dir
                ([] ++ [strip (ustr "Ghost")]) w1) as [r w2] eqn:Hafter.
    assert (r = Ok (Exhausted [strip (ustr "Ghost")])) as ->.
    { apply (f_equal fst) in Hafter. cbn [fst] in Hafter. rewrite <- Hafter, Hw1.
      vm_compute. reflexivity. }
    destruct (Hreported header [] [ustr "Ghost"; ustr "Phantom"] [Admin_to_SuperAdmin]
                (admin_world roles_dir Admin_xml no_fault no_fault) []
                [strip (ustr "Ghost")] w2)
      as (w' & Hbatch & Hreport & _);
      [reflexivity|constructor|repeat constructor; discriminate|reflexivity|exact Hafter
      |reflexivity|].
    exists w'. split; [exact Hbatch|]. rewrite Hreport.
    split; [apply lookup_insert_eq|].
    rewrite lookup_insert_ne by (intros H; vm_compute in H; discriminate H).
    replace w2 with (snd (for_rows latin1_isalnum header [Admin_to_SuperAdmin] bundle_root
                            archive_dir ([] ++ [strip (ustr "Ghost")]) w1))
      by (rewrite Hafter; reflexivity).
    rewrite Hw1. vm_compute. reflexivity.
  - destruct (process_role latin1_isalnum (dict_row header Admin_to_SuperAdmin)
                bundle_root archive_dir
                (header_logged (admin_world roles_dir Admin_xml no_fault no_fault)))
      as [r w2] eqn:Halone.
    assert (r = Ok None) as ->.
    { apply (f_equal fst) in Halone. cbn [fst] in Halone. rewrite <- Halone.
      vm_compute. reflexivity. }
    exact (Htwo header [ustr "Ghost"; ustr "Phantom"] Admin_to_SuperAdmin w2
             eq_refl Halone eq_refl).
Defined.

(** * Further properties *)

(** ** More on [find_file_recursive] *)

Lemma locate_first fs name walk p :
  locate fs name walk = Some p ->
  exists before d after,
    walk = before ++ d :: after
    /\ p = os_path_join d name
    /\ is_Some (fs !! p)
    /\ Forall (fun d' => fs !! os_path_join d' name = None) before.
Proof.
  induction walk as [|d walk IH]; [discriminate|]. cbn [locate].
  destruct (bool_decide (is_Some (fs !! os_path_join d name))) eqn:E.
  - intros [= <-]. apply bool_decide_eq_true in E.
    exists [], d, walk. repeat split; [exact E|constructor].
  - intros H. destruct (IH H) as (before & d' & after & -> & -> & Hp & Hb).
    exists (d :: before), d', after. repeat split; [exact Hp|].
    constructor; [|exact Hb]. apply bool_decide_eq_false in E.
    destruct (fs !! os_path_join d name) eqn:El; [|reflexivity].
    exfalso. apply E. eauto.
Qed.

Lemma locate_None_inv fs name walk :
  locate fs name walk = None ->
  Forall (fun d => fs !! os_path_join d name = None) walk.
Proof.
  induction walk as [|d walk IH]; [constructor|]. cbn [locate].
  destruct (bool_decide (is_Some (fs !! os_path_join d name))) eqn:E; [discriminate|].
  intros H. constructor; [|exact (IH H)]. apply bool_decide_eq_false in E.
  destruct (fs !! os_path_join d name) eqn:El; [|reflexivity].
  exfalso. apply E. eauto.
Qed.

(** X1.  [find_file_recursive] never raises and changes nothing.  What
    it returns is the file name joined to the first directory of the
    walk that lists it: the file exists there and no directory visited
    before lists the name.  It returns None exactly when no directory of
    the walk lists the name. *)
Theorem find_file_recursive_first_match (folder : dir) (file_name : str) (w : world) :
  snd (find_file_recursive folder file_name w) = w
  /\ match fst (find_file_recursive folder file_name w) with
     | Ok (Some p) =>
         exists before d after,
           filter (fun d => is_prefix folder d = true) (dirs w) = before ++ d :: after
           /\ p = os_path_join d file_name
           /\ is_Some (files w !! p)
           /\ Forall (fun d' => files w !! os_path_join d' file_name = None) before
     | Ok None =>
         Forall (fun d => files w !! os_path_join d file_name = None)
           (filter (fun d => is_prefix folder d = true) (dirs w))
     | Raise _ => False
     end.
Proof.
  rewrite find_file_recursive_locate. cbn [fst snd]. split; [reflexivity|].
  fold (below folder (dirs w)).
  destruct (locate _ _ _) as [p|] eqn:E.
  - exact (locate_first _ _ _ _ E).
  - exact (locate_None_inv _ _ _ E).
Qed.

(** ** More on [format_file_name] *)

Section MoreFileNames.
Variable isalnum_nonascii : N -> bool.

Lemma sanitize_char_kept (c : N) :
  is_kept isalnum_nonascii (sanitize_char isalnum_nonascii c) = true.
Proof.
  unfold sanitize_char. fold (is_kept isalnum_nonascii c).
  destruct (is_kept isalnum_nonascii c) eqn:E; [exact E|].
  unfold is_kept, is_word. rewrite N.eqb_refl. rewrite orb_true_r. reflexivity.
Qed.

Lemma sanitize_char_of_kept (c : N) :
  is_kept isalnum_nonascii c = true -> sanitize_char isalnum_nonascii c = c.
Proof. intros H. unfold sanitize_char. fold (is_kept isalnum_nonascii c). rewrite H. reflexivity. Qed.

Lemma is_kept_not_separator (c : N) :
  is_name_char isalnum_nonascii c = true -> is_separator c = false.
Proof.
  unfold is_separator. intros H.
  destruct (N.eqb_spec c 47) as [->|H47]; [vm_compute in H; discriminate H|].
  destruct (N.eqb_spec c BACKSLASH) as [->|H92]; [vm_compute in H; discriminate H|].
  reflexivity.
Qed.

(** X2.  [format_file_name] always returns a name.  The name is fifteen
    characters longer than the role, it is made of word characters,
    hyphens and dots only, and so it holds neither a slash nor a
    backslash: joined to a directory it names a file of that
    directory. *)
Theorem format_file_name_has_no_separator (role_name : str) :
  exists name,
    format_file_name isalnum_nonascii role_name = Ok name
    /\ length name = (15 + length role_name)%nat
    /\ all_of (is_name_char isalnum_nonascii) name
    /\ all_of (fun c => negb (is_separator c)) name.
Proof.
  rewrite format_file_name_eq. eexists. split; [reflexivity|].
  assert (all_of (is_name_char isalnum_nonascii) (canonical isalnum_nonascii role_name)) as Hall.
  { unfold all_of, canonical. rewrite !forallb_app.
    apply andb_true_iff; split; [reflexivity|].
    apply andb_true_iff; split; [|reflexivity].
    induction role_name as [|c s IH]; [reflexivity|]. cbn [map forallb].
    assert (is_name_char isalnum_nonascii (sanitize_char isalnum_nonascii c) = true) as ->
      by (unfold is_name_char; rewrite sanitize_char_kept; reflexivity).
    exact IH. }
  split; [|split; [exact Hall|]].
  - unfold canonical. rewrite !length_app, length_map.
    change (length (ustr "NAB_Bundle_")) with 11%nat.
    change (length (ustr ".xml")) with 4%nat. lia.
  - unfold all_of in *. rewrite forallb_forall in *. intros c Hc.
    rewrite (is_kept_not_separator c (Hall c Hc)). reflexivity.
Qed.

(** X3.  Two roles get the same file name exactly when they agree after
    every character that is neither a word character nor a hyphen is
    replaced by an underscore; in particular a role and its sanitized
    form share their file name. *)
Theorem format_file_name_collisions (role1 role2 : str) :
  (format_file_name isalnum_nonascii role1 = format_file_name isalnum_nonascii role2
   <-> map (sanitize_char isalnum_nonascii) role1 = map (sanitize_char isalnum_nonascii) role2)
  /\ format_file_name isalnum_nonascii (map (sanitize_char isalnum_nonascii) role1)
     = format_file_name isalnum_nonascii role1.
Proof.
  rewrite !format_file_name_eq. unfold canonical. split.
  - split.
    + intros H. apply Ok_inj in H. apply app_inv_head in H. apply app_inv_tail in H. exact H.
    + intros ->. reflexivity.
  - do 3 f_equal. rewrite map_map. apply map_ext. intros c.
    apply sanitize_char_of_kept, sanitize_char_kept.
Qed.

(** X4.  On roles made of word characters and hyphens only,
    [format_file_name] is injective: two such roles with the same file
    name are the same role. *)
Theorem format_file_name_injective_on_kept (role1 role2 : str) :
  all_of (is_kept isalnum_nonascii) role1 ->
  all_of (is_kept isalnum_nonascii) role2 ->
  format_file_name isalnum_nonascii role1 = format_file_name isalnum_nonascii role2 ->
  role1 = role2.
Proof.
  intros H1 H2 H. rewrite !format_file_name_eq in H. apply Ok_inj in H.
  unfold canonical in H. apply app_inv_head in H. apply app_inv_tail in H.
  assert (forall s, all_of (is_kept isalnum_nonascii) s ->
                    map (sanitize_char isalnum_nonascii) s = s) as Hid.
  { unfold all_of. induction s as [|c s IH]; [reflexivity|]. cbn [forallb map].
    intros Hc. apply andb_true_iff in Hc as [Hc Hs].
    rewrite (sanitize_char_of_kept c Hc), (IH Hs). reflexivity. }
  rewrite (Hid _ H1), (Hid _ H2) in H. exact H.
Qed.

End MoreFileNames.

Lemma format_file_name_injective_on_kept_witness :
  ustr "Team-1" = ustr "Team-1".
Proof.
  apply (format_file_name_injective_on_kept latin1_isalnum); vm_compute; reflexivity.
Defined.

(** ** More on [escape_special_characters] *)

Lemma escape_char_cases (c : N) :
  (is_markup c = false /\ c <> 38 /\ escape_char c = [c])
  \/ (c = 38 /\ escape_char c = ustr "&amp;")
  \/ (c = 60 /\ escape_char c = ustr "&lt;")
  \/ (c = 62 /\ escape_char c = ustr "&gt;")
  \/ (c = 34 /\ escape_char c = ustr "&quot;")
  \/ (c = 39 /\ escape_char c = ustr "&apos;").
Proof.
  unfold escape_char, is_markup. change QUOTE with 34.
  destruct (N.eqb_spec c 38) as [->|H38]; [right; left; split; reflexivity|].
  destruct (N.eqb_spec c 60) as [->|H60]; [right; right; left; split; reflexivity|].
  destruct (N.eqb_spec c 62) as [->|H62]; [right; right; right; left; split; reflexivity|].
  destruct (N.eqb_spec c 34) as [->|H34];
    [right; right; right; right; left; split; reflexivity|].
  destruct (N.eqb_spec c 39) as [->|H39];
    [right; right; right; right; right; split; reflexivity|].
  left. repeat split; assumption.
Qed.

Lemma escape_char_prefix_free (c1 c2 : N) (r1 r2 : str) :
  escape_char c1 ++ r1 = escape_char c2 ++ r2 -> c1 = c2 /\ r1 = r2.
Proof.
  destruct (escape_char_cases c1) as [(_ & N1 & ->)|[(-> & ->)|[(-> & ->)|[(-> & ->)|[(-> & ->)|(-> & ->)]]]]];
  destruct (escape_char_cases c2) as [(_ & N2 & ->)|[(-> & ->)|[(-> & ->)|[(-> & ->)|[(-> & ->)|(-> & ->)]]]]];
  intros H; vm_compute in H;
  try (injection H as H1 H2; subst; try congruence; split; congruence);
  try discriminate H.
  all: try (injection H; intros; subst; split; congruence).
Qed.

(** X5.  [escape_special_characters] loses nothing: two names with the
    same escaped form are the same name. *)
Theorem escape_special_characters_injective (name1 name2 : str) :
  escape_special_characters name1 = escape_special_characters name2 -> name1 = name2.
Proof.
  rewrite !escape_special_characters_flat_map.
  revert name2. induction name1 as [|c1 s1 IH]; intros [|c2 s2] H.
  - reflexivity.
  - cbn [flat_map] in H. exfalso.
    destruct (escape_char_cases c2) as [(_ & _ & E)|[(_ & E)|[(_ & E)|[(_ & E)|[(_ & E)|(_ & E)]]]]];
      rewrite E in H; discriminate H.
  - cbn [flat_map] in H. exfalso.
    destruct (escape_char_cases c1) as [(_ & _ & E)|[(_ & E)|[(_ & E)|[(_ & E)|[(_ & E)|(_ & E)]]]]];
      rewrite E in H; discriminate H.
  - cbn [flat_map] in H. apply escape_char_prefix_free in H as [-> H].
    rewrite (IH _ H). reflexivity.
Qed.

Lemma escape_special_characters_injective_witness : ustr "R&D" = ustr "R&D".
Proof. apply escape_special_characters_injective. vm_compute. reflexivity. Defined.

(** X6.  The escaped name holds no angle bracket and no quote of either
    kind, whatever the name was. *)
Theorem escape_special_characters_no_markup (role_name : str) :
  all_of (fun c => negb (is_markup c)) (escape_special_characters role_name).
Proof.
  rewrite escape_special_characters_flat_map. unfold all_of.
  induction role_name as [|c s IH]; [reflexivity|].
  cbn [flat_map]. rewrite forallb_app, IH, andb_true_r.
  destruct (escape_char_cases c) as [(Hm & _ & ->)|[(_ & ->)|[(_ & ->)|[(_ & ->)|[(_ & ->)|(_ & ->)]]]]];
    try reflexivity.
  cbn [forallb]. rewrite Hm. reflexivity.
Qed.

(** X7.  Escaping neither makes nor mends a name that the replacement
    template of line 89 misreads: the escaped name is free of
    backslashes and of a leading digit exactly when the name is. *)
Theorem escape_special_characters_keeps_template_characters (role_name : str) :
  plain_name (escape_special_characters role_name) <-> plain_name role_name.
Proof.
  rewrite escape_special_characters_flat_map. unfold plain_name, all_of.
  assert (forallb not_backslash (flat_map escape_char role_name)
          = forallb not_backslash role_name) as ->.
  { induction role_name as [|c s IH]; [reflexivity|].
    cbn [flat_map forallb]. rewrite forallb_app, IH. f_equal.
    destruct (escape_char_cases c) as [(_ & _ & ->)|[(-> & ->)|[(-> & ->)|[(-> & ->)|[(-> & ->)|(-> & ->)]]]]];
      try reflexivity.
    cbn [forallb]. apply andb_true_r. }
  assert (head_not is_digit (flat_map escape_char role_name) <-> head_not is_digit role_name)
    as ->; [|reflexivity].
  destruct role_name as [|c s]; [reflexivity|]. cbn [flat_map].
  destruct (escape_char_cases c) as [(_ & _ & ->)|[(-> & ->)|[(-> & ->)|[(-> & ->)|[(-> & ->)|(-> & ->)]]]]];
    reflexivity.
Qed.

(** ** More on [rewrite_identity] *)

Lemma starts_with_pair_parts (v1 ws v2 rest : str) :
  all_of not_quote v1 -> all_of not_quote v2 -> ws <> [] -> all_of Py_UNICODE_ISSPACE ws ->
  starts_with_pair (identity_pair v1 ws v2 ++ rest).
Proof. intros. exists v1, ws, v2, rest. auto. Qed.

Lemma identity_pair_nonempty (v1 ws v2 rest : str) :
  exists c s, identity_pair v1 ws v2 ++ rest = c :: s.
Proof. unfold identity_pair. eexists _, _. reflexivity. Qed.

Lemma renamed_deterministic (new content out1 out2 : str) :
  renamed new content out1 -> renamed new content out2 -> out1 = out2.
Proof.
  intros H1. revert out2.
  induction H1 as [|v1 ws v2 rest out A1 A2 Ane Aws _ IH|c s out Hno _ IH]; intros out2 H2.
  - remember [] as content eqn:Hc.
    destruct H2 as [|v1' ws' v2' rest' out' B1 B2 Bne Bws Hr|c s out' Hno Hr].
    + reflexivity.
    + destruct (identity_pair_nonempty v1' ws' v2' rest') as (c & s & E).
      rewrite E in Hc. discriminate Hc.
    + discriminate Hc.
  - remember (identity_pair v1 ws v2 ++ rest) as content eqn:Hc.
    destruct H2 as [|v1' ws' v2' rest' out' B1 B2 Bne Bws Hr|c s out' Hno Hr].
    + destruct (identity_pair_nonempty v1 ws v2 rest) as (c & s & E).
      rewrite E in Hc. discriminate Hc.
    + pose proof (pair_at_pair v1 ws v2 rest A1 A2 Ane Aws) as P1.
      pose proof (pair_at_pair v1' ws' v2' rest' B1 B2 Bne Bws) as P2.
      rewrite <- Hc, P2 in P1. injection P1 as -> -> -> ->.
      f_equal. apply IH. exact Hr.
    + exfalso. apply Hno. rewrite Hc. apply starts_with_pair_parts; assumption.
  - remember (c :: s) as content eqn:Hc.
    destruct H2 as [|v1' ws' v2' rest' out' B1 B2 Bne Bws Hr|c' s' out' Hno' Hr].
    + discriminate Hc.
    + exfalso. apply Hno. apply starts_with_pair_parts; assumption.
    + injection Hc as -> ->. f_equal. apply IH. exact Hr.
Qed.

(** X8.  For a name without backslash and without a leading digit the
    substitution of line 89 returns a text, the text is the content with
    every identity pair rewritten to the new name, from left to right,
    and no other text is. *)
Theorem rewrite_identity_renames_every_pair (content new : str) :
  plain_name new ->
  exists out,
    rewrite_identity content new = Ok out
    /\ renamed new content out
    /\ forall out', renamed new content out' -> out' = out.
Proof.
  intros Hnew. destruct (rewrite_identity_plain content new Hnew) as (out & Hrun & Hout).
  exists out. split; [exact Hrun|]. split; [exact Hout|].
  intros out' H'. exact (renamed_deterministic _ _ _ _ H' Hout).
Qed.

Lemma rewrite_identity_renames_every_pair_witness :
  exists out,
    rewrite_identity (Admin_xml ++ Admin_xml) (ustr "Ops") = Ok out
    /\ renamed (ustr "Ops") (Admin_xml ++ Admin_xml) out
    /\ forall out', renamed (ustr "Ops") (Admin_xml ++ Admin_xml) out' -> out' = out.
Proof.
  apply rewrite_identity_renames_every_pair. split; vm_compute; reflexivity.
Defined.

(** X9.  A name that starts with a digit which is not followed by an
    octal digit makes the substitution of line 89 raise [re.error],
    whatever the content: the digit is read as part of the group
    reference before it. *)
Theorem rewrite_identity_leading_digit (d : N) (rest content : str) :
  is_digit d = true ->
  head_not is_octdigit rest ->
  rewrite_identity content (d :: rest) = Raise re_error.
Proof.
  intros Hd Hrest. unfold rewrite_identity, re_sub.
  change (pattern_groups identity_pattern) with 4%nat.
  unfold identity_template.
  change (ustr "\1" ++ (d :: rest) ++ ?x) with (BACKSLASH :: 49 :: d :: rest ++ x).
  cbn [parse_template]. rewrite N.eqb_refl.
  assert (forall tail, head_not is_octdigit tail ->
            template_escape 4 (49 :: d :: tail) = Raise re_error) as Hesc.
  { intros tail Htail. unfold template_escape.
    change (49 =? 103) with false. change (49 =? 48) with false.
    change (is_digit 49) with true. cbv beta iota. rewrite Hd.
    assert (addgroup 4 (digits_value 10 [49; d]) 2 = Raise re_error) as Hadd.
    { unfold addgroup, digits_value. cbn [fold_left].
      unfold is_digit, in_range in Hd. apply andb_true_iff in Hd as [Hlo Hhi].
      apply N.leb_le in Hlo, Hhi.
      destruct (Nat.ltb_spec 4 (N.to_nat ((0 * 10 + (49 - 48)) * 10 + (d - 48))));
        [reflexivity|lia]. }
    destruct tail as [|d3 tail]; [exact Hadd|]. cbn in Htail. rewrite Htail.
    rewrite andb_false_r. exact Hadd. }
  rewrite Hesc; [reflexivity|].
  apply head_not_app; [exact Hrest|reflexivity].
Qed.

Lemma rewrite_identity_leading_digit_witness :
  rewrite_identity Admin_xml (ustr "2FA") = Raise re_error.
Proof.
  apply (rewrite_identity_leading_digit 50 (ustr "FA") Admin_xml); vm_compute; reflexivity.
Defined.

(** X10.  A name with a backslash before an ASCII letter that is neither
    a known escape nor the letter g makes the substitution of line 89
    raise [re.error], whatever the content. *)
Theorem rewrite_identity_backslash_letter (before after content : str) (c : N) :
  plain_name before ->
  is_ascii_letter c = true ->
  ESCAPES c = None ->
  c <> 103 ->
  rewrite_identity content (before ++ BACKSLASH :: c :: after) = Raise re_error.
Proof.
  intros [Hbs Hdigit] Hletter Hesc Hg. unfold rewrite_identity, re_sub.
  change (pattern_groups identity_pattern) with 4%nat.
  unfold identity_template.
  change (ustr "\1" ++ ?x) with (BACKSLASH :: 49 :: x).
  rewrite parse_template_group;
    [|reflexivity|rewrite <- app_assoc; apply head_not_app; [assumption|reflexivity]].
  rewrite <- !app_assoc. rewrite parse_template_literals by assumption.
  cbn [app parse_template]. rewrite N.eqb_refl.
  assert (forall tail, template_escape 4 (c :: tail) = Raise re_error) as ->.
  { intros tail. unfold template_escape.
    destruct (N.eqb_spec c 103) as [|_]; [congruence|].
    assert (is_digit c = false) as Hnd.
    { unfold is_ascii_letter, is_digit, in_range in *.
      repeat match goal with
             | H : context [?a <=? ?b] |- _ => destruct (N.leb_spec a b)
             | |- context [?a <=? ?b] => destruct (N.leb_spec a b)
             end; try reflexivity; try discriminate; lia. }
    destruct (N.eqb_spec c 48) as [->|_]; [discriminate Hnd|].
    rewrite Hnd, Hesc, Hletter. reflexivity. }
  reflexivity.
Qed.

Lemma rewrite_identity_backslash_letter_witness :
  rewrite_identity Admin_xml (ustr "Sales" ++ BACKSLASH :: 65 :: ustr "dmins") = Raise re_error.
Proof.
  apply (rewrite_identity_backslash_letter (ustr "Sales") (ustr "dmins") Admin_xml 65).
  - split; vm_compute; reflexivity.
  - reflexivity.
  - reflexivity.
  - discriminate.
Defined.

(** ** More on [mark_disabled] *)

Lemma no_root_token_from_without (s : str) :
  no_root_token_from s = true -> without_root_token s.
Proof.
  induction s as [|c s IH]; intros H before after Heq.
  - destruct before; [|discriminate]. cbn in Heq. subst after.
    cbn [no_root_token_from] in H. destruct (root_token_at []) eqn:E; [discriminate|].
    apply root_token_at_None. exact E.
  - cbn [no_root_token_from] in H. destruct (root_token_at (c :: s)) eqn:E; [discriminate|].
    destruct before as [|b before].
    + cbn in Heq. subst after. apply root_token_at_None. exact E.
    + injection Heq as _ ->. apply (IH H before after). reflexivity.
Qed.

Lemma sub_scan_disabled_cons (t : list template_item) (c : N) (s : str) :
  root_token_at (c :: s) = None ->
  sub_scan disabled_pattern t 0 (c :: s) = c :: sub_scan disabled_pattern t 0 s.
Proof. intros H. cbn [sub_scan]. rewrite sre_match_disabled, H. reflexivity. Qed.

Lemma root_token_at_pair ws rest :
  ws <> [] -> all_of Py_UNICODE_ISSPACE ws -> head_not Py_UNICODE_ISSPACE rest ->
  root_token_at (BUNDLE ++ ws ++ rest) = Some (ws, rest).
Proof.
  intros Hne Hws Hrest. unfold root_token_at. rewrite starts_with_app.
  change 7%nat with (length BUNDLE). rewrite drop_app_length.
  rewrite (span_run _ _ _ Hws Hrest). cbn [fst]. destruct ws; [congruence|reflexivity].
Qed.

(** X11.  A content in which no root token is followed by whitespace
    comes back from the substitution of line 97 unchanged: nothing is
    marked as disabled. *)
Theorem mark_disabled_without_root_token (content : str) :
  without_root_token content -> mark_disabled content = Ok content.
Proof.
  intros Hw. rewrite mark_disabled_Ok. f_equal.
  induction content as [|c s IH]; [reflexivity|].
  rewrite sub_scan_disabled_cons.
  - f_equal. apply IH. intros before after ->. apply (Hw (c :: before) after). reflexivity.
  - destruct (root_token_at (c :: s)) as [[ws r]|] eqn:E; [|reflexivity].
    exfalso. apply root_token_at_Some in E as (Heq & Hne & Hws & _).
    apply (Hw [] (c :: s) eq_refl).
    destruct ws as [|x ws]; [congruence|].
    exists x, (ws ++ r). split; [exact Heq|].
    unfold all_of in Hws. cbn [forallb] in Hws. apply andb_true_iff in Hws as [Hx _]. exact Hx.
Qed.

Lemma mark_disabled_without_root_token_witness :
  mark_disabled (ustr "<BundleList><Bundles/></BundleList>")
  = Ok (ustr "<BundleList><Bundles/></BundleList>").
Proof.
  apply mark_disabled_without_root_token, no_root_token_from_without. vm_compute. reflexivity.
Defined.

Lemma sub_scan_disabled_token (ws rest : str) :
  ws <> [] -> all_of Py_UNICODE_ISSPACE ws -> head_not Py_UNICODE_ISSPACE rest ->
  sub_scan disabled_pattern ([TGroup 1] ++ literal_items DISABLED) 0 (BUNDLE ++ ws ++ rest)
  = BUNDLE ++ ws ++ DISABLED
    ++ sub_scan disabled_pattern ([TGroup 1] ++ literal_items DISABLED) 0 rest.
Proof.
  intros Hne Hws Hrest.
  change (BUNDLE ++ ws ++ rest) with (60 :: tail BUNDLE ++ ws ++ rest) at 1.
  cbn [sub_scan]. rewrite sre_match_disabled.
  change (60 :: tail BUNDLE ++ ws ++ rest) with (BUNDLE ++ ws ++ rest).
  rewrite (root_token_at_pair ws rest Hne Hws Hrest).
  rewrite expand_disabled.
  change (pred (7 + length ws)) with (length (tail BUNDLE) + length ws)%nat.
  rewrite <- length_app, (app_assoc (tail BUNDLE)), sub_scan_skip, <- !app_assoc.
  reflexivity.
Qed.

(** X12.  The substitution of line 97 does not look for a marker that is
    already there: on a root token that carries the marker it puts a
    second one. *)
Theorem mark_disabled_again (ws rest : str) :
  ws <> [] -> all_of Py_UNICODE_ISSPACE ws ->
  exists out,
    mark_disabled rest = Ok out
    /\ mark_disabled (BUNDLE ++ ws ++ DISABLED ++ rest)
       = Ok (BUNDLE ++ ws ++ DISABLED ++ DISABLED ++ out).
Proof.
  intros Hne Hws. rewrite !mark_disabled_Ok. eexists. split; [reflexivity|]. f_equal.
  rewrite (sub_scan_disabled_token ws (DISABLED ++ rest) Hne Hws) by reflexivity.
  reflexivity.
Qed.

Lemma mark_disabled_again_witness :
  exists out,
    mark_disabled (ustr "name=.Admin.>") = Ok out
    /\ mark_disabled (BUNDLE ++ [32] ++ DISABLED ++ ustr "name=.Admin.>")
       = Ok (BUNDLE ++ [32] ++ DISABLED ++ DISABLED ++ out).
Proof.
  apply mark_disabled_again; [discriminate|reflexivity].
Defined.

(** ** How a row can end *)

Section RowOutcomes.

Variable isalnum_nonascii : N -> bool.
Variables bundle_folder disabled_folder : dir.

Lemma try_body_read_fails old_file_name new_file_name new_role_escaped w old_file_path :
  (files w !! old_file_path = None \/ read_fails w old_file_path = true) ->
  try_body old_file_name new_file_name new_role_escaped disabled_folder old_file_path w
  = (Raise OSError, w).
Proof.
  intros H. unfold try_body, bind at 1, read_text.
  destruct (files w !! old_file_path) as [content|]; [|reflexivity].
  destruct H as [H|H]; [discriminate H|]. rewrite H. reflexivity.
Qed.

Lemma try_body_new_write_fails old_file_name new_file_name new_role_escaped w old_file_path
    content content_new :
  files w !! old_file_path = Some content ->
  read_fails w old_file_path = false ->
  rewrite_identity (universal_newlines content) new_role_escaped = Ok content_new ->
  write_fails w (os_path_join (os_path_dirname old_file_path) new_file_name) = true ->
  try_body old_file_name new_file_name new_role_escaped disabled_folder old_file_path w
  = (Raise OSError,
     failed_write (os_path_join (os_path_dirname old_file_path) new_file_name) content_new w).
Proof.
  intros Hfile Hread Hnew H. unfold try_body, bind at 1, read_text. rewrite Hfile, Hread.
  unfold bind at 1, lift at 1. rewrite Hnew.
  unfold bind at 1, write_text at 1. rewrite H. reflexivity.
Qed.

(** What the [try] and its handler make of a file that was found. *)
Lemma try_except_cases (original_role old_file_name new_file_name new_role_escaped : str)
    (d : dir) (w : world) :
  is_Some (files w !! os_path_join d old_file_name) ->
  exists r w',
    try_except
      (try_body old_file_name new_file_name new_role_escaped disabled_folder
         (os_path_join d old_file_name))
      (on_exception old_file_name original_role) w = (Ok r, w')
    /\ row_outcome original_role old_file_name new_file_name disabled_folder d (files w)
         r (files w')
    /\ dirs w' = dirs w /\ read_fails w' = read_fails w
    /\ write_fails w' = write_fails w /\ remove_fails w' = remove_fails w
    /\ exists l, log w' = log w ++ l.
Proof.
  intros [content Hfile].
  set (p := os_path_join d old_file_name) in *.
  unfold try_except.
  destruct (read_fails w p) eqn:Hread.
  { rewrite try_body_read_fails by (right; exact Hread).
    unfold on_exception, bind, logging_error, ret. eexists _, _. split; [reflexivity|].
    cbn. split; [constructor|]. repeat split; eexists; rewrite <- ?app_assoc; reflexivity. }
  destruct (rewrite_identity (universal_newlines content) new_role_escaped)
    as [cn|e] eqn:Hnew.
  2:{ rewrite (try_body_template_raises disabled_folder _ _ _ _ _ content Hfile e Hread Hnew).
      unfold on_exception, bind, logging_error, ret. eexists _, _. split; [reflexivity|].
      cbn. split; [constructor|].
      repeat split; eexists; rewrite <- ?app_assoc; reflexivity. }
  destruct (write_fails w (os_path_join (os_path_dirname p) new_file_name)) eqn:Hw1.
  { rewrite (try_body_new_write_fails _ _ _ _ _ content cn Hfile Hread Hnew Hw1).
    unfold on_exception, bind, logging_error, ret, failed_write.
    destruct (write_leaves w _); (eexists _, _; split; [reflexivity|]); cbn.
    - split; [apply row_new_file_only|].
      repeat split; eexists; rewrite <- ?app_assoc; reflexivity.
    - split; [constructor|]. repeat split; eexists; rewrite <- ?app_assoc; reflexivity. }
  destruct (mark_disabled_returns (universal_newlines content)) as [cd Hdis].
  destruct (write_fails w (os_path_join disabled_folder old_file_name)) eqn:Hw2.
  { rewrite (try_body_disabled_write_fails disabled_folder _ _ _ _ _ content Hfile
               cn cd Hread Hnew Hdis Hw1 Hw2).
    unfold on_exception, bind, logging_error, ret, failed_write.
    cbn [write_leaves logged set_files].
    destruct (write_leaves w _); (eexists _, _; split; [reflexivity|]); cbn.
    - split; [apply row_not_removed|].
      repeat split; eexists; rewrite <- ?app_assoc; reflexivity.
    - split; [apply row_new_file_only|].
      repeat split; eexists; rewrite <- ?app_assoc; reflexivity. }
  destruct (remove_fails w p) eqn:Hrm.
  { rewrite (try_body_remove_fails disabled_folder _ _ _ _ _ content Hfile
               cn cd Hread Hnew Hdis Hw1 Hw2 Hrm).
    unfold on_exception, bind, logging_error, ret. eexists _, _. split; [reflexivity|].
    cbn. split; [apply row_not_removed|].
    repeat split; eexists; rewrite <- ?app_assoc; reflexivity. }
  rewrite (try_body_succeeds disabled_folder _ _ _ _ _ content Hfile
             cn cd Hread Hnew Hdis Hw1 Hw2 Hrm).
  eexists _, _. split; [reflexivity|].
  cbn. split; [apply row_renamed|].
  repeat split; eexists; rewrite <- ?app_assoc; reflexivity.
Qed.

Lemma process_role_cases (row : gmap str (option str)) (o n : str) (w : world) :
  row !! Original_Role_Name = Some (Some o) ->
  row !! New_Role_Name = Some (Some n) ->
  exists r w',
    process_role isalnum_nonascii row bundle_folder disabled_folder w = (Ok r, w')
    /\ match fst (find_file_recursive bundle_folder
                    (canonical isalnum_nonascii (strip o)) w) with
       | Ok (Some p) =>
           snd p = canonical isalnum_nonascii (strip o)
           /\ row_outcome (strip o) (canonical isalnum_nonascii (strip o))
                (canonical isalnum_nonascii (strip n)) disabled_folder (fst p) (files w)
                r (files w')
       | _ => r = Some (strip o) /\ files w' = files w
       end
    /\ dirs w' = dirs w /\ read_fails w' = read_fails w
    /\ write_fails w' = write_fails w /\ remove_fails w' = remove_fails w
    /\ exists l, log w' = log w ++ l.
Proof.
  intros Ho Hn.
  rewrite (process_role_unfold isalnum_nonascii bundle_folder disabled_folder row o n Ho Hn).
  rewrite find_file_recursive_locate. cbn [fst].
  destruct (locate _ _ _) as [p|] eqn:E.
  - apply locate_Some in E as [Hsome Hname]. destruct p as [d name]. cbn in Hname. subst name.
    set (w1 := logged w _).
    destruct (try_except_cases (strip o) (canonical isalnum_nonascii (strip o))
                (canonical isalnum_nonascii (strip n))
                (escape_special_characters (strip n)) d w1 Hsome)
      as (r & w' & Hrun & Hout & Hd & Hr & Hw & Hrm & l & Hl).
    exists r, w'. split; [exact Hrun|]. split; [split; [reflexivity|exact Hout]|].
    repeat (split; [assumption|]).
    eexists. rewrite Hl. subst w1. cbn [log logged]. rewrite <- app_assoc. reflexivity.
  - eexists _, _. split; [reflexivity|]. cbn. split; [split; reflexivity|].
    repeat split; eexists; rewrite <- ?app_assoc; reflexivity.
Qed.

(** X13.  A row with both values never makes [process_role] raise, and
    it ends in one of five ways.  When the file is not found the
    original role comes back and no file changes.  When it is found in a
    directory, either no file has changed, or only the new file has been
    written, or the new file and the archived copy have been written; in
    these three cases the original role comes back.  Or both have been
    written and the original removed, and None comes back.  The
    directories and the faults stay as they were and the log only
    grows. *)
Theorem process_role_outcomes (row : gmap str (option str)) (o n old_file_name new_file_name : str)
    (w : world) :
  row !! Original_Role_Name = Some (Some o) ->
  row !! New_Role_Name = Some (Some n) ->
  format_file_name isalnum_nonascii (strip o) = Ok old_file_name ->
  format_file_name isalnum_nonascii (strip n) = Ok new_file_name ->
  exists r w',
    process_role isalnum_nonascii row bundle_folder disabled_folder w = (Ok r, w')
    /\ match fst (find_file_recursive bundle_folder old_file_name w) with
       | Ok (Some p) =>
           snd p = old_file_name
           /\ row_outcome (strip o) old_file_name new_file_name disabled_folder (fst p)
                (files w) r (files w')
       | _ => r = Some (strip o) /\ files w' = files w
       end
    /\ dirs w' = dirs w /\ read_fails w' = read_fails w
    /\ write_fails w' = write_fails w /\ remove_fails w' = remove_fails w
    /\ exists l, log w' = log w ++ l.
Proof.
  intros Ho Hn Hold Hnew. rewrite format_file_name_eq in Hold, Hnew.
  apply Ok_inj in Hold, Hnew. subst. exact (process_role_cases row o n w Ho Hn).
Qed.

Lemma row_outcome_other_names original_role old_file_name new_file_name d fs r fs' (p : path) :
  row_outcome original_role old_file_name new_file_name disabled_folder d fs r fs' ->
  snd p <> old_file_name -> snd p <> new_file_name ->
  fs' !! p = fs !! p.
Proof.
  intros H Hold Hnew.
  destruct H as [|cn|cn cd|cn cd]; unfold os_path_join.
  - reflexivity.
  - apply lookup_insert_ne. intros <-. apply Hnew. reflexivity.
  - rewrite lookup_insert_ne by (intros <-; apply Hold; reflexivity).
    apply lookup_insert_ne. intros <-. apply Hnew. reflexivity.
  - rewrite lookup_delete_ne by (intros <-; apply Hold; reflexivity).
    rewrite lookup_insert_ne by (intros <-; apply Hold; reflexivity).
    apply lookup_insert_ne. intros <-. apply Hnew. reflexivity.
Qed.

(** X14.  [process_role] leaves every path alone whose file name is
    neither the file name of the original role nor that of the new
    role, in whatever directory and however the row ends. *)
Theorem process_role_touches_only_its_files (row : gmap str (option str)) (o n : str)
    (w : world) (p : path) :
  row !! Original_Role_Name = Some (Some o) ->
  row !! New_Role_Name = Some (Some n) ->
  format_file_name isalnum_nonascii (strip o) <> Ok (snd p) ->
  format_file_name isalnum_nonascii (strip n) <> Ok (snd p) ->
  files (snd (process_role isalnum_nonascii row bundle_folder disabled_folder w)) !! p
  = files w !! p.
Proof.
  intros Ho Hn Hold Hnew. rewrite format_file_name_eq in Hold, Hnew.
  destruct (process_role_cases row o n w Ho Hn) as (r & w' & -> & Hout & _).
  cbn [snd].
  destruct (fst (find_file_recursive _ _ _)) as [[q|]|e].
  - destruct Hout as [_ Hout].
    apply (row_outcome_other_names _ _ _ _ _ _ _ p Hout); congruence.
  - destruct Hout as [_ ->]. reflexivity.
  - destruct Hout as [_ ->]. reflexivity.
Qed.

Lemma locate_is_Some fs name walk d :
  d ∈ walk -> is_Some (fs !! os_path_join d name) -> is_Some (locate fs name walk).
Proof.
  intros Hin Hsome. induction walk as [|d' walk IH]; [inversion Hin|].
  cbn [locate]. destruct (bool_decide _) eqn:E; [eauto|].
  apply elem_of_cons in Hin as [->|Hin]; [|exact (IH Hin)].
  apply bool_decide_eq_false in E. contradiction.
Qed.

(** X15.  When [process_role] returns None nothing is left at the path
    where the file was found.  So when the new role has the file name of
    the original role, the new file is gone as well; when the file was
    found in the archive directory, the archived copy is gone; and
    otherwise the archive directory holds a file of the old name. *)
Theorem successful_row_clears_the_place_of_the_file (row : gmap str (option str))
    (o n old_file_name new_file_name : str) (old_file_path : path) (w w' : world) :
  row !! Original_Role_Name = Some (Some o) ->
  row !! New_Role_Name = Some (Some n) ->
  format_file_name isalnum_nonascii (strip o) = Ok old_file_name ->
  format_file_name isalnum_nonascii (strip n) = Ok new_file_name ->
  fst (find_file_recursive bundle_folder old_file_name w) = Ok (Some old_file_path) ->
  process_role isalnum_nonascii row bundle_folder disabled_folder w = (Ok None, w') ->
  files w' !! old_file_path = None
  /\ (new_file_name = old_file_name ->
      files w' !! os_path_join (os_path_dirname old_file_path) new_file_name = None)
  /\ (os_path_dirname old_file_path = disabled_folder ->
      files w' !! os_path_join disabled_folder old_file_name = None)
  /\ (os_path_dirname old_file_path <> disabled_folder ->
      is_Some (files w' !! os_path_join disabled_folder old_file_name)).
Proof.
  intros Ho Hn Hold Hnew Hfind Hrun. rewrite format_file_name_eq in Hold, Hnew.
  apply Ok_inj in Hold, Hnew. subst old_file_name new_file_name.
  destruct (process_role_cases row o n w Ho Hn) as (r & w1 & Hrun' & Hout & _).
  rewrite Hrun in Hrun'. injection Hrun' as <- <-.
  rewrite Hfind in Hout. destruct Hout as [Hname Hout].
  destruct old_file_path as [d name]. cbn in Hname. subst name.
  cbn [fst os_path_dirname] in *.
  inversion Hout as [| | |cn cd Hr Hf]. unfold os_path_join in *.
  split; [apply lookup_delete_eq|].
  split; [intros ->; apply lookup_delete_eq|].
  split; [intros ->; apply lookup_delete_eq|].
  intros Hne. rewrite lookup_delete_ne by congruence.
  rewrite lookup_insert_eq. eauto.
Qed.

(** X16.  When the archive directory is one of the directories below
    the bundle folder, the old file name is still found after a row has
    succeeded: a second search from the bundle folder returns a file
    that exists. *)
Theorem archived_copy_is_found_again (row : gmap str (option str))
    (o n old_file_name : str) (old_file_path : path) (w w' : world) :
  row !! Original_Role_Name = Some (Some o) ->
  row !! New_Role_Name = Some (Some n) ->
  format_file_name isalnum_nonascii (strip o) = Ok old_file_name ->
  fst (find_file_recursive bundle_folder old_file_name w) = Ok (Some old_file_path) ->
  os_path_dirname old_file_path <> disabled_folder ->
  disabled_folder ∈ dirs w ->
  is_prefix bundle_folder disabled_folder = true ->
  process_role isalnum_nonascii row bundle_folder disabled_folder w = (Ok None, w') ->
  exists p, fst (find_file_recursive bundle_folder old_file_name w') = Ok (Some p)
            /\ is_Some (files w' !! p).
Proof.
  intros Ho Hn Hold Hfind Hne Hin Hprefix Hrun. rewrite format_file_name_eq in Hold.
  apply Ok_inj in Hold. subst old_file_name.
  destruct (process_role_cases row o n w Ho Hn) as (r & w1 & Hrun' & Hout & Hdirs & _).
  rewrite Hrun in Hrun'. injection Hrun' as <- <-.
  rewrite Hfind in Hout. destruct Hout as [Hname Hout].
  destruct old_file_path as [d name]. cbn in Hname. subst name.
  cbn [fst os_path_dirname] in *.
  inversion Hout as [| | |cn cd Hr Hf].
  assert (is_Some (files w' !! os_path_join disabled_folder
                     (canonical isalnum_nonascii (strip o)))) as Hsome.
  { rewrite <- Hf. unfold os_path_join. rewrite lookup_delete_ne by congruence.
    rewrite lookup_insert_eq. eauto. }
  rewrite find_file_recursive_locate. cbn [fst].
  assert (disabled_folder ∈ below bundle_folder (dirs w')) as Hbelow.
  { rewrite Hdirs. unfold below. apply list_elem_of_filter. split; assumption. }
  destruct (locate_is_Some _ _ _ _ Hbelow Hsome) as [p Hp].
  exists p. split; [rewrite Hp; reflexivity|].
  pose proof (proj1 (locate_Some _ _ _ _ Hp)) as Hq.
  first [exact Hq | rewrite Hf; exact Hq].
Qed.

(** X17.  When the file is found but cannot be read, or the
    substitution of line 89 raises, or the new file cannot be written,
    [process_role] returns the original role and no path but that of the
    new file has changed.  In the first two cases every file is as it
    was.  In the third the path of the new file is as it was when the
    file could not be opened, and else holds what was written of the new
    content before the failure. *)
Theorem early_failure_touches_the_new_file_only (row : gmap str (option str))
    (o n old_file_name new_file_name : str) (old_file_path : path) (content : str) (w : world) :
  row !! Original_Role_Name = Some (Some o) ->
  row !! New_Role_Name = Some (Some n) ->
  format_file_name isalnum_nonascii (strip o) = Ok old_file_name ->
  format_file_name isalnum_nonascii (strip n) = Ok new_file_name ->
  fst (find_file_recursive bundle_folder old_file_name w) = Ok (Some old_file_path) ->
  files w !! old_file_path = Some content ->
  (read_fails w old_file_path = true
   \/ (exists e, rewrite_identity (universal_newlines content)
                   (escape_special_characters (strip n)) = Raise e)
   \/ write_fails w (os_path_join (os_path_dirname old_file_path) new_file_name) = true) ->
  exists w',
    process_role isalnum_nonascii row bundle_folder disabled_folder w
      = (Ok (Some (strip o)), w')
    /\ (forall p, p <> os_path_join (os_path_dirname old_file_path) new_file_name ->
                  files w' !! p = files w !! p)
    /\ (read_fails w old_file_path = true
        \/ (exists e, rewrite_identity (universal_newlines content)
                        (escape_special_characters (strip n)) = Raise e) ->
        files w' = files w)
    /\ (forall content_new,
          read_fails w old_file_path = false ->
          rewrite_identity (universal_newlines content) (escape_special_characters (strip n))
            = Ok content_new ->
          files w'
          = match write_leaves w (os_path_join (os_path_dirname old_file_path) new_file_name)
            with
            | None => files w
            | Some written =>
                <[os_path_join (os_path_dirname old_file_path) new_file_name
                  := take written content_new]> (files w)
            end).
Proof.
  intros Ho Hn Hold Hnew Hfind Hfile Hfail. rewrite format_file_name_eq in Hold, Hnew.
  apply Ok_inj in Hold, Hnew. subst old_file_name new_file_name.
  rewrite (process_role_found isalnum_nonascii bundle_folder disabled_folder row _ _ Ho Hn w
             old_file_path) by exact Hfind.
  unfold try_except. set (w1 := logged w _).
  destruct (read_fails w old_file_path) eqn:Hread.
  { rewrite try_body_read_fails by (right; exact Hread).
    unfold on_exception, bind, logging_error, ret. eexists. split; [reflexivity|].
    split; [reflexivity|]. split; [reflexivity|]. intros cn H. discriminate H. }
  destruct (rewrite_identity (universal_newlines content) (escape_special_characters (strip n)))
    as [cn|e] eqn:Hre.
  - destruct Hfail as [Hfail|[[e He]|Hfail]]; [discriminate|discriminate|].
    rewrite (try_body_new_write_fails _ _ _ w1 _ content cn Hfile Hread Hre Hfail).
    unfold on_exception, bind, logging_error, ret, failed_write. subst w1.
    cbn [write_leaves logged set_files].
    destruct (write_leaves w _); eexists; (split; [reflexivity|]); cbn [files add_log].
    + split; [intros p Hp; apply lookup_insert_ne; congruence|].
      split; [intros [H|[e H]]; discriminate H|].
      intros cn' _ H. apply Ok_inj in H. subst cn'. reflexivity.
    + split; [reflexivity|]. split; [reflexivity|]. reflexivity.
  - rewrite (try_body_template_raises disabled_folder _ _ _ w1 _ content Hfile e Hread Hre).
    unfold on_exception, bind, logging_error, ret. eexists. split; [reflexivity|].
    split; [reflexivity|]. split; [reflexivity|]. intros cn _ H. discriminate H.
Qed.

End RowOutcomes.

Lemma process_role_outcomes_witness :
  exists r w',
    process_role latin1_isalnum (dict_row header Admin_to_SuperAdmin) bundle_root archive_dir
      (admin_world roles_dir Admin_xml no_fault no_fault) = (Ok r, w')
    /\ match fst (find_file_recursive bundle_root NAB_Bundle_Admin_xml
                    (admin_world roles_dir Admin_xml no_fault no_fault)) with
       | Ok (Some p) =>
           snd p = NAB_Bundle_Admin_xml
           /\ row_outcome (strip (ustr "Admin")) NAB_Bundle_Admin_xml NAB_Bundle_SuperAdmin_xml
                archive_dir (fst p)
                (files (admin_world roles_dir Admin_xml no_fault no_fault)) r (files w')
       | _ => r = Some (strip (ustr "Admin"))
              /\ files w' = files (admin_world roles_dir Admin_xml no_fault no_fault)
       end
    /\ dirs w' = dirs (admin_world roles_dir Admin_xml no_fault no_fault)
    /\ read_fails w' = read_fails (admin_world roles_dir Admin_xml no_fault no_fault)
    /\ write_fails w' = write_fails (admin_world roles_dir Admin_xml no_fault no_fault)
    /\ remove_fails w' = remove_fails (admin_world roles_dir Admin_xml no_fault no_fault)
    /\ exists l, log w' = log (admin_world roles_dir Admin_xml no_fault no_fault) ++ l.
Proof.
  apply (process_role_outcomes latin1_isalnum bundle_root archive_dir
           (dict_row header Admin_to_SuperAdmin) (ustr "Admin") (ustr "SuperAdmin"));
    vm_compute; reflexivity.
Defined.

Lemma process_role_touches_only_its_files_witness :
  files (snd (process_role latin1_isalnum (dict_row header Admin_to_SuperAdmin)
                bundle_root archive_dir
                (admin_world roles_dir Admin_xml no_fault no_fault)))
    !! os_path_join roles_dir (ustr "NAB_Bundle_Auditor.xml")
  = files (admin_world roles_dir Admin_xml no_fault no_fault)
      !! os_path_join roles_dir (ustr "NAB_Bundle_Auditor.xml").
Proof.
  apply (process_role_touches_only_its_files latin1_isalnum bundle_root archive_dir
           (dict_row header Admin_to_SuperAdmin) (ustr "Admin") (ustr "SuperAdmin"));
    try (vm_compute; reflexivity);
    intros H; vm_compute in H; discriminate H.
Defined.

Lemma successful_row_clears_the_place_of_the_file_witness :
  exists w',
    process_role latin1_isalnum (dict_row header [ustr "Admin"; ustr "Admin"])
      bundle_root archive_dir (admin_world roles_dir Admin_xml no_fault no_fault)
      = (Ok None, w')
    /\ files w' !! os_path_join roles_dir NAB_Bundle_Admin_xml = None
    /\ is_Some (files w' !! os_path_join archive_dir NAB_Bundle_Admin_xml).
Proof.
  destruct (process_role latin1_isalnum (dict_row header [ustr "Admin"; ustr "Admin"])
              bundle_root archive_dir (admin_world roles_dir Admin_xml no_fault no_fault))
    as [r w'] eqn:Hrun.
  assert (r = Ok None) as ->.
  { apply (f_equal fst) in Hrun. cbn [fst] in Hrun. rewrite <- Hrun.
    vm_compute. reflexivity. }
  exists w'. split; [reflexivity|].
  destruct (successful_row_clears_the_place_of_the_file latin1_isalnum bundle_root archive_dir
              (dict_row header [ustr "Admin"; ustr "Admin"]) (ustr "Admin") (ustr "Admin")
              NAB_Bundle_Admin_xml NAB_Bundle_Admin_xml
              (os_path_join roles_dir NAB_Bundle_Admin_xml)
              (admin_world roles_dir Admin_xml no_fault no_fault) w')
    as (H1 & H2 & _ & H4); try (vm_compute; reflexivity); [exact Hrun|].
  split; [exact H1|]. apply H4. intros H. vm_compute in H. discriminate H.
Defined.

Lemma archived_copy_is_found_again_witness :
  exists w' p,
    process_role latin1_isalnum (dict_row header Admin_to_SuperAdmin)
      bundle_root archive_dir (admin_world roles_dir Admin_xml no_fault no_fault)
      = (Ok None, w')
    /\ fst (find_file_recursive bundle_root NAB_Bundle_Admin_xml w') = Ok (Some p)
    /\ is_Some (files w' !! p).
Proof.
  destruct (process_role latin1_isalnum (dict_row header Admin_to_SuperAdmin)
              bundle_root archive_dir (admin_world roles_dir Admin_xml no_fault no_fault))
    as [r w'] eqn:Hrun.
  assert (r = Ok None) as ->.
  { apply (f_equal fst) in Hrun. cbn [fst] in Hrun. rewrite <- Hrun.
    vm_compute. reflexivity. }
  destruct (archived_copy_is_found_again latin1_isalnum bundle_root archive_dir
              (dict_row header Admin_to_SuperAdmin) (ustr "Admin") (ustr "SuperAdmin")
              NAB_Bundle_Admin_xml
              (os_path_join roles_dir NAB_Bundle_Admin_xml)
              (admin_world roles_dir Admin_xml no_fault no_fault) w')
    as (p & Hp & Hsome); try (vm_compute; reflexivity).
  - intros H. vm_compute in H. discriminate H.
  - apply (bool_decide_unpack _). vm_compute. exact I.
  - exact Hrun.
  - exists w', p. split; [reflexivity|]. split; assumption.
Defined.

Lemma early_failure_touches_the_new_file_only_witness :
  exists w',
    process_role latin1_isalnum (dict_row header [ustr "Admin"; ustr "Admin"])
      bundle_root archive_dir
      (admin_world_torn roles_dir Admin_xml
         (fault_at (os_path_join roles_dir NAB_Bundle_Admin_xml)) 0)
      = (Ok (Some (strip (ustr "Admin"))), w')
    /\ files w' !! os_path_join roles_dir NAB_Bundle_Admin_xml = Some []
    /\ files w' !! os_path_join archive_dir NAB_Bundle_Admin_xml = None.
Proof.
  destruct (early_failure_touches_the_new_file_only latin1_isalnum bundle_root archive_dir
              (dict_row header [ustr "Admin"; ustr "Admin"]) (ustr "Admin") (ustr "Admin")
              NAB_Bundle_Admin_xml NAB_Bundle_Admin_xml
              (os_path_join roles_dir NAB_Bundle_Admin_xml) Admin_xml
              (admin_world_torn roles_dir Admin_xml
                 (fault_at (os_path_join roles_dir NAB_Bundle_Admin_xml)) 0))
    as (w' & Hrun & Hother & _ & Hnew);
    try (vm_compute; reflexivity).
  { right. right. vm_compute. reflexivity. }
  exists w'. split; [exact Hrun|]. split.
  - erewrite Hnew by (vm_compute; reflexivity). vm_compute. reflexivity.
  - rewrite Hother by (intros H; vm_compute in H; discriminate H).
    vm_compute. reflexivity.
Defined.

Lemma only_files_and_log_refl w : only_files_and_log w w.
Proof. repeat split. exists []. symmetry. apply app_nil_r. Qed.

Lemma only_files_and_log_trans w1 w2 w3 :
  only_files_and_log w1 w2 -> only_files_and_log w2 w3 -> only_files_and_log w1 w3.
Proof.
  intros (Hd & Hr & Hw & Hm & l & Hl) (Hd' & Hr' & Hw' & Hm' & l' & Hl').
  repeat split; try congruence.
  exists (l ++ l'). rewrite Hl', Hl, app_assoc. reflexivity.
Qed.

Lemma only_files_and_log_logged w l : only_files_and_log w (logged w l).
Proof. repeat split. exists l. reflexivity. Qed.

Lemma only_files_and_log_add_log w r : only_files_and_log w (add_log r w).
Proof. repeat split. exists [r]. reflexivity. Qed.

Lemma only_files_and_log_set_files w f : only_files_and_log w (set_files f w).
Proof. repeat split. exists []. symmetry. apply app_nil_r. Qed.

Lemma only_files_and_log_failed_write w p content :
  only_files_and_log w (failed_write p content w).
Proof.
  unfold failed_write. destruct (write_leaves w p);
    [apply only_files_and_log_set_files|apply only_files_and_log_refl].
Qed.

Section Batch.
Variable isalnum_nonascii : N -> bool.
Variables bundle_folder disabled_folder : dir.

(** A row with a key but no value for it stops [process_role] before
    anything is done. *)
Lemma process_role_missing_value (row : gmap str (option str)) (w : world) :
  is_Some (row !! Original_Role_Name) ->
  row !! Original_Role_Name = Some None \/ row !! New_Role_Name = Some None ->
  process_role isalnum_nonascii row bundle_folder disabled_folder w = (Raise AttributeError, w).
Proof.
  intros [vo Ho] H. unfold process_role, row_strip. unfold bind at 1. rewrite Ho.
  destruct vo as [o|]; [|reflexivity].
  destruct H as [H|H]; [congruence|].
  unfold ret at 1. unfold bind at 1. rewrite H. reflexivity.
Qed.

(** Whatever the row, [process_role] leaves the directories and the
    faults alone and keeps every file that the row does not name. *)
Lemma process_role_any (row : gmap str (option str)) (w : world) :
  only_files_and_log w
    (snd (process_role isalnum_nonascii row bundle_folder disabled_folder w))
  /\ forall p,
       (forall key v, key = Original_Role_Name \/ key = New_Role_Name ->
                      row !! key = Some (Some v) ->
                      canonical isalnum_nonascii (strip v) <> snd p) ->
       files (snd (process_role isalnum_nonascii row bundle_folder disabled_folder w)) !! p
       = files w !! p.
Proof.
  destruct (row !! Original_Role_Name) as [[o|]|] eqn:Ho.
  - destruct (row !! New_Role_Name) as [[n|]|] eqn:Hn.
    + destruct (process_role_cases isalnum_nonascii bundle_folder disabled_folder row o n w
                  Ho Hn) as (r & w' & Hrun & Hout & Hframe).
      rewrite Hrun. cbn [snd]. split; [exact Hframe|].
      intros p Hp.
      destruct (fst (find_file_recursive _ _ _)) as [[q|]|e].
      * destruct Hout as [_ Hout].
        apply (row_outcome_other_names disabled_folder _ _ _ _ _ _ _ p Hout).
        -- intros E. exact (Hp Original_Role_Name o (or_introl eq_refl) Ho (eq_sym E)).
        -- intros E. exact (Hp New_Role_Name n (or_intror eq_refl) Hn (eq_sym E)).
      * destruct Hout as [_ ->]. reflexivity.
      * destruct Hout as [_ ->]. reflexivity.
    + rewrite process_role_missing_value by eauto.
      split; [apply only_files_and_log_refl|reflexivity].
    + unfold process_role, row_strip. unfold bind at 1. rewrite Ho.
      unfold ret at 1. unfold bind at 1. rewrite Hn.
      split; [apply only_files_and_log_refl|reflexivity].
  - rewrite process_role_missing_value by eauto.
    split; [apply only_files_and_log_refl|reflexivity].
  - unfold process_role, row_strip. unfold bind at 1. rewrite Ho.
    split; [apply only_files_and_log_refl|reflexivity].
Qed.

Lemma for_rows_any (fieldnames : list str) (records : list (list str)) :
  forall (acc : list str) (w : world),
    only_files_and_log w
      (snd (for_rows isalnum_nonascii fieldnames records bundle_folder disabled_folder acc w))
    /\ forall p,
         not_named_by isalnum_nonascii fieldnames records (snd p) ->
         files (snd (for_rows isalnum_nonascii fieldnames records
                       bundle_folder disabled_folder acc w)) !! p
         = files w !! p.
Proof.
  induction records as [|record records IH]; intros acc w.
  - split; [apply only_files_and_log_refl|reflexivity].
  - cbn [for_rows].
    destruct (negb _ || negb _).
    + split; [apply only_files_and_log_add_log|reflexivity].
    + unfold bind.
      destruct (process_role_any (dict_row fieldnames record) w) as [Hframe Hkeep].
      destruct (process_role isalnum_nonascii (dict_row fieldnames record)
                  bundle_folder disabled_folder w) as [[r|e] w1].
      * cbn [snd] in Hframe, Hkeep. cbv beta iota.
        match goal with
        | |- context [for_rows _ _ _ _ _ ?a w1] => destruct (IH a w1) as [Hframe' Hkeep']
        end.
        split; [exact (only_files_and_log_trans _ _ _ Hframe Hframe')|].
        intros p Hp. rewrite Hkeep'.
        -- apply Hkeep. intros key v Hkey Hv.
           exact (Hp record key v (list_elem_of_here _ _) Hkey Hv).
        -- intros record' key v Hin. apply Hp. apply list_elem_of_further. exact Hin.
      * cbn [snd] in *. split; [exact Hframe|].
        intros p Hp. apply Hkeep. intros key v Hkey Hv.
        exact (Hp record key v (list_elem_of_here _ _) Hkey Hv).
Qed.

(** X18.  [process_files] never raises, whether the mapping file is
    missing, malformed or processed to the end.  It leaves the
    directories and the faults as they were and only adds to the
    log. *)
Theorem process_files_never_raises (csv_file : option (list (list str))) (w : world) :
  exists w',
    process_files isalnum_nonascii csv_file bundle_folder disabled_folder w = (Ok tt, w')
    /\ only_files_and_log w w'.
Proof.
  destruct csv_file as [records|].
  2:{ eexists. split; [reflexivity|]. apply only_files_and_log_add_log. }
  unfold process_files, try_except. unfold bind at 1, logging_info at 1. unfold bind at 1.
  set (w0 := add_log _ w).
  assert (only_files_and_log w w0) as H0 by apply only_files_and_log_add_log.
  destruct (for_rows_any (default [] (head records))
              (filter (fun record => record <> []) (tail records)) [] w0) as [Hframe _].
  destruct (for_rows _ _ _ _ _ _ w0) as [[[|not_found_roles]|e] w1]; cbn [snd] in Hframe.
  - eexists. split; [reflexivity|]. exact (only_files_and_log_trans _ _ _ H0 Hframe).
  - destruct not_found_roles as [|role roles].
    + eexists. split; [reflexivity|].
      eapply only_files_and_log_trans; [exact H0|].
      eapply only_files_and_log_trans; [exact Hframe|]. apply only_files_and_log_add_log.
    + unfold bind at 1. unfold bind at 1. unfold write_text.
      destruct (write_fails w1 _).
      * eexists. split; [reflexivity|].
        eapply only_files_and_log_trans; [exact H0|].
        eapply only_files_and_log_trans; [exact Hframe|].
        eapply only_files_and_log_trans; [apply only_files_and_log_failed_write|].
        apply only_files_and_log_add_log.
      * eexists. split; [reflexivity|].
        eapply only_files_and_log_trans; [exact H0|].
        eapply only_files_and_log_trans; [exact Hframe|].
        eapply only_files_and_log_trans; [apply only_files_and_log_set_files|].
        eapply only_files_and_log_trans; apply only_files_and_log_add_log.
  - eexists. split; [reflexivity|].
    eapply only_files_and_log_trans; [exact H0|].
    eapply only_files_and_log_trans; [exact Hframe|]. apply only_files_and_log_add_log.
Qed.

(** X19.  [process_files] leaves every path alone that is not the report
    and whose file name no record names as the file of its original or
    of its new role. *)
Theorem process_files_keeps_other_files (records : list (list str)) (w : world) (p : path) :
  p <> report_path bundle_folder ->
  not_named_by isalnum_nonascii (default [] (head records)) (tail records) (snd p) ->
  files (snd (process_files isalnum_nonascii (Some records) bundle_folder disabled_folder w))
    !! p
  = files w !! p.
Proof.
  intros Hreport Hnames.
  unfold process_files, try_except. unfold bind at 1, logging_info at 1. unfold bind at 1.
  set (w0 := add_log _ w).
  destruct (for_rows_any (default [] (head records))
              (filter (fun record => record <> []) (tail records)) [] w0) as [_ Hkeep].
  specialize (Hkeep p).
  assert (files (snd (for_rows isalnum_nonascii (default [] (head records))
                        (filter (fun record => record <> []) (tail records))
                        bundle_folder disabled_folder [] w0)) !! p = files w !! p) as Hrows.
  { apply Hkeep. intros record key v Hin. apply Hnames.
    apply list_elem_of_filter in Hin as [_ Hin]. exact Hin. }
  clear Hkeep.
  destruct (for_rows _ _ _ _ _ _ w0) as [[[|not_found_roles]|e] w1]; cbn [snd] in Hrows.
  - exact Hrows.
  - destruct not_found_roles as [|role roles].
    + exact Hrows.
    + unfold bind at 1. unfold bind at 1. unfold write_text.
      destruct (write_fails w1 _).
      * unfold failed_write. destruct (write_leaves w1 _); [|exact Hrows].
        cbn. rewrite lookup_insert_ne; [exact Hrows|].
        intros E. apply Hreport. symmetry. exact E.
      * cbn. rewrite lookup_insert_ne; [exact Hrows|].
        intros E. apply Hreport. symmetry. exact E.
  - exact Hrows.
Qed.

(** X20.  A record that has both columns but no value for one of them
    ends the batch: the records after it are not processed, no report is
    written even when earlier roles were not found, and the only trace
    is the error logged by [process_files]. *)
Theorem missing_cell_aborts_batch (fieldnames : list str) (before after : list (list str))
    (record : list str) (not_found_roles : list str) (w w1 : world) :
  Forall (fun r => r <> []) before ->
  record <> [] ->
  for_rows isalnum_nonascii fieldnames before bundle_folder disabled_folder []
    (logged w [(INFO, CSV_Headers (Some fieldnames))])
    = (Ok (Exhausted not_found_roles), w1) ->
  is_Some (dict_row fieldnames record !! Original_Role_Name) ->
  is_Some (dict_row fieldnames record !! New_Role_Name) ->
  dict_row fieldnames record !! Original_Role_Name = Some None
    \/ dict_row fieldnames record !! New_Role_Name = Some None ->
  process_files isalnum_nonascii (Some (fieldnames :: before ++ record :: after))
    bundle_folder disabled_folder w
  = (Ok tt, logged w1 [(ERROR, Unexpected_error AttributeError)]).
Proof.
  intros Hbefore Hrecord Hrows Ho Hn Hnone.
  unfold process_files, try_except. unfold bind at 1, logging_info at 1. unfold bind at 1.
  cbn [head tail default].
  rewrite filter_app, filter_cons_True by exact Hrecord.
  replace (filter (fun r => r <> []) before) with before.
  2:{ clear Hrows. induction Hbefore as [|r before Hr _ IH]; [reflexivity|].
      rewrite filter_cons_True by exact Hr. f_equal. exact IH. }
  rewrite for_rows_app.
  change (add_log (INFO, CSV_Headers (Some fieldnames)) w)
    with (logged w [(INFO, CSV_Headers (Some fieldnames))]).
  unfold id. rewrite Hrows. cbn [for_rows].
  destruct Ho as [vo Ho'], Hn as [vn Hn'].
  rewrite (has_key_Some _ _ _ Ho'), (has_key_Some _ _ _ Hn'). cbn [negb orb].
  unfold bind at 1.
  rewrite process_role_missing_value by eauto.
  unfold logging_error. world_eq.
Qed.

Lemma for_rows_all_unresolved (fieldnames : list str) (w : world) (records : list (list str)) :
  Forall (full_record fieldnames) records ->
  Forall (nowhere_below isalnum_nonascii bundle_folder w fieldnames) records ->
  forall (acc : list str) (L : list (level * message)),
  exists L',
    for_rows isalnum_nonascii fieldnames records bundle_folder disabled_folder acc (relog L w)
    = (Ok (Exhausted (acc ++ filter (fun role => role <> [])
                               (map (original_role_of fieldnames) records))),
       relog L' w).
Proof.
  induction records as [|record records IH]; intros Hfull Hnone acc L.
  - exists L. cbn. rewrite app_nil_r. reflexivity.
  - apply Forall_cons in Hfull as [(o & n & Ho & Hn) Hfull].
    apply Forall_cons in Hnone as [Hrecord Hnone].
    unfold nowhere_below in Hrecord.
    assert (original_role_of fieldnames record = strip o) as Hrole.
    { unfold original_role_of. rewrite Ho. reflexivity. }
    rewrite Hrole in Hrecord.
    pose proof (process_role_not_found isalnum_nonascii bundle_folder disabled_folder
                  (dict_row fieldnames record) o n Ho Hn (relog L w) Hrecord) as E.
    rewrite (for_rows_step _ _ _ _ _ _ _ _ _ _ E).
    cbn [map]. rewrite Hrole.
    match type of E with
    | _ = (_, logged _ ?l) =>
        change (logged (relog L w) l) with (relog (L ++ l) w)
    end.
    destruct (strip o) as [|c role] eqn:Hstrip.
    + cbn [truthy]. rewrite filter_cons_False by (intros H; apply H; reflexivity).
      apply (IH Hfull Hnone).
    + cbn [truthy]. rewrite filter_cons_True by discriminate.
      match goal with
      | |- context [for_rows _ _ _ _ _ _ (relog ?L1 w)] =>
          destruct (IH Hfull Hnone (acc ++ [c :: role]) L1) as [L' ->]
      end.
      exists L'. rewrite <- app_assoc. reflexivity.
Qed.

(** X21.  When every record has both values and none of the original
    roles has a file below the bundle folder, [process_files] changes no
    role file.  The report lists the trimmed original roles that are not
    empty, one per line in the order of the records; when there is none,
    no report is written. *)
Theorem all_unresolved_report (fieldnames : list str) (records : list (list str)) (w : world) :
  Forall (full_record fieldnames) records ->
  Forall (nowhere_below isalnum_nonascii bundle_folder w fieldnames) records ->
  write_fails w (report_path bundle_folder) = false ->
  exists w',
    process_files isalnum_nonascii (Some (fieldnames :: records))
      bundle_folder disabled_folder w = (Ok tt, w')
    /\ files w'
       = match filter (fun role => role <> []) (map (original_role_of fieldnames) records) with
         | [] => files w
         | role :: roles =>
             <[report_path bundle_folder := report_text (role :: roles)]> (files w)
         end.
Proof.
  intros Hfull Hnone Hwrite.
  unfold process_files, try_except. unfold bind at 1, logging_info at 1. unfold bind at 1.
  cbn [head tail default]. unfold id.
  replace (filter (fun record => record <> []) records) with records.
  2:{ clear Hnone. induction Hfull as [|r records (o & n & Ho & _) _ IH]; [reflexivity|].
      rewrite filter_cons_True; [f_equal; exact IH|].
      intros ->. exact (dict_row_empty_record _ _ _ Ho). }
  change (add_log (INFO, CSV_Headers (Some fieldnames)) w)
    with (relog (log w ++ [(INFO, CSV_Headers (Some fieldnames))]) w).
  destruct (for_rows_all_unresolved fieldnames w records Hfull Hnone []
              (log w ++ [(INFO, CSV_Headers (Some fieldnames))])) as [L' ->].
  cbn [app].
  destruct (filter _ (map _ records)) as [|role roles].
  - eexists. split; reflexivity.
  - unfold bind at 1. unfold bind at 1. unfold write_text.
    change (write_fails (relog L' w)) with (write_fails w).
    unfold report_path in Hwrite. rewrite Hwrite.
    eexists. split; reflexivity.
Qed.

End Batch.

Lemma process_files_keeps_other_files_witness :
  files (snd (process_files latin1_isalnum (Some [header; Admin_to_SuperAdmin])
                bundle_root archive_dir
                (admin_world roles_dir Admin_xml no_fault no_fault)))
    !! os_path_join roles_dir (ustr "NAB_Bundle_Auditor.xml")
  = files (admin_world roles_dir Admin_xml no_fault no_fault)
      !! os_path_join roles_dir (ustr "NAB_Bundle_Auditor.xml").
Proof.
  apply (process_files_keeps_other_files latin1_isalnum bundle_root archive_dir
           [header; Admin_to_SuperAdmin]).
  - intros H. vm_compute in H. discriminate H.
  - intros record key v Hin Hkey Hv.
    apply list_elem_of_singleton in Hin. subst record.
    destruct Hkey as [-> | ->]; vm_compute in Hv; injection Hv as <-;
      intros H; vm_compute in H; discriminate H.
Defined.

Lemma missing_cell_aborts_batch_witness :
  process_files latin1_isalnum
    (Some (header :: [[ustr "Ghost"; ustr "Phantom"]] ++ [ustr "Admin"] :: [Admin_to_SuperAdmin]))
    bundle_root archive_dir (admin_world roles_dir Admin_xml no_fault no_fault)
  = (Ok tt,
     logged
       (logged
          (logged (admin_world roles_dir Admin_xml no_fault no_fault)
             [(INFO, CSV_Headers (Some header))])
          [(INFO, Searching_for_file (ustr "NAB_Bundle_Ghost.xml"));
           (WARNING, File_not_found (ustr "NAB_Bundle_Ghost.xml"))])
       [(ERROR, Unexpected_error AttributeError)]).
Proof.
  apply (missing_cell_aborts_batch latin1_isalnum bundle_root archive_dir header
           [[ustr "Ghost"; ustr "Phantom"]] [Admin_to_SuperAdmin] [ustr "Admin"]
           [ustr "Ghost"]).
  - repeat constructor. discriminate.
  - discriminate.
  - rewrite (for_rows_step latin1_isalnum bundle_root archive_dir _ _ _ _ _ _ _
               (process_role_not_found latin1_isalnum bundle_root archive_dir
                  (dict_row header [ustr "Ghost"; ustr "Phantom"])
                  (ustr "Ghost") (ustr "Phantom") eq_refl eq_refl
                  (logged (admin_world roles_dir Admin_xml no_fault no_fault)
                     [(INFO, CSV_Headers (Some header))])
                  ltac:(apply (bool_decide_unpack _); vm_compute; exact I))).
    reflexivity.
  - vm_compute. eauto.
  - vm_compute. eauto.
  - right. vm_compute. reflexivity.
Defined.

Lemma all_unresolved_report_witness :
  exists w',
    process_files latin1_isalnum
      (Some [header; [ustr "Ghost"; ustr "Phantom"]; [ustr "  "; ustr "Nobody"];
             [ustr " Wraith "; ustr "Shade"]])
      bundle_root archive_dir (admin_world roles_dir Admin_xml no_fault no_fault) = (Ok tt, w')
    /\ files w'
       = <[report_path bundle_root := report_text [ustr "Ghost"; ustr "Wraith"]]>
           (files (admin_world roles_dir Admin_xml no_fault no_fault)).
Proof.
  apply (all_unresolved_report latin1_isalnum bundle_root archive_dir header
           [[ustr "Ghost"; ustr "Phantom"]; [ustr "  "; ustr "Nobody"];
            [ustr " Wraith "; ustr "Shade"]]).
  - repeat constructor; eexists _, _; split; vm_compute; reflexivity.
  - repeat constructor; apply (bool_decide_unpack _); vm_compute; exact I.
  - reflexivity.
Defined.
